(** * History-tree persistence on a relational store (package sql, historyV2)

    A shallow embedding of [sqlHistoryV2Manager]: AppendHistoryNodes,
    ReadHistoryBranch, ForkHistoryBranch, DeleteHistoryBranch,
    CompleteForkBranch and GetHistoryTree, over the two tables
    history_node and history_tree.

    Conventions.
    - Go [int64] and [int] values are [Z]; the only arithmetic the code
      performs on them ([lastNodeID + 1]) is written with its wrap-around.
    - Go [[]byte] is [list byte]; a nil slice and an empty slice are both [[]].
    - A Go function returning [error] returns [result unit]; one returning
      [(T, error)] returns [result T]; the substrate's select methods, whose
      two return values the code inspects separately, return a pair.
    - A call on the database handle threads the store explicitly:
      [S -> result A * S].
    - Identifiers are canonical UUID texts, on which [sqldb.MustParseUUID]
      and [UUID.String] are mutually inverse; both are the identity here.
    - Thrift pointer fields ([*string], [*int64]) of a chain entry are taken
      to be non-nil, as they are in every chain the engine builds itself.
    - Messages assembled with a %v verb are represented by their constant
      prefix.
    - A Go run-time panic is the error [RuntimePanic]: the call returns no
      response. *)

From Stdlib Require Import ZArith Lia List Sorted.
From Stdlib Require Import Strings.String Strings.Byte.
From stdpp Require Import base option list gmap strings.

Local Open Scope string_scope.
Local Open Scope list_scope.
Local Open Scope Z_scope.

Abbreviation bytes := (list byte).
Abbreviation UUID := string.

(** ** Errors *)

Inductive error : Type :=
| ErrNoRows                                        (* database/sql.ErrNoRows *)
| MySQLError (Number : Z) (Message : string)       (* *mysql.MySQLError *)
| DriverError (msg : string)                       (* any other substrate error *)
| JSONError (msg : string)                         (* encoding/json *)
| RowsAffectedError (table : string) (got : Z)     (* fmt.Errorf("expected 1 row ...") *)
| InvalidPersistenceRequestError (Msg : string)
| ConditionFailedError (Msg : string)
| InternalServiceError (Message : string)
| RuntimePanic (msg : string).                     (* a Go run-time panic *)

Inductive result (A : Type) : Type :=
| Ok (a : A)
| Fail (e : error).
Arguments Ok {A} a.
Arguments Fail {A} e.

Definition isErrNoRows (err : option error) : bool :=
  match err with Some ErrNoRows => true | _ => false end.

Definition isNil (err : option error) : bool :=
  match err with None => true | Some _ => false end.

(** ** Thrift and persistence records *)

Module HistoryBranchRange.
Record t : Type := mk { BranchID : string; BeginNodeID : Z; EndNodeID : Z }.
End HistoryBranchRange.

Module HistoryBranch.
Record t : Type :=
  mk { TreeID : string; BranchID : string; Ancestors : list HistoryBranchRange.t }.
End HistoryBranch.

Module DataBlob.
Record t : Type := mk { Encoding : string; Data : bytes }.
End DataBlob.

Module ForkingInProgressBranch.
Record t : Type := mk { BranchID : string; ForkTime : Z; Info : string }.
End ForkingInProgressBranch.

Module InternalAppendHistoryNodesRequest.
Record t : Type :=
  mk { IsNewBranch : bool; Info : string; BranchInfo : HistoryBranch.t;
       NodeID : Z; Events : DataBlob.t; TransactionID : Z }.
End InternalAppendHistoryNodesRequest.

Module InternalReadHistoryBranchRequest.
Record t : Type :=
  mk { TreeID : string; BranchID : string; MinNodeID : Z; MaxNodeID : Z;
       PageSize : Z; NextPageToken : bytes }.
End InternalReadHistoryBranchRequest.

Module InternalReadHistoryBranchResponse.
Record t : Type := mk { History : list DataBlob.t; NextPageToken : bytes }.
End InternalReadHistoryBranchResponse.

Module InternalForkHistoryBranchRequest.
Record t : Type :=
  mk { ForkBranchInfo : HistoryBranch.t; ForkNodeID : Z;
       NewBranchID : string; Info : string }.
End InternalForkHistoryBranchRequest.

Module InternalForkHistoryBranchResponse.
Record t : Type := mk { NewBranchInfo : HistoryBranch.t }.
End InternalForkHistoryBranchResponse.

Module InternalDeleteHistoryBranchRequest.
Record t : Type := mk { BranchInfo : HistoryBranch.t }.
End InternalDeleteHistoryBranchRequest.

Module InternalCompleteForkBranchRequest.
Record t : Type := mk { BranchInfo : HistoryBranch.t; Success : bool }.
End InternalCompleteForkBranchRequest.

Module GetHistoryTreeRequest.
Record t : Type := mk { TreeID : string }.
End GetHistoryTreeRequest.

Module GetHistoryTreeResponse.
Record t : Type :=
  mk { Branches : list HistoryBranch.t;
       ForkingInProgressBranches : list ForkingInProgressBranch.t }.
End GetHistoryTreeResponse.

(** ** Rows and filters of package sqldb *)

Module HistoryNodeRow.
Record t : Type :=
  mk { TreeID : UUID; BranchID : UUID; NodeID : Z; TxnID : Z;
       Data : bytes; DataEncoding : string }.
End HistoryNodeRow.

Module HistoryNodeFilter.
Record t : Type :=
  mk { TreeID : UUID; BranchID : UUID; MinNodeID : option Z;
       MaxNodeID : option Z; PageSize : option Z }.
End HistoryNodeFilter.

Module HistoryTreeRow.
Record t : Type :=
  mk { TreeID : UUID; BranchID : UUID; InProgress : bool; CreatedTs : Z;
       Ancestors : bytes; Info : string }.
End HistoryTreeRow.

Module HistoryTreeFilter.
Record t : Type := mk { TreeID : UUID; BranchID : option UUID }.
End HistoryTreeFilter.

(** [sql.Result]: the code only ever calls [RowsAffected] on it. *)
Module SqlResult.
Record t : Type := mk { RowsAffected : result Z }.
End SqlResult.

Definition MustParseUUID (s : string) : UUID := s.
Definition UUIDString (u : UUID) : string := u.

(** ** The substrate interface ([sqldb.DB] and [sqldb.Tx])

    Both Go interfaces offer the same table operations; [S] is the state of
    the store (or of the open transaction). Selects do not modify it. *)

Class DB (S : Type) : Type := {
  InsertIntoHistoryNode : HistoryNodeRow.t -> S -> result SqlResult.t * S;
  SelectFromHistoryNode : HistoryNodeFilter.t -> S -> list HistoryNodeRow.t * option error;
  DeleteFromHistoryNode : HistoryNodeFilter.t -> S -> result SqlResult.t * S;
  InsertIntoHistoryTree : HistoryTreeRow.t -> S -> result SqlResult.t * S;
  SelectFromHistoryTree : HistoryTreeFilter.t -> S -> list HistoryTreeRow.t * option error;
  DeleteFromHistoryTree : HistoryTreeFilter.t -> S -> result SqlResult.t * S;
  UpdateHistoryTree : HistoryTreeRow.t -> S -> result SqlResult.t * S
}.

(** ** Statements run in sequence against the store *)

Definition Stmt (S A : Type) : Type := S -> result A * S.

Definition ret {S A} (a : A) : Stmt S A := fun s => (Ok a, s).
Definition fail {S A} (e : error) : Stmt S A := fun s => (Fail e, s).
Definition lift {S A} (r : result A) : Stmt S A := fun s => (r, s).
Definition bind {S A B} (c : Stmt S A) (k : A -> Stmt S B) : Stmt S B :=
  fun s => match c s with
           | (Ok a, s') => k a s'
           | (Fail e, s') => (Fail e, s')
           end.

Declare Scope stmt_scope.
Delimit Scope stmt_scope with stmt.
Notation "x <- c ;; k" := (bind c (fun x => k))
  (at level 100, c at next level, right associativity) : stmt_scope.
Notation "c ;;; k" := (bind c (fun _ => k))
  (at level 100, right associativity) : stmt_scope.

(** Modelled from the spec: [txExecute] (the RunInTransaction combinator of
    section 6) is not among the sources. It runs the work inside a
    transaction, commits on a nil result and rolls back otherwise; a
    rollback propagates the error of the work directly (section 7). *)
Definition txExecute {S} (operation : string) (f : Stmt S unit) : Stmt S unit :=
  fun db => match f db with
            | (Ok _, tx) => (Ok tt, tx)
            | (Fail err, _) => (Fail err, db)
            end.

(** Modelled from the spec: [p.GetBeginNodeID] is not among the sources.
    Section 3: the endNodeID of the last entry of the ancestor chain if the
    chain is non-empty, else 1. *)
Definition GetBeginNodeID (bi : HistoryBranch.t) : Z :=
  match last (HistoryBranch.Ancestors bi) with
  | Some br => HistoryBranchRange.EndNodeID br
  | None => 1
  end.

(** Go's [int64] addition. *)
Definition wrap64 (z : Z) : Z := (z + 2 ^ 63) mod 2 ^ 64 - 2 ^ 63.
Definition add64 (a b : Z) : Z := wrap64 (a + b).

(** ** The engine *)

Section Engine.

Context {S : Type} `{DB S}.

(** [encoding/json] on ancestor chains, and the page-token codec and the
    duplicate-entry number of the package, none of which is among the
    sources: the engine is stated for every choice of them. *)
Variable jsonMarshal : list HistoryBranchRange.t -> result bytes.
Variable jsonUnmarshal : bytes -> result (list HistoryBranchRange.t).
Variable serializePageToken : Z -> bytes.
Variable deserializePageToken : bytes -> result Z.
Variable ErrDupEntry : Z.

(** The Go runtime is not among the sources either. [make([]T, 0, cap)]
    panics with "makeslice: cap out of range" when [cap] is negative or the
    slice would take more than the runtime's [maxAlloc] bytes;
    [maxSliceCap] is the largest capacity the runtime grants a slice of
    [*p.DataBlob] (at most 2^45 on a 64-bit platform, where a pointer takes
    8 bytes and [maxAlloc] is 2^48). *)
Variable maxSliceCap : Z.

Definition makesliceCapOutOfRange (cap : Z) : bool :=
  (cap <? 0) || (maxSliceCap <? cap).

Definition serializeAncestors (ans : list HistoryBranchRange.t) : result bytes :=
  match jsonMarshal ans with
  | Fail err => Fail err
  | Ok ancestors => Ok ancestors
  end.

Definition deserializeAncestors (jsonStr : bytes) : result (list HistoryBranchRange.t) :=
  match jsonUnmarshal jsonStr with
  | Fail err => Fail err
  | Ok ans => Ok ans
  end.

(** *** AppendHistoryNodes *)

Definition appendNodeRow (request : InternalAppendHistoryNodesRequest.t) : HistoryNodeRow.t :=
  let branchInfo := InternalAppendHistoryNodesRequest.BranchInfo request in
  {| HistoryNodeRow.TreeID := MustParseUUID (HistoryBranch.TreeID branchInfo);
     HistoryNodeRow.BranchID := MustParseUUID (HistoryBranch.BranchID branchInfo);
     HistoryNodeRow.NodeID := InternalAppendHistoryNodesRequest.NodeID request;
     HistoryNodeRow.TxnID := InternalAppendHistoryNodesRequest.TransactionID request;
     HistoryNodeRow.Data := DataBlob.Data (InternalAppendHistoryNodesRequest.Events request);
     HistoryNodeRow.DataEncoding :=
       DataBlob.Encoding (InternalAppendHistoryNodesRequest.Events request) |}.

Definition appendTreeRow (now : Z) (request : InternalAppendHistoryNodesRequest.t)
    (ancestors : bytes) : HistoryTreeRow.t :=
  let branchInfo := InternalAppendHistoryNodesRequest.BranchInfo request in
  {| HistoryTreeRow.TreeID := MustParseUUID (HistoryBranch.TreeID branchInfo);
     HistoryTreeRow.BranchID := MustParseUUID (HistoryBranch.BranchID branchInfo);
     HistoryTreeRow.InProgress := false;
     HistoryTreeRow.CreatedTs := now;
     HistoryTreeRow.Ancestors := ancestors;
     HistoryTreeRow.Info := InternalAppendHistoryNodesRequest.Info request |}.

(** The work of the transaction of the new-branch path. *)
Definition appendNewBranchTx (nodeRow : HistoryNodeRow.t) (treeRow : HistoryTreeRow.t)
    : Stmt S unit :=
  (result <- InsertIntoHistoryNode nodeRow ;;
   rowsAffected <- lift (SqlResult.RowsAffected result) ;;
   if negb (rowsAffected =? 1)
   then fail (RowsAffectedError "node" rowsAffected)
   else
     result <- InsertIntoHistoryTree treeRow ;;
     rowsAffected <- lift (SqlResult.RowsAffected result) ;;
     if negb (rowsAffected =? 1)
     then fail (RowsAffectedError "tree" rowsAffected)
     else ret tt)%stmt.

(** The error translation of the plain path. *)
Definition appendInsertError (err : error) : error :=
  match err with
  | MySQLError Number _ =>
      if Number =? ErrDupEntry
      then ConditionFailedError "AppendHistoryNodes: row already exist: "
      else InternalServiceError "AppendHistoryEvents: "
  | _ => InternalServiceError "AppendHistoryEvents: "
  end.

(** [now] is the value of [time.Now()]. *)
Definition AppendHistoryNodes (now : Z) (request : InternalAppendHistoryNodesRequest.t)
    : Stmt S unit :=
  fun db =>
  let branchInfo := InternalAppendHistoryNodesRequest.BranchInfo request in
  let beginNodeID := GetBeginNodeID branchInfo in
  if InternalAppendHistoryNodesRequest.NodeID request <? beginNodeID
  then (Fail (InvalidPersistenceRequestError "cannot append to ancestors' nodes"), db)
  else
    let nodeRow := appendNodeRow request in
    if InternalAppendHistoryNodesRequest.IsNewBranch request
    then
      let ans := fold_left (fun ans anc => ans ++ [anc])
                   (HistoryBranch.Ancestors branchInfo) [] in
      match serializeAncestors ans with
      | Fail err => (Fail err, db)
      | Ok ancestors =>
          let treeRow := appendTreeRow now request ancestors in
          txExecute "AppendHistoryNodes" (appendNewBranchTx nodeRow treeRow) db
      end
    else
      match InsertIntoHistoryNode nodeRow db with
      | (Fail err, db') => (Fail (appendInsertError err), db')
      | (Ok _, db') => (Ok tt, db')
      end.

(** *** ReadHistoryBranch *)

Definition rowBlob (row : HistoryNodeRow.t) : DataBlob.t :=
  {| DataBlob.Encoding := HistoryNodeRow.DataEncoding row;
     DataBlob.Data := HistoryNodeRow.Data row |}.

(** The loop over the rows. Every blob appended to [history] is a fresh
    object (the loop allocates a new [eventBlob] right after each append),
    so the history holds values. The result is the history together with
    the final [lastNodeID]. *)
Fixpoint readRows (rows : list HistoryNodeRow.t) (history : list DataBlob.t)
    (lastNodeID lastTxnID : Z) : result (list DataBlob.t * Z) :=
  match rows with
  | [] => Ok (history, lastNodeID)
  | row :: rows' =>
      let eventBlob := rowBlob row in
      if HistoryNodeRow.NodeID row <? lastNodeID
      then Fail (InternalServiceError "corrupted data, nodeID cannot decrease")
      else if HistoryNodeRow.NodeID row =? lastNodeID
      then
        if HistoryNodeRow.TxnID row <? lastTxnID
        then readRows rows' history lastNodeID lastTxnID
        else Fail (InternalServiceError "corrupted data, same nodeID must have smaller txnID")
      else
        readRows rows' (history ++ [eventBlob])
          (HistoryNodeRow.NodeID row) (HistoryNodeRow.TxnID row)
  end.

(** The minimum node id of the select: the request's, unless a non-empty
    page token overrides it. *)
Definition readMinNodeID (request : InternalReadHistoryBranchRequest.t) : result Z :=
  let minNodeID := InternalReadHistoryBranchRequest.MinNodeID request in
  match InternalReadHistoryBranchRequest.NextPageToken request with
  | [] => Ok minNodeID
  | _ :: _ =>
      match deserializePageToken (InternalReadHistoryBranchRequest.NextPageToken request) with
      | Fail _ => Fail (InternalServiceError "invalid next page token ")
      | Ok lastNodeID => Ok (add64 lastNodeID 1)
      end
  end.

Definition readFilter (request : InternalReadHistoryBranchRequest.t) (minNodeID : Z)
    : HistoryNodeFilter.t :=
  {| HistoryNodeFilter.TreeID := MustParseUUID (InternalReadHistoryBranchRequest.TreeID request);
     HistoryNodeFilter.BranchID := MustParseUUID (InternalReadHistoryBranchRequest.BranchID request);
     HistoryNodeFilter.MinNodeID := Some minNodeID;
     HistoryNodeFilter.MaxNodeID := Some (InternalReadHistoryBranchRequest.MaxNodeID request);
     HistoryNodeFilter.PageSize := Some (InternalReadHistoryBranchRequest.PageSize request) |}.

Definition emptyReadResponse : InternalReadHistoryBranchResponse.t :=
  {| InternalReadHistoryBranchResponse.History := [];
     InternalReadHistoryBranchResponse.NextPageToken := [] |}.

Definition ReadHistoryBranch (request : InternalReadHistoryBranchRequest.t) (db : S)
    : result InternalReadHistoryBranchResponse.t :=
  match readMinNodeID request with
  | Fail err => Fail err
  | Ok minNodeID =>
      let filter := readFilter request minNodeID in
      let '(rows, err) := SelectFromHistoryNode filter db in
      if isErrNoRows err || (isNil err && (length rows =? 0)%nat)
      then Ok emptyReadResponse
      else
        let PageSize := InternalReadHistoryBranchRequest.PageSize request in
        if makesliceCapOutOfRange PageSize
        then Fail (RuntimePanic "makeslice: cap out of range")
        else
          match readRows rows [] (-1) (-1) with
          | Fail err => Fail err
          | Ok (history, lastNodeID) =>
              let pagingToken :=
                if Z.of_nat (length rows) >=? PageSize
                then serializePageToken lastNodeID
                else [] in
              Ok {| InternalReadHistoryBranchResponse.History := history;
                    InternalReadHistoryBranchResponse.NextPageToken := pagingToken |}
          end
  end.

(** *** ForkHistoryBranch *)

Definition truncateRange (br : HistoryBranchRange.t) (forkNodeID : Z) : HistoryBranchRange.t :=
  {| HistoryBranchRange.BranchID := HistoryBranchRange.BranchID br;
     HistoryBranchRange.BeginNodeID := HistoryBranchRange.BeginNodeID br;
     HistoryBranchRange.EndNodeID := forkNodeID |}.

(** The loop of the first case, with its [break]. *)
Fixpoint forkWalk (forkNodeID : Z) (brs newAncestors : list HistoryBranchRange.t)
    : list HistoryBranchRange.t :=
  match brs with
  | [] => newAncestors
  | br :: brs' =>
      if HistoryBranchRange.EndNodeID br >=? forkNodeID
      then newAncestors ++ [truncateRange br forkNodeID]
      else forkWalk forkNodeID brs' (newAncestors ++ [br])
  end.

Definition forkNewAncestors (request : InternalForkHistoryBranchRequest.t)
    : list HistoryBranchRange.t :=
  let forkB := InternalForkHistoryBranchRequest.ForkBranchInfo request in
  let ForkNodeID := InternalForkHistoryBranchRequest.ForkNodeID request in
  let beginNodeID := GetBeginNodeID forkB in
  if beginNodeID >=? ForkNodeID
  then forkWalk ForkNodeID (HistoryBranch.Ancestors forkB) []
  else
    HistoryBranch.Ancestors forkB ++
      [ {| HistoryBranchRange.BranchID := HistoryBranch.BranchID forkB;
           HistoryBranchRange.BeginNodeID := beginNodeID;
           HistoryBranchRange.EndNodeID := ForkNodeID |} ].

Definition ForkHistoryBranch (now : Z) (request : InternalForkHistoryBranchRequest.t)
    : Stmt S InternalForkHistoryBranchResponse.t :=
  fun db =>
  let forkB := InternalForkHistoryBranchRequest.ForkBranchInfo request in
  let treeID := HistoryBranch.TreeID forkB in
  let newAncestors := forkNewAncestors request in
  let resp :=
    {| InternalForkHistoryBranchResponse.NewBranchInfo :=
         {| HistoryBranch.TreeID := treeID;
            HistoryBranch.BranchID := InternalForkHistoryBranchRequest.NewBranchID request;
            HistoryBranch.Ancestors := newAncestors |} |} in
  match serializeAncestors newAncestors with
  | Fail err => (Fail err, db)
  | Ok ancestors =>
      let row :=
        {| HistoryTreeRow.TreeID := MustParseUUID treeID;
           HistoryTreeRow.BranchID :=
             MustParseUUID (InternalForkHistoryBranchRequest.NewBranchID request);
           HistoryTreeRow.InProgress := true;
           HistoryTreeRow.CreatedTs := now;
           HistoryTreeRow.Ancestors := ancestors;
           HistoryTreeRow.Info := InternalForkHistoryBranchRequest.Info request |} in
      (result <- InsertIntoHistoryTree row ;;
       rowsAffected <- lift (SqlResult.RowsAffected result) ;;
       if negb (rowsAffected =? 1)
       then fail (RowsAffectedError "tree" rowsAffected)
       else ret resp)%stmt db
  end.

(** *** GetHistoryTree *)

Definition treeRowForking (row : HistoryTreeRow.t) : ForkingInProgressBranch.t :=
  {| ForkingInProgressBranch.BranchID := UUIDString (HistoryTreeRow.BranchID row);
     ForkingInProgressBranch.ForkTime := HistoryTreeRow.CreatedTs row;
     ForkingInProgressBranch.Info := HistoryTreeRow.Info row |}.

Definition treeRowBranch (treeID : string) (row : HistoryTreeRow.t)
    (ancs : list HistoryBranchRange.t) : HistoryBranch.t :=
  {| HistoryBranch.TreeID := treeID;
     HistoryBranch.BranchID := UUIDString (HistoryTreeRow.BranchID row);
     HistoryBranch.Ancestors := ancs |}.

(** The loop over the tree rows. *)
Fixpoint treeRows (treeID : string) (rows : list HistoryTreeRow.t)
    (branches : list HistoryBranch.t) (forkingBranches : list ForkingInProgressBranch.t)
    : result GetHistoryTreeResponse.t :=
  match rows with
  | [] => Ok {| GetHistoryTreeResponse.Branches := branches;
                GetHistoryTreeResponse.ForkingInProgressBranches := forkingBranches |}
  | row :: rows' =>
      let forkingBranches :=
        if HistoryTreeRow.InProgress row
        then forkingBranches ++ [treeRowForking row]
        else forkingBranches in
      match deserializeAncestors (HistoryTreeRow.Ancestors row) with
      | Fail err => Fail err
      | Ok ancs =>
          treeRows treeID rows' (branches ++ [treeRowBranch treeID row ancs]) forkingBranches
      end
  end.

Definition GetHistoryTree (request : GetHistoryTreeRequest.t) (db : S)
    : result GetHistoryTreeResponse.t :=
  let treeID := MustParseUUID (GetHistoryTreeRequest.TreeID request) in
  let treeFilter :=
    {| HistoryTreeFilter.TreeID := treeID; HistoryTreeFilter.BranchID := None |} in
  let '(rows, err) := SelectFromHistoryTree treeFilter db in
  if isErrNoRows err || (isNil err && (length rows =? 0)%nat)
  then Ok {| GetHistoryTreeResponse.Branches := [];
             GetHistoryTreeResponse.ForkingInProgressBranches := [] |}
  else treeRows (GetHistoryTreeRequest.TreeID request) rows [] [].

(** *** DeleteHistoryBranch *)

(** One step of the two nested loops that fill [validBRsMaxEndNode]. *)
Definition recordRange (validBRsMaxEndNode : gmap string Z) (br : HistoryBranchRange.t)
    : gmap string Z :=
  match validBRsMaxEndNode !! HistoryBranchRange.BranchID br with
  | Some curr =>
      if curr <? HistoryBranchRange.EndNodeID br
      then <[HistoryBranchRange.BranchID br := HistoryBranchRange.EndNodeID br]>
             validBRsMaxEndNode
      else validBRsMaxEndNode
  | None =>
      <[HistoryBranchRange.BranchID br := HistoryBranchRange.EndNodeID br]>
        validBRsMaxEndNode
  end.

Definition validBRsMaxEndNode (branches : list HistoryBranch.t) : gmap string Z :=
  fold_left (fun m b => fold_left recordRange (HistoryBranch.Ancestors b) m) branches ∅.

(** The ranges to delete. The walk reads the branch id and the begin node
    id of an entry only (the trailing entry, for the branch itself, has no
    end node id), so an entry is that pair. *)
Definition brsToDelete (branch : HistoryBranch.t) : list (string * Z) :=
  map (fun br => (HistoryBranchRange.BranchID br, HistoryBranchRange.BeginNodeID br))
      (HistoryBranch.Ancestors branch)
  ++ [ (HistoryBranch.BranchID branch, GetBeginNodeID branch) ].

(** The loop [for i := len(brsToDelete) - 1; i >= 0; i--], over the ranges
    listed from the last one. *)
Fixpoint deleteWalk (treeID : string) (maxEndNode : gmap string Z)
    (brs : list (string * Z)) : Stmt S unit :=
  match brs with
  | [] => ret tt
  | br :: brs' =>
      let '(minNodeID, done) :=
        match maxEndNode !! br.1 with
        | Some maxReferredEndNodeID => (maxReferredEndNodeID, true)
        | None => (br.2, false)
        end in
      let nodeFilter :=
        {| HistoryNodeFilter.TreeID := MustParseUUID treeID;
           HistoryNodeFilter.BranchID := MustParseUUID br.1;
           HistoryNodeFilter.MinNodeID := Some minNodeID;
           HistoryNodeFilter.MaxNodeID := None;
           HistoryNodeFilter.PageSize := None |} in
      (DeleteFromHistoryNode nodeFilter ;;;
       if done then ret tt else deleteWalk treeID maxEndNode brs')%stmt
  end.

Definition deleteTx (branch : HistoryBranch.t) (maxEndNode : gmap string Z) : Stmt S unit :=
  let treeID := HistoryBranch.TreeID branch in
  let branchID := MustParseUUID (HistoryBranch.BranchID branch) in
  let treeFilter :=
    {| HistoryTreeFilter.TreeID := MustParseUUID treeID;
       HistoryTreeFilter.BranchID := Some branchID |} in
  (DeleteFromHistoryTree treeFilter ;;;
   deleteWalk treeID maxEndNode (rev (brsToDelete branch)))%stmt.

Definition DeleteHistoryBranch (request : InternalDeleteHistoryBranchRequest.t)
    : Stmt S unit :=
  fun db =>
  let branch := InternalDeleteHistoryBranchRequest.BranchInfo request in
  let treeID := HistoryBranch.TreeID branch in
  match GetHistoryTree {| GetHistoryTreeRequest.TreeID := treeID |} db with
  | Fail err => (Fail err, db)
  | Ok rsp =>
      if (0 <? length (GetHistoryTreeResponse.ForkingInProgressBranches rsp))%nat
      then (Fail (ConditionFailedError "There are branches in progress of forking"), db)
      else
        txExecute "DeleteHistoryBranch"
          (deleteTx branch (validBRsMaxEndNode (GetHistoryTreeResponse.Branches rsp))) db
  end.

(** *** CompleteForkBranch *)

Definition CompleteForkBranch (request : InternalCompleteForkBranchRequest.t)
    : Stmt S unit :=
  let branch := InternalCompleteForkBranchRequest.BranchInfo request in
  let treeID := MustParseUUID (HistoryBranch.TreeID branch) in
  let branchID := MustParseUUID (HistoryBranch.BranchID branch) in
  if InternalCompleteForkBranchRequest.Success request
  then
    let row :=
      {| HistoryTreeRow.TreeID := treeID; HistoryTreeRow.BranchID := branchID;
         HistoryTreeRow.InProgress := false; HistoryTreeRow.CreatedTs := 0;
         HistoryTreeRow.Ancestors := []; HistoryTreeRow.Info := "" |} in
    (result <- UpdateHistoryTree row ;;
     rowsAffected <- lift (SqlResult.RowsAffected result) ;;
     if negb (rowsAffected =? 1)
     then fail (RowsAffectedError "tree" rowsAffected)
     else ret tt)%stmt
  else
    let treeFilter :=
      {| HistoryTreeFilter.TreeID := treeID; HistoryTreeFilter.BranchID := Some branchID |} in
    let nodeFilter :=
      {| HistoryNodeFilter.TreeID := treeID; HistoryNodeFilter.BranchID := branchID;
         HistoryNodeFilter.MinNodeID := Some 1; HistoryNodeFilter.MaxNodeID := None;
         HistoryNodeFilter.PageSize := None |} in
    txExecute "CompleteForkBranch"
      (DeleteFromHistoryNode nodeFilter ;;;
       result <- DeleteFromHistoryTree treeFilter ;;
       rowsAffected <- lift (SqlResult.RowsAffected result) ;;
       if negb (rowsAffected =? 1)
       then fail (RowsAffectedError "tree" rowsAffected)
       else ret tt)%stmt.

End Engine.

(** ** An executable store

    The tables of section 6 as lists of rows, with the operations of
    sections 4.1 and 4.2. *)

Record MemDB : Type := mkMemDB {
  history_node : list HistoryNodeRow.t;
  history_tree : list HistoryTreeRow.t
}.

Definition sameNodeKey (a b : HistoryNodeRow.t) : bool :=
  String.eqb (HistoryNodeRow.TreeID a) (HistoryNodeRow.TreeID b)
  && String.eqb (HistoryNodeRow.BranchID a) (HistoryNodeRow.BranchID b)
  && (HistoryNodeRow.NodeID a =? HistoryNodeRow.NodeID b)
  && (HistoryNodeRow.TxnID a =? HistoryNodeRow.TxnID b).

Definition sameTreeKey (a b : HistoryTreeRow.t) : bool :=
  String.eqb (HistoryTreeRow.TreeID a) (HistoryTreeRow.TreeID b)
  && String.eqb (HistoryTreeRow.BranchID a) (HistoryTreeRow.BranchID b).

Definition affected (n : nat) : SqlResult.t :=
  {| SqlResult.RowsAffected := Ok (Z.of_nat n) |}.

(** Modelled from the spec: InsertNode of section 4.1 (the sqldb package is
    not among the sources). A row with an identical primary key
    (tree_id, branch_id, node_id, txn_id) makes the insert fail with the
    duplicate-key signal. *)
Definition memInsertIntoHistoryNode (dupEntry : Z) (row : HistoryNodeRow.t) (db : MemDB)
    : result SqlResult.t * MemDB :=
  if existsb (sameNodeKey row) (history_node db)
  then (Fail (MySQLError dupEntry "Duplicate entry"), db)
  else (Ok (affected 1),
        {| history_node := history_node db ++ [row]; history_tree := history_tree db |}).

(** The order (nodeID ASC, txnID DESC). *)
Definition nodeRowBefore (a b : HistoryNodeRow.t) : bool :=
  (HistoryNodeRow.NodeID a <? HistoryNodeRow.NodeID b)
  || ((HistoryNodeRow.NodeID a =? HistoryNodeRow.NodeID b)
      && (HistoryNodeRow.TxnID b <? HistoryNodeRow.TxnID a)).

Fixpoint insertOrdered (row : HistoryNodeRow.t) (rows : list HistoryNodeRow.t)
    : list HistoryNodeRow.t :=
  match rows with
  | [] => [row]
  | r :: rows' =>
      if nodeRowBefore r row then r :: insertOrdered row rows' else row :: rows
  end.

Definition orderRows (rows : list HistoryNodeRow.t) : list HistoryNodeRow.t :=
  fold_right insertOrdered [] rows.

Definition nodeInBranch (f : HistoryNodeFilter.t) (row : HistoryNodeRow.t) : bool :=
  String.eqb (HistoryNodeRow.TreeID row) (HistoryNodeFilter.TreeID f)
  && String.eqb (HistoryNodeRow.BranchID row) (HistoryNodeFilter.BranchID f).

Definition fromMinNodeID (f : HistoryNodeFilter.t) (row : HistoryNodeRow.t) : bool :=
  match HistoryNodeFilter.MinNodeID f with
  | Some minNodeID => minNodeID <=? HistoryNodeRow.NodeID row
  | None => true
  end.

Definition belowMaxNodeID (f : HistoryNodeFilter.t) (row : HistoryNodeRow.t) : bool :=
  match HistoryNodeFilter.MaxNodeID f with
  | Some maxNodeID => HistoryNodeRow.NodeID row <? maxNodeID
  | None => true
  end.

Definition limitRows (f : HistoryNodeFilter.t) (rows : list HistoryNodeRow.t)
    : list HistoryNodeRow.t :=
  match HistoryNodeFilter.PageSize f with
  | Some pageSize => take (Z.to_nat pageSize) rows
  | None => rows
  end.

(** Modelled from the spec: SelectNodes of section 4.1. All nodes of
    (treeID, branchID) with minNodeID <= nodeID < maxNodeID, ordered by
    (nodeID ASC, txnID DESC), limited to pageSize rows. *)
Definition memSelectFromHistoryNode (f : HistoryNodeFilter.t) (db : MemDB)
    : list HistoryNodeRow.t * option error :=
  (limitRows f
     (orderRows
        (List.filter (fun row => nodeInBranch f row && fromMinNodeID f row && belowMaxNodeID f row)
           (history_node db))),
   None).

(** Modelled from the spec: DeleteNodes of section 4.1. Deletes all nodes
    of (treeID, branchID) with nodeID >= minNodeID, no upper bound. *)
Definition memDeleteFromHistoryNode (f : HistoryNodeFilter.t) (db : MemDB)
    : result SqlResult.t * MemDB :=
  let doomed := fun row => nodeInBranch f row && fromMinNodeID f row in
  (Ok (affected (length (List.filter doomed (history_node db)))),
   {| history_node := List.filter (fun row => negb (doomed row)) (history_node db);
      history_tree := history_tree db |}).

(** Modelled from the spec: InsertBranch of section 4.2, on a table whose
    primary key is (tree_id, branch_id). *)
Definition memInsertIntoHistoryTree (dupEntry : Z) (row : HistoryTreeRow.t) (db : MemDB)
    : result SqlResult.t * MemDB :=
  if existsb (sameTreeKey row) (history_tree db)
  then (Fail (MySQLError dupEntry "Duplicate entry"), db)
  else (Ok (affected 1),
        {| history_node := history_node db; history_tree := history_tree db ++ [row] |}).

Definition treeRowMatches (f : HistoryTreeFilter.t) (row : HistoryTreeRow.t) : bool :=
  String.eqb (HistoryTreeRow.TreeID row) (HistoryTreeFilter.TreeID f)
  && match HistoryTreeFilter.BranchID f with
     | Some branchID => String.eqb (HistoryTreeRow.BranchID row) branchID
     | None => true
     end.

(** Modelled from the spec: SelectBranches of section 4.2. All branch rows
    of a tree. *)
Definition memSelectFromHistoryTree (f : HistoryTreeFilter.t) (db : MemDB)
    : list HistoryTreeRow.t * option error :=
  (List.filter (treeRowMatches f) (history_tree db), None).

(** Modelled from the spec: DeleteBranch of section 4.2. Removes a single
    branch row. *)
Definition memDeleteFromHistoryTree (f : HistoryTreeFilter.t) (db : MemDB)
    : result SqlResult.t * MemDB :=
  (Ok (affected (length (List.filter (treeRowMatches f) (history_tree db)))),
   {| history_node := history_node db;
      history_tree := List.filter (fun row => negb (treeRowMatches f row)) (history_tree db) |}).

(** Modelled from the spec: UpdateBranch of section 4.2. Sets the
    in-progress flag of the row with the key of [row]. *)
Definition memUpdateHistoryTree (row : HistoryTreeRow.t) (db : MemDB)
    : result SqlResult.t * MemDB :=
  (Ok (affected (length (List.filter (sameTreeKey row) (history_tree db)))),
   {| history_node := history_node db;
      history_tree :=
        map (fun r =>
               if sameTreeKey row r
               then {| HistoryTreeRow.TreeID := HistoryTreeRow.TreeID r;
                       HistoryTreeRow.BranchID := HistoryTreeRow.BranchID r;
                       HistoryTreeRow.InProgress := HistoryTreeRow.InProgress row;
                       HistoryTreeRow.CreatedTs := HistoryTreeRow.CreatedTs r;
                       HistoryTreeRow.Ancestors := HistoryTreeRow.Ancestors r;
                       HistoryTreeRow.Info := HistoryTreeRow.Info r |}
               else r)
            (history_tree db) |}).

Definition memDB (dupEntry : Z) : DB MemDB := {|
  InsertIntoHistoryNode := memInsertIntoHistoryNode dupEntry;
  SelectFromHistoryNode := memSelectFromHistoryNode;
  DeleteFromHistoryNode := memDeleteFromHistoryNode;
  InsertIntoHistoryTree := memInsertIntoHistoryTree dupEntry;
  SelectFromHistoryTree := memSelectFromHistoryTree;
  DeleteFromHistoryTree := memDeleteFromHistoryTree;
  UpdateHistoryTree := memUpdateHistoryTree
|}.

(** *** Concrete codecs for the executable store *)

Definition byteOfZ (z : Z) : byte :=
  match Byte.of_N (Z.to_N z) with
  | Some b => b
  | None => x00
  end.

Fixpoint leBytes (n : nat) (z : Z) : bytes :=
  match n with
  | O => []
  | Datatypes.S n' => byteOfZ (z mod 256) :: leBytes n' (z / 256)
  end.

Fixpoint leValue (bs : bytes) : Z :=
  match bs with
  | [] => 0
  | b :: bs' => Z.of_N (Byte.to_N b) + 256 * leValue bs'
  end.

(** Modelled from the spec: [serializePageToken] is not among the sources.
    Section 6 allows the binary representation of the last emitted nodeID;
    this is the eight-byte little-endian one. *)
Definition binSerializePageToken (offset : Z) : bytes :=
  leBytes 8 (offset mod 2 ^ 64).

(** Modelled from the spec: [deserializePageToken] is not among the
    sources; the inverse of the eight-byte binary representation. *)
Definition binDeserializePageToken (payload : bytes) : result Z :=
  if (length payload =? 8)%nat
  then Ok (wrap64 (leValue payload))
  else Fail (DriverError "Invalid token length").

(** A chain codec for the executable store, standing for [encoding/json]:
    per entry, the length of the branch id on one byte, the branch id, and
    the two node ids on eight bytes each. *)
Definition encodeRange (br : HistoryBranchRange.t) : bytes :=
  let id := list_byte_of_string (HistoryBranchRange.BranchID br) in
  leBytes 1 (Z.of_nat (length id)) ++ id
  ++ leBytes 8 (HistoryBranchRange.BeginNodeID br mod 2 ^ 64)
  ++ leBytes 8 (HistoryBranchRange.EndNodeID br mod 2 ^ 64).

Definition binMarshal (ans : list HistoryBranchRange.t) : result bytes :=
  Ok (concat (map encodeRange ans)).

Fixpoint decodeRanges (fuel : nat) (bs : bytes) : result (list HistoryBranchRange.t) :=
  match bs with
  | [] => Ok []
  | b :: rest =>
      match fuel with
      | O => Fail (JSONError "unexpected end of input")
      | Datatypes.S fuel' =>
          let n := N.to_nat (Byte.to_N b) in
          if (length rest <? n + 16)%nat
          then Fail (JSONError "unexpected end of input")
          else
            let nodeIDs := drop n rest in
            match decodeRanges fuel' (drop 16 nodeIDs) with
            | Fail err => Fail err
            | Ok ans =>
                Ok ({| HistoryBranchRange.BranchID := string_of_list_byte (take n rest);
                       HistoryBranchRange.BeginNodeID := wrap64 (leValue (take 8 nodeIDs));
                       HistoryBranchRange.EndNodeID :=
                         wrap64 (leValue (take 8 (drop 8 nodeIDs))) |} :: ans)
            end
      end
  end.

Definition binUnmarshal (bs : bytes) : result (list HistoryBranchRange.t) :=
  decodeRanges (length bs) bs.

(** The engine on the executable store; 1062 is MySQL's ER_DUP_ENTRY. *)
Definition memAppend := @AppendHistoryNodes MemDB (memDB 1062) binMarshal 1062.
Definition memRead := @ReadHistoryBranch MemDB (memDB 1062) binSerializePageToken binDeserializePageToken (2 ^ 45).
Definition memFork := @ForkHistoryBranch MemDB (memDB 1062) binMarshal.
Definition memGetTree := @GetHistoryTree MemDB (memDB 1062) binUnmarshal.
Definition memDelete := @DeleteHistoryBranch MemDB (memDB 1062) binUnmarshal.
Definition memCompleteFork := @CompleteForkBranch MemDB (memDB 1062).

(** ** The boundary scenarios of section 8, on the executable store *)

Definition T1 : string := "7f9a4c1e-0000-4000-8000-000000000001".
Definition B1 : string := "7f9a4c1e-0000-4000-8000-0000000000b1".
Definition B2 : string := "7f9a4c1e-0000-4000-8000-0000000000b2".
Definition B3 : string := "7f9a4c1e-0000-4000-8000-0000000000b3".

Definition blob (s : string) : DataBlob.t :=
  {| DataBlob.Encoding := "json"; DataBlob.Data := list_byte_of_string s |}.

Definition branchB1 : HistoryBranch.t :=
  {| HistoryBranch.TreeID := T1; HistoryBranch.BranchID := B1;
     HistoryBranch.Ancestors := [] |}.

Definition branchB2 : HistoryBranch.t :=
  {| HistoryBranch.TreeID := T1; HistoryBranch.BranchID := B2;
     HistoryBranch.Ancestors :=
       [ {| HistoryBranchRange.BranchID := B1;
            HistoryBranchRange.BeginNodeID := 1;
            HistoryBranchRange.EndNodeID := 2 |} ] |}.

Definition appendReq (isNew : bool) (b : HistoryBranch.t) (nodeID txnID : Z) (data : string)
    : InternalAppendHistoryNodesRequest.t :=
  {| InternalAppendHistoryNodesRequest.IsNewBranch := isNew;
     InternalAppendHistoryNodesRequest.Info := "";
     InternalAppendHistoryNodesRequest.BranchInfo := b;
     InternalAppendHistoryNodesRequest.NodeID := nodeID;
     InternalAppendHistoryNodesRequest.Events := blob data;
     InternalAppendHistoryNodesRequest.TransactionID := txnID |}.

Definition readReq (branchID : string) (minNodeID maxNodeID pageSize : Z) (token : bytes)
    : InternalReadHistoryBranchRequest.t :=
  {| InternalReadHistoryBranchRequest.TreeID := T1;
     InternalReadHistoryBranchRequest.BranchID := branchID;
     InternalReadHistoryBranchRequest.MinNodeID := minNodeID;
     InternalReadHistoryBranchRequest.MaxNodeID := maxNodeID;
     InternalReadHistoryBranchRequest.PageSize := pageSize;
     InternalReadHistoryBranchRequest.NextPageToken := token |}.

Definition forkReq (source : HistoryBranch.t) (forkNodeID : Z) (newBranchID : string)
    : InternalForkHistoryBranchRequest.t :=
  {| InternalForkHistoryBranchRequest.ForkBranchInfo := source;
     InternalForkHistoryBranchRequest.ForkNodeID := forkNodeID;
     InternalForkHistoryBranchRequest.NewBranchID := newBranchID;
     InternalForkHistoryBranchRequest.Info := "" |}.

Definition deleteReq (b : HistoryBranch.t) : InternalDeleteHistoryBranchRequest.t :=
  {| InternalDeleteHistoryBranchRequest.BranchInfo := b |}.

Definition completeReq (b : HistoryBranch.t) (success : bool)
    : InternalCompleteForkBranchRequest.t :=
  {| InternalCompleteForkBranchRequest.BranchInfo := b;
     InternalCompleteForkBranchRequest.Success := success |}.

Definition treeReq : GetHistoryTreeRequest.t := {| GetHistoryTreeRequest.TreeID := T1 |}.

(** The store left by a statement. *)
Definition after {A} (c : Stmt MemDB A) (db : MemDB) : MemDB := snd (c db).

Definition dbEmpty : MemDB := {| history_node := []; history_tree := [] |}.

(** S1: B1 is born with node 1, then node 2 is appended. *)
Definition dbS1 : MemDB :=
  after (memAppend 0 (appendReq false branchB1 2 101 "e2"))
    (after (memAppend 0 (appendReq true branchB1 1 100 "e1")) dbEmpty).

(** S2: node 2 of B1 is written again with a larger txnID. *)
Definition dbS2 : MemDB := after (memAppend 0 (appendReq false branchB1 2 200 "e2b")) dbS1.

(** S3: B2 is forked from B1 at node 2, completed, and receives its node 2. *)
Definition dbS3 : MemDB :=
  after (memAppend 0 (appendReq false branchB2 2 300 "e2-alt"))
    (after (memCompleteFork (completeReq branchB2 true))
       (after (memFork 0 (forkReq branchB1 2 B2)) dbS2)).

(** S5: B3 is forked from B1 at node 2 and left in progress. *)
Definition dbS5 : MemDB := after (memFork 0 (forkReq branchB1 2 B3)) dbS2.

(** S4: B2 is deleted. *)
Definition dbS4 : MemDB := after (memDelete (deleteReq branchB2)) dbS3.

Definition nodeRowOf (branchID : string) (nodeID txnID : Z) (data : string)
    : HistoryNodeRow.t :=
  {| HistoryNodeRow.TreeID := T1; HistoryNodeRow.BranchID := branchID;
     HistoryNodeRow.NodeID := nodeID; HistoryNodeRow.TxnID := txnID;
     HistoryNodeRow.Data := list_byte_of_string data;
     HistoryNodeRow.DataEncoding := "json" |}.

(** The rows of B1 after S2, in the order of the select. *)
Definition rowsS2 : list HistoryNodeRow.t :=
  [ nodeRowOf B1 1 100 "e1"; nodeRowOf B1 2 200 "e2b"; nodeRowOf B1 2 101 "e2" ].

Definition nodeKey (row : HistoryNodeRow.t) : string * Z * Z :=
  (HistoryNodeRow.BranchID row, HistoryNodeRow.NodeID row, HistoryNodeRow.TxnID row).

Definition treeKey (row : HistoryTreeRow.t) : string * bool :=
  (HistoryTreeRow.BranchID row, HistoryTreeRow.InProgress row).

Definition readResponse (blobs : list string) (token : bytes)
    : InternalReadHistoryBranchResponse.t :=
  {| InternalReadHistoryBranchResponse.History := map blob blobs;
     InternalReadHistoryBranchResponse.NextPageToken := token |}.

(** ** Notions of the specification *)

(** Section 4.3.5 keeps the node id and the txn id of the row accepted last,
    both initially -1; a row is accepted when its node id exceeds the
    former. *)
Definition acceptStep (last : Z * Z) (row : HistoryNodeRow.t) : Z * Z :=
  if last.1 <? HistoryNodeRow.NodeID row
  then (HistoryNodeRow.NodeID row, HistoryNodeRow.TxnID row)
  else last.

Definition lastAccepted (rows : list HistoryNodeRow.t) : Z * Z :=
  fold_left acceptStep rows (-1, -1).

(** A row breaks the ordering after the rows [pre] that came before it. *)
Definition corruptAt (last : Z * Z) (row : HistoryNodeRow.t) : Prop :=
  HistoryNodeRow.NodeID row < last.1
  \/ (HistoryNodeRow.NodeID row = last.1 /\ ~ HistoryNodeRow.TxnID row < last.2).

Definition corruptedFrom (last : Z * Z) (rows : list HistoryNodeRow.t) : Prop :=
  exists pre row post,
    rows = pre ++ row :: post /\ corruptAt (fold_left acceptStep pre last) row.

Definition corrupted (rows : list HistoryNodeRow.t) : Prop :=
  corruptedFrom (-1, -1) rows.

(** The rows accepted by a scan that meets no corruption. *)
Fixpoint acceptedFrom (lastNodeID : Z) (rows : list HistoryNodeRow.t)
    : list HistoryNodeRow.t :=
  match rows with
  | [] => []
  | row :: rows' =>
      if lastNodeID <? HistoryNodeRow.NodeID row
      then row :: acceptedFrom (HistoryNodeRow.NodeID row) rows'
      else acceptedFrom lastNodeID rows'
  end.

Definition accepted (rows : list HistoryNodeRow.t) : list HistoryNodeRow.t :=
  acceptedFrom (-1) rows.

(** The order (nodeID ASC, txnID DESC) on rows of one branch, whose
    (nodeID, txnID) pairs are distinct by the primary key. *)
Definition rowPrecedes (a b : HistoryNodeRow.t) : Prop :=
  HistoryNodeRow.NodeID a < HistoryNodeRow.NodeID b
  \/ (HistoryNodeRow.NodeID a = HistoryNodeRow.NodeID b
      /\ HistoryNodeRow.TxnID b < HistoryNodeRow.TxnID a).

Definition rowsOrdered (rows : list HistoryNodeRow.t) : Prop :=
  StronglySorted rowPrecedes rows.

(** [row] carries the largest txnID among the rows with its nodeID. *)
Definition isWinner (rows : list HistoryNodeRow.t) (row : HistoryNodeRow.t) : bool :=
  forallb (fun r => negb (HistoryNodeRow.NodeID r =? HistoryNodeRow.NodeID row)
                    || (HistoryNodeRow.TxnID r <=? HistoryNodeRow.TxnID row)) rows.

Definition winners (rows : list HistoryNodeRow.t) : list HistoryNodeRow.t :=
  List.filter (isWinner rows) rows.

(** The request that carries no page token and asks for [minNodeID]. *)
Definition withMinNodeID (request : InternalReadHistoryBranchRequest.t) (minNodeID : Z)
    : InternalReadHistoryBranchRequest.t :=
  {| InternalReadHistoryBranchRequest.TreeID := InternalReadHistoryBranchRequest.TreeID request;
     InternalReadHistoryBranchRequest.BranchID := InternalReadHistoryBranchRequest.BranchID request;
     InternalReadHistoryBranchRequest.MinNodeID := minNodeID;
     InternalReadHistoryBranchRequest.MaxNodeID := InternalReadHistoryBranchRequest.MaxNodeID request;
     InternalReadHistoryBranchRequest.PageSize := InternalReadHistoryBranchRequest.PageSize request;
     InternalReadHistoryBranchRequest.NextPageToken := [] |}.

(** The chain stored in a tree row, as the codec reads it ([[]] when it
    does not). *)
Definition decodedChain (jsonUnmarshal : bytes -> result (list HistoryBranchRange.t))
    (row : HistoryTreeRow.t) : list HistoryBranchRange.t :=
  match jsonUnmarshal (HistoryTreeRow.Ancestors row) with
  | Ok ancs => ancs
  | Fail _ => []
  end.

Definition decodes (jsonUnmarshal : bytes -> result (list HistoryBranchRange.t))
    (row : HistoryTreeRow.t) : Prop :=
  exists ancs, jsonUnmarshal (HistoryTreeRow.Ancestors row) = Ok ancs.

(** The filter GetHistoryTree selects with. *)
Definition wholeTree (treeID : string) : HistoryTreeFilter.t :=
  {| HistoryTreeFilter.TreeID := MustParseUUID treeID; HistoryTreeFilter.BranchID := None |}.

(** ** Notions used by the further properties *)

(** The end node ids of a chain increase strictly. *)
Definition endsIncreasing (chain : list HistoryBranchRange.t) : Prop :=
  StronglySorted
    (fun a b => HistoryBranchRange.EndNodeID a < HistoryBranchRange.EndNodeID b) chain.

(** Every range of a chain is non-empty and begins where the range before
    it ends. *)
Fixpoint chainLinked (chain : list HistoryBranchRange.t) : Prop :=
  match chain with
  | [] => True
  | br :: rest =>
      HistoryBranchRange.BeginNodeID br < HistoryBranchRange.EndNodeID br
      /\ match rest with
         | [] => True
         | next :: _ => HistoryBranchRange.BeginNodeID next = HistoryBranchRange.EndNodeID br
         end
      /\ chainLinked rest
  end.

(** The ranges of all the listed branches. *)
Definition allRanges (branches : list HistoryBranch.t) : list HistoryBranchRange.t :=
  concat (map HistoryBranch.Ancestors branches).

(** The request that presents [token] as its page token. *)
Definition withPageToken (request : InternalReadHistoryBranchRequest.t) (token : bytes)
    : InternalReadHistoryBranchRequest.t :=
  {| InternalReadHistoryBranchRequest.TreeID := InternalReadHistoryBranchRequest.TreeID request;
     InternalReadHistoryBranchRequest.BranchID := InternalReadHistoryBranchRequest.BranchID request;
     InternalReadHistoryBranchRequest.MinNodeID := InternalReadHistoryBranchRequest.MinNodeID request;
     InternalReadHistoryBranchRequest.MaxNodeID := InternalReadHistoryBranchRequest.MaxNodeID request;
     InternalReadHistoryBranchRequest.PageSize := InternalReadHistoryBranchRequest.PageSize request;
     InternalReadHistoryBranchRequest.NextPageToken := token |}.

(** The values of Go's [int64]. *)
Definition isInt64 (z : Z) : Prop := - 2 ^ 63 <= z < 2 ^ 63.

(** The node delete on branch [branchID] of tree [treeID] from [minNodeID]
    on, and such deletes issued for a list of ranges in order, each from the
    node id paired with its branch. *)
Definition nodesFrom (treeID branchID : string) (minNodeID : Z) : HistoryNodeFilter.t :=
  {| HistoryNodeFilter.TreeID := treeID; HistoryNodeFilter.BranchID := branchID;
     HistoryNodeFilter.MinNodeID := Some minNodeID;
     HistoryNodeFilter.MaxNodeID := None; HistoryNodeFilter.PageSize := None |}.

Fixpoint deleteEach {S : Type} `{DB S} (treeID : string) (brs : list (string * Z))
    : Stmt S unit :=
  match brs with
  | [] => ret tt
  | br :: brs' =>
      (DeleteFromHistoryNode (nodesFrom treeID br.1 br.2) ;;; deleteEach treeID brs')%stmt
  end.

(** The nodes of S3 in a store whose tree table is empty. *)
Definition dbNoTree : MemDB := {| history_node := history_node dbS3; history_tree := [] |}.

(** The store of S3 with one more tree row, whose chain is not a value of
    the codec. *)
Definition dbBadRow : MemDB :=
  {| history_node := history_node dbS3;
     history_tree :=
       history_tree dbS3
       ++ [ {| HistoryTreeRow.TreeID := T1; HistoryTreeRow.BranchID := B3;
               HistoryTreeRow.InProgress := true; HistoryTreeRow.CreatedTs := 0;
               HistoryTreeRow.Ancestors := [ x01 ]; HistoryTreeRow.Info := "" |} ] |}.

(** Whether the walk of DeleteHistoryBranch over [brs] removes [row] from
    the executable store. *)
Fixpoint walkDooms (treeID : string) (maxEndNode : gmap string Z)
    (brs : list (string * Z)) (row : HistoryNodeRow.t) : bool :=
  match brs with
  | [] => false
  | br :: brs' =>
      match maxEndNode !! br.1 with
      | Some maxReferredEndNodeID =>
          nodeInBranch (nodesFrom treeID br.1 maxReferredEndNodeID) row
          && fromMinNodeID (nodesFrom treeID br.1 maxReferredEndNodeID) row
      | None =>
          (nodeInBranch (nodesFrom treeID br.1 br.2) row
           && fromMinNodeID (nodesFrom treeID br.1 br.2) row)
          || walkDooms treeID maxEndNode brs' row
      end
  end.

(** The filter that names one branch row. *)
Definition oneBranch (treeID branchID : string) : HistoryTreeFilter.t :=
  {| HistoryTreeFilter.TreeID := treeID; HistoryTreeFilter.BranchID := Some branchID |}.

(** The tree row ForkHistoryBranch inserts, and the request that completes
    or aborts the fork. *)
Definition forkRow (now : Z) (request : InternalForkHistoryBranchRequest.t)
    (ancestors : bytes) (inProgress : bool) : HistoryTreeRow.t :=
  {| HistoryTreeRow.TreeID :=
       HistoryBranch.TreeID (InternalForkHistoryBranchRequest.ForkBranchInfo request);
     HistoryTreeRow.BranchID := InternalForkHistoryBranchRequest.NewBranchID request;
     HistoryTreeRow.InProgress := inProgress;
     HistoryTreeRow.CreatedTs := now;
     HistoryTreeRow.Ancestors := ancestors;
     HistoryTreeRow.Info := InternalForkHistoryBranchRequest.Info request |}.

Definition forkedBranch (request : InternalForkHistoryBranchRequest.t) : HistoryBranch.t :=
  {| HistoryBranch.TreeID :=
       HistoryBranch.TreeID (InternalForkHistoryBranchRequest.ForkBranchInfo request);
     HistoryBranch.BranchID := InternalForkHistoryBranchRequest.NewBranchID request;
     HistoryBranch.Ancestors := forkNewAncestors request |}.

Definition completion (request : InternalForkHistoryBranchRequest.t) (success : bool)
    : InternalCompleteForkBranchRequest.t :=
  {| InternalCompleteForkBranchRequest.BranchInfo := forkedBranch request;
     InternalCompleteForkBranchRequest.Success := success |}.

(** No branch row, and no node, is stored under the id of the new branch. *)
Definition freshBranch (request : InternalForkHistoryBranchRequest.t) (db : MemDB) : Prop :=
  let treeID := HistoryBranch.TreeID (InternalForkHistoryBranchRequest.ForkBranchInfo request) in
  let newID := InternalForkHistoryBranchRequest.NewBranchID request in
  (forall row, In row (history_tree db) ->
               ~ (HistoryTreeRow.TreeID row = treeID /\ HistoryTreeRow.BranchID row = newID))
  /\ (forall node, In node (history_node db) ->
                   ~ (HistoryNodeRow.TreeID node = treeID
                      /\ HistoryNodeRow.BranchID node = newID)).

(** The primary key of a node row, and its part inside one branch. *)
Definition fullKey (row : HistoryNodeRow.t) : string * string * Z * Z :=
  (HistoryNodeRow.TreeID row, HistoryNodeRow.BranchID row,
   HistoryNodeRow.NodeID row, HistoryNodeRow.TxnID row).

Definition keyNT (row : HistoryNodeRow.t) : Z * Z :=
  (HistoryNodeRow.NodeID row, HistoryNodeRow.TxnID row).

(** No two node rows of the store share their primary key. *)
Definition distinctKeys (db : MemDB) : Prop :=
  List.NoDup (map fullKey (history_node db)).

(** The read of the single node [nodeID] of a branch. *)
Definition readNode (treeID branchID : string) (nodeID pageSize : Z)
    : InternalReadHistoryBranchRequest.t :=
  {| InternalReadHistoryBranchRequest.TreeID := treeID;
     InternalReadHistoryBranchRequest.BranchID := branchID;
     InternalReadHistoryBranchRequest.MinNodeID := nodeID;
     InternalReadHistoryBranchRequest.MaxNodeID := nodeID + 1;
     InternalReadHistoryBranchRequest.PageSize := pageSize;
     InternalReadHistoryBranchRequest.NextPageToken := [] |}.

(** The store right after B1 is born, and the tree row of B2 in S3. *)
Definition dbBorn : MemDB :=
  after (memAppend 0 (appendReq true branchB1 1 100 "e1")) dbEmpty.

Definition treeRowB2 : HistoryTreeRow.t :=
  {| HistoryTreeRow.TreeID := T1; HistoryTreeRow.BranchID := B2;
     HistoryTreeRow.InProgress := false; HistoryTreeRow.CreatedTs := 0;
     HistoryTreeRow.Ancestors := concat (map encodeRange (HistoryBranch.Ancestors branchB2));
     HistoryTreeRow.Info := "" |}.

(** The test the select of a read applies to a row, the rows of the branch
    that pass it for a given minimum node id, in the order of the select and
    without limit, and the history the branch holds from that node id on:
    the blobs of the rows that carry the largest txnID of their nodeID. *)
Definition inRange (request : InternalReadHistoryBranchRequest.t) (minNodeID : Z)
    (row : HistoryNodeRow.t) : bool :=
  let f := readFilter request minNodeID in
  nodeInBranch f row && fromMinNodeID f row && belowMaxNodeID f row.

Definition branchRows (request : InternalReadHistoryBranchRequest.t) (minNodeID : Z)
    (db : MemDB) : list HistoryNodeRow.t :=
  orderRows (List.filter (inRange request minNodeID) (history_node db)).

Definition wholeHistory (request : InternalReadHistoryBranchRequest.t) (minNodeID : Z)
    (db : MemDB) : list DataBlob.t :=
  map (fun row => {| DataBlob.Encoding := HistoryNodeRow.DataEncoding row;
                     DataBlob.Data := HistoryNodeRow.Data row |})
    (winners (branchRows request minNodeID db)).

(** The entry GetHistoryTree reports for the fork in progress of a request
    made at [now]. *)
Definition forkingEntry (now : Z) (request : InternalForkHistoryBranchRequest.t)
    : ForkingInProgressBranch.t :=
  {| ForkingInProgressBranch.BranchID := InternalForkHistoryBranchRequest.NewBranchID request;
     ForkingInProgressBranch.ForkTime := now;
     ForkingInProgressBranch.Info := InternalForkHistoryBranchRequest.Info request |}.

(** The listing of a tree, and the branches of a listing other than
    [branchID]. *)
Definition listing (treeID : string) : GetHistoryTreeRequest.t :=
  {| GetHistoryTreeRequest.TreeID := treeID |}.

Definition otherBranches (branchID : string) (branches : list HistoryBranch.t)
    : list HistoryBranch.t :=
  List.filter (fun b => negb (String.eqb (HistoryBranch.BranchID b) branchID)) branches.

(** No tree row is stored for the branch. *)
Definition unknownBranch (branch : HistoryBranch.t) (db : MemDB) : Prop :=
  forall row, In row (history_tree db) ->
    ~ (HistoryTreeRow.TreeID row = HistoryBranch.TreeID branch
       /\ HistoryTreeRow.BranchID row = HistoryBranch.BranchID branch).

(** A store that holds a node of B1 with node id -1, and a node store that
    hands over the rows it holds as they are, without ordering them, with
    rows whose node ids go backwards. *)
Definition dbNegative : MemDB :=
  {| history_node := [ nodeRowOf B1 (-1) (-5) "e0" ]; history_tree := history_tree dbS2 |}.

Definition unorderedDB : DB (list HistoryNodeRow.t) := {|
  InsertIntoHistoryNode := fun row rows => (Ok (affected 1), rows ++ [row]);
  SelectFromHistoryNode := fun _ rows => (rows, None);
  DeleteFromHistoryNode := fun _ rows => (Ok (affected 0), rows);
  InsertIntoHistoryTree := fun _ rows => (Ok (affected 0), rows);
  SelectFromHistoryTree := fun _ _ => ([], None);
  DeleteFromHistoryTree := fun _ rows => (Ok (affected 0), rows);
  UpdateHistoryTree := fun _ rows => (Ok (affected 0), rows)
|}.

Definition rowsBackwards : list HistoryNodeRow.t :=
  [ nodeRowOf B1 2 101 "e2"; nodeRowOf B1 1 100 "e1" ].

(** Tactics for closed goals on the scenarios. *)
Ltac evaluate := vm_compute; reflexivity.

Ltac ordered :=
  repeat first [ apply SSorted_nil | apply SSorted_cons
               | apply List.Forall_nil | apply List.Forall_cons ];
  unfold rowPrecedes; simpl; lia.

(** * Properties *)

(** ** ForkHistoryBranch *)

Section ForkFacts.

Context {S : Type} `{DB S}.
Variable jsonMarshal : list HistoryBranchRange.t -> result bytes.

Lemma forkWalk_split (forkNodeID : Z) (brs acc : list HistoryBranchRange.t) :
  (Forall (fun br => HistoryBranchRange.EndNodeID br < forkNodeID) brs
   /\ forkWalk forkNodeID brs acc = acc ++ brs)
  \/ exists copied br rest,
       brs = copied ++ br :: rest
       /\ Forall (fun br => HistoryBranchRange.EndNodeID br < forkNodeID) copied
       /\ forkNodeID <= HistoryBranchRange.EndNodeID br
       /\ forkWalk forkNodeID brs acc
          = acc ++ copied ++
              [ {| HistoryBranchRange.BranchID := HistoryBranchRange.BranchID br;
                   HistoryBranchRange.BeginNodeID := HistoryBranchRange.BeginNodeID br;
                   HistoryBranchRange.EndNodeID := forkNodeID |} ].
Proof.
  revert acc. induction brs as [|b brs IH]; intros acc; simpl.
  - left. split; [constructor | now rewrite app_nil_r].
  - destruct (Z.geb_spec (HistoryBranchRange.EndNodeID b) forkNodeID) as [Hge|Hlt].
    + right. exists [], b, brs. repeat split; auto; lia.
    + destruct (IH (acc ++ [b])) as [[Hall Heq]|(copied & br & rest & -> & Hall & Hge & Heq)].
      * left. split; [constructor; auto; lia|].
        rewrite Heq, <- app_assoc. reflexivity.
      * right. exists (b :: copied), br, rest.
        split; [reflexivity|]. split; [constructor; auto; lia|]. split; [exact Hge|].
        rewrite Heq, <- app_assoc. reflexivity.
Qed.

Lemma fork_returns_chain (now : Z) (request : InternalForkHistoryBranchRequest.t)
    (db db' : S) (resp : InternalForkHistoryBranchResponse.t) :
  ForkHistoryBranch jsonMarshal now request db = (Ok resp, db') ->
  resp = {| InternalForkHistoryBranchResponse.NewBranchInfo :=
              {| HistoryBranch.TreeID :=
                   HistoryBranch.TreeID (InternalForkHistoryBranchRequest.ForkBranchInfo request);
                 HistoryBranch.BranchID := InternalForkHistoryBranchRequest.NewBranchID request;
                 HistoryBranch.Ancestors := forkNewAncestors request |} |}.
Proof.
  unfold ForkHistoryBranch, serializeAncestors, bind, lift, fail, ret.
  destruct (jsonMarshal _); [|discriminate].
  destruct (InsertIntoHistoryTree _ db) as [[r|e] s]; [|discriminate].
  destruct (SqlResult.RowsAffected r); [|discriminate].
  destruct (negb _); [discriminate|].
  intros [= <- _]. reflexivity.
Qed.

(** C2. The ancestor chain of a fork. With B the begin node id of the
    source: when B >= forkNodeID, the source chain is walked in order, every
    entry whose endNodeID is below forkNodeID is copied unchanged, and the
    first entry whose endNodeID reaches forkNodeID is copied with its
    endNodeID replaced by forkNodeID, which ends the walk; when
    B < forkNodeID, the new chain is the whole source chain followed by the
    entry (source branch, B, forkNodeID). A successful ForkHistoryBranch
    returns exactly that chain. *)
Theorem fork_ancestor_chain (request : InternalForkHistoryBranchRequest.t) :
  let forkB := InternalForkHistoryBranchRequest.ForkBranchInfo request in
  let chain := HistoryBranch.Ancestors forkB in
  let forkNodeID := InternalForkHistoryBranchRequest.ForkNodeID request in
  let B := GetBeginNodeID forkB in
  (forkNodeID <= B ->
     (Forall (fun br => HistoryBranchRange.EndNodeID br < forkNodeID) chain
      /\ forkNewAncestors request = chain)
     \/ exists copied br rest,
          chain = copied ++ br :: rest
          /\ Forall (fun br => HistoryBranchRange.EndNodeID br < forkNodeID) copied
          /\ forkNodeID <= HistoryBranchRange.EndNodeID br
          /\ forkNewAncestors request
             = copied ++
                 [ {| HistoryBranchRange.BranchID := HistoryBranchRange.BranchID br;
                      HistoryBranchRange.BeginNodeID := HistoryBranchRange.BeginNodeID br;
                      HistoryBranchRange.EndNodeID := forkNodeID |} ])
  /\ (B < forkNodeID ->
        forkNewAncestors request
        = chain ++ [ {| HistoryBranchRange.BranchID := HistoryBranch.BranchID forkB;
                        HistoryBranchRange.BeginNodeID := B;
                        HistoryBranchRange.EndNodeID := forkNodeID |} ])
  /\ (forall now db db' resp,
        ForkHistoryBranch jsonMarshal now request db = (Ok resp, db') ->
        HistoryBranch.Ancestors (InternalForkHistoryBranchResponse.NewBranchInfo resp)
        = forkNewAncestors request).
Proof.
  intros forkB chain forkNodeID B. repeat split.
  - intros Hle. unfold forkNewAncestors. fold forkB forkNodeID B chain.
    destruct (Z.geb_spec B forkNodeID); [|lia].
    destruct (forkWalk_split forkNodeID chain []) as [[Hall Heq]|(c & br & rest & E & Hall & Hge & Heq)].
    + left. split; auto.
    + right. exists c, br, rest. repeat split; auto.
  - intros Hlt. unfold forkNewAncestors. fold forkB forkNodeID B chain.
    destruct (Z.geb_spec B forkNodeID); [lia|]. reflexivity.
  - intros now db db' resp Hok.
    rewrite (fork_returns_chain now request db db' resp Hok). reflexivity.
Qed.

Lemma forkNewAncestors_begin (request : InternalForkHistoryBranchRequest.t) :
  1 <= InternalForkHistoryBranchRequest.ForkNodeID request ->
  (exists br, last (forkNewAncestors request) = Some br
              /\ HistoryBranchRange.EndNodeID br
                 = InternalForkHistoryBranchRequest.ForkNodeID request)
  \/ (forkNewAncestors request = []
      /\ InternalForkHistoryBranchRequest.ForkNodeID request = 1).
Proof.
  intros Hpos.
  destruct (fork_ancestor_chain request) as (HA & HB & _). simpl in HA, HB.
  destruct (Z.le_gt_cases (InternalForkHistoryBranchRequest.ForkNodeID request)
              (GetBeginNodeID (InternalForkHistoryBranchRequest.ForkBranchInfo request)))
    as [Hle|Hgt].
  - destruct (HA Hle) as [[Hall Heq]|(c & br & rest & E & Hall & Hge & Heq)].
    + rewrite Heq. unfold GetBeginNodeID in Hle.
      destruct (HistoryBranch.Ancestors _) as [|b l] eqn:E using rev_ind.
      * right. simpl in Hle. split; [reflexivity | lia].
      * rewrite last_snoc in Hle. apply Forall_app in Hall as [_ Hb].
        inversion Hb; subst. lia.
    + left. rewrite Heq. eexists. split; [apply last_snoc | reflexivity].
  - left. rewrite (HB Hgt). eexists. split; [apply last_snoc | reflexivity].
Qed.

(** C10. The fork invariant. For a request with forkNodeID >= 1, the new
    branch returned by a successful ForkHistoryBranch has begin node id
    forkNodeID: either its chain is non-empty and the endNodeID of its last
    entry is forkNodeID, or its chain is empty and forkNodeID is 1. *)
Theorem fork_new_branch_begins_at_fork_node (now : Z)
    (request : InternalForkHistoryBranchRequest.t) (db db' : S)
    (resp : InternalForkHistoryBranchResponse.t) :
  1 <= InternalForkHistoryBranchRequest.ForkNodeID request ->
  ForkHistoryBranch jsonMarshal now request db = (Ok resp, db') ->
  let newBranch := InternalForkHistoryBranchResponse.NewBranchInfo resp in
  let forkNodeID := InternalForkHistoryBranchRequest.ForkNodeID request in
  GetBeginNodeID newBranch = forkNodeID
  /\ ((exists br, last (HistoryBranch.Ancestors newBranch) = Some br
                  /\ HistoryBranchRange.EndNodeID br = forkNodeID)
      \/ (HistoryBranch.Ancestors newBranch = [] /\ forkNodeID = 1)).
Proof.
  intros Hpos Hok. rewrite (fork_returns_chain now request db db' resp Hok). simpl.
  destruct (forkNewAncestors_begin request Hpos) as [(br & Hlast & Hend)|[Hnil Hone]].
  - split.
    + unfold GetBeginNodeID. simpl. rewrite Hlast. exact Hend.
    + left. exists br. split; assumption.
  - split.
    + unfold GetBeginNodeID. simpl. rewrite Hnil. simpl. lia.
    + right. split; assumption.
Qed.

End ForkFacts.

(** ** ReadHistoryBranch *)

Section ReadFacts.

Context {S : Type} `{DB S}.
Variable serializePageToken : Z -> bytes.
Variable deserializePageToken : bytes -> result Z.
Variable maxSliceCap : Z.

Lemma corruptedFrom_cons (last : Z * Z) (row : HistoryNodeRow.t)
    (rows : list HistoryNodeRow.t) :
  corruptedFrom last (row :: rows)
  <-> corruptAt last row \/ corruptedFrom (acceptStep last row) rows.
Proof.
  unfold corruptedFrom. split.
  - intros (pre & r & post & E & Hc). destruct pre as [|p pre]; simpl in *.
    + injection E as -> ->. left. exact Hc.
    + injection E as -> ->. right. exists pre, r, post. split; [reflexivity | exact Hc].
  - intros [Hc | (pre & r & post & -> & Hc)].
    + exists [], row, rows. split; [reflexivity | exact Hc].
    + exists (row :: pre), r, post. split; [reflexivity | exact Hc].
Qed.

Lemma corruptedFrom_nil (last : Z * Z) : ~ corruptedFrom last [].
Proof. intros (pre & r & post & E & _). destruct pre; discriminate. Qed.

(** What the loop computes: it fails exactly on a corrupted list, and
    otherwise appends the blobs of the accepted rows and ends with the node
    id accepted last. *)
Lemma readRows_spec (rows : list HistoryNodeRow.t) :
  forall (history : list DataBlob.t) (lastNodeID lastTxnID : Z),
    (corruptedFrom (lastNodeID, lastTxnID) rows
     /\ exists msg, readRows rows history lastNodeID lastTxnID
                    = Fail (InternalServiceError msg))
    \/ (~ corruptedFrom (lastNodeID, lastTxnID) rows
        /\ readRows rows history lastNodeID lastTxnID
           = Ok (history ++ map rowBlob (acceptedFrom lastNodeID rows),
                 (fold_left acceptStep rows (lastNodeID, lastTxnID)).1)).
Proof.
  induction rows as [|row rows IH]; intros history n t;
    cbn [readRows acceptedFrom fold_left map].
  - right. split; [apply corruptedFrom_nil | now rewrite app_nil_r].
  - destruct (Z.ltb_spec (HistoryNodeRow.NodeID row) n) as [Hlt|Hge].
    + left. split; [|eauto]. apply corruptedFrom_cons. left. left. exact Hlt.
    + destruct (Z.eqb_spec (HistoryNodeRow.NodeID row) n) as [Heq|Hne].
      * assert (Hstep : acceptStep (n, t) row = (n, t)).
        { unfold acceptStep. simpl.
          destruct (Z.ltb_spec n (HistoryNodeRow.NodeID row)); [lia | reflexivity]. }
        destruct (Z.ltb_spec n (HistoryNodeRow.NodeID row)) as [?|_]; [lia|].
        rewrite Hstep.
        destruct (Z.ltb_spec (HistoryNodeRow.TxnID row) t) as [Htlt|Htge].
        -- destruct (IH history n t) as [[Hc Hf]|[Hnc Hok]].
           ++ left. split; [|exact Hf]. apply corruptedFrom_cons. right. now rewrite Hstep.
           ++ right. split; [|exact Hok].
              rewrite corruptedFrom_cons, Hstep.
              intros [[Hc|[_ Hc]]|Hc]; simpl in *; try lia. exact (Hnc Hc).
        -- left. split; [|eauto]. apply corruptedFrom_cons. left. right. simpl.
           split; [exact Heq | lia].
      * assert (Hgt : n < HistoryNodeRow.NodeID row) by lia.
        assert (Hstep : acceptStep (n, t) row
                        = (HistoryNodeRow.NodeID row, HistoryNodeRow.TxnID row)).
        { unfold acceptStep. simpl.
          destruct (Z.ltb_spec n (HistoryNodeRow.NodeID row)); [reflexivity | lia]. }
        destruct (Z.ltb_spec n (HistoryNodeRow.NodeID row)) as [_|?]; [|lia].
        rewrite Hstep.
        destruct (IH (history ++ [rowBlob row]) (HistoryNodeRow.NodeID row)
                     (HistoryNodeRow.TxnID row)) as [[Hc Hf]|[Hnc Hok]].
        -- left. split; [|exact Hf]. apply corruptedFrom_cons. right. now rewrite Hstep.
        -- right. split.
           ++ rewrite corruptedFrom_cons, Hstep.
              intros [[Hc|[Hc _]]|Hc]; simpl in *; try lia. exact (Hnc Hc).
           ++ rewrite Hok, <- app_assoc. reflexivity.
Qed.

(** The call, once the select has answered. *)
Lemma read_after_select (request : InternalReadHistoryBranchRequest.t) (db : S)
    (minNodeID : Z) (rows : list HistoryNodeRow.t) (err : option error) :
  readMinNodeID deserializePageToken request = Ok minNodeID ->
  SelectFromHistoryNode (readFilter request minNodeID) db = (rows, err) ->
  isErrNoRows err = false ->
  ReadHistoryBranch serializePageToken deserializePageToken maxSliceCap request db
  = if isNil err && (length rows =? 0)%nat
    then Ok emptyReadResponse
    else if makesliceCapOutOfRange maxSliceCap
                 (InternalReadHistoryBranchRequest.PageSize request)
    then Fail (RuntimePanic "makeslice: cap out of range")
    else match readRows rows [] (-1) (-1) with
         | Fail e => Fail e
         | Ok (history, lastNodeID) =>
             Ok {| InternalReadHistoryBranchResponse.History := history;
                   InternalReadHistoryBranchResponse.NextPageToken :=
                     if Z.of_nat (length rows)
                        >=? InternalReadHistoryBranchRequest.PageSize request
                     then serializePageToken lastNodeID
                     else [] |}
         end.
Proof.
  intros Hmin Hsel Herr. unfold ReadHistoryBranch. rewrite Hmin, Hsel, Herr. reflexivity.
Qed.

(** The allocation of line 179 goes through for the capacities from 0 to
    [maxSliceCap]. *)
Lemma makeslice_in_range (cap : Z) :
  0 <= cap <= maxSliceCap -> makesliceCapOutOfRange maxSliceCap cap = false.
Proof.
  intros Hcap. unfold makesliceCapOutOfRange.
  destruct (Z.ltb_spec cap 0), (Z.ltb_spec maxSliceCap cap); first [lia | reflexivity].
Qed.

Lemma makeslice_out_of_range (cap : Z) :
  cap < 0 \/ maxSliceCap < cap -> makesliceCapOutOfRange maxSliceCap cap = true.
Proof.
  intros Hcap. unfold makesliceCapOutOfRange.
  destruct (Z.ltb_spec cap 0), (Z.ltb_spec maxSliceCap cap); first [lia | reflexivity].
Qed.

(** C9. Corrupted-ordering detection. For every list of rows the loop of
    lines 184-208 processes, the loop fails with an internal error if and
    only if some row has a node id below the node id accepted last before
    it, or the same node id with a txn id that is not below the txn id
    accepted last (both are -1 before the first accepted row, section
    4.3.5); otherwise every row is consumed and the loop yields, for each
    accepted row in order, the blob made of its data and its encoding. The
    call hands the rows of the select to the loop once the slice of line
    179 is allocated, and then fails or returns as the loop does. *)
Theorem read_fails_iff_corrupted (rows : list HistoryNodeRow.t) :
  ((exists msg, readRows rows [] (-1) (-1) = Fail (InternalServiceError msg))
   <-> corrupted rows)
  /\ (~ corrupted rows ->
      exists lastNodeID,
        readRows rows [] (-1) (-1)
        = Ok (map (fun row => {| DataBlob.Encoding := HistoryNodeRow.DataEncoding row;
                                 DataBlob.Data := HistoryNodeRow.Data row |})
                (accepted rows), lastNodeID))
  /\ forall (request : InternalReadHistoryBranchRequest.t) (db : S) (minNodeID : Z)
            (err : option error),
       readMinNodeID deserializePageToken request = Ok minNodeID ->
       SelectFromHistoryNode (readFilter request minNodeID) db = (rows, err) ->
       isErrNoRows err = false ->
       0 <= InternalReadHistoryBranchRequest.PageSize request <= maxSliceCap ->
       ((exists msg,
            ReadHistoryBranch serializePageToken deserializePageToken maxSliceCap request db
            = Fail (InternalServiceError msg))
        <-> corrupted rows)
       /\ (~ corrupted rows ->
           exists resp,
             ReadHistoryBranch serializePageToken deserializePageToken maxSliceCap request db
             = Ok resp
             /\ InternalReadHistoryBranchResponse.History resp
                = map (fun row => {| DataBlob.Encoding := HistoryNodeRow.DataEncoding row;
                                     DataBlob.Data := HistoryNodeRow.Data row |})
                    (accepted rows)).
Proof.
  unfold corrupted, accepted.
  assert (Hloop : ((exists msg, readRows rows [] (-1) (-1) = Fail (InternalServiceError msg))
                   <-> corruptedFrom (-1, -1) rows)
                  /\ (~ corruptedFrom (-1, -1) rows ->
                      exists lastNodeID,
                        readRows rows [] (-1) (-1)
                        = Ok (map rowBlob (acceptedFrom (-1) rows), lastNodeID))).
  { destruct (readRows_spec rows [] (-1) (-1)) as [[Hc [msg Hf]]|[Hnc Hok]].
    - rewrite Hf. split; [split; eauto | intros Hnc; destruct (Hnc Hc)].
    - rewrite Hok. split.
      + split; [intros [msg Hf]; discriminate | intros Hc; destruct (Hnc Hc)].
      + intros _. eexists. reflexivity. }
  destruct Hloop as [Hfails Hruns].
  split; [exact Hfails|]. split; [exact Hruns|].
  intros request db minNodeID err Hmin Hsel Herr Hpage.
  rewrite (read_after_select request db minNodeID rows err Hmin Hsel Herr).
  rewrite (makeslice_in_range _ Hpage).
  split.
  - destruct (isNil err && (length rows =? 0)%nat) eqn:Hempty.
    + apply andb_prop in Hempty as [_ Hlen]. apply Nat.eqb_eq in Hlen.
      destruct rows; [|discriminate].
      split; [intros [msg Hf]; discriminate | intros Hc; destruct (corruptedFrom_nil _ Hc)].
    + rewrite <- Hfails.
      destruct (readRows rows [] (-1) (-1)) as [[history lastNodeID]|e].
      * split; intros [msg Hf]; discriminate.
      * split; intros [msg Hf]; exists msg; congruence.
  - intros Hnc. destruct (isNil err && (length rows =? 0)%nat) eqn:Hempty.
    + apply andb_prop in Hempty as [_ Hlen]. apply Nat.eqb_eq in Hlen.
      destruct rows; [|discriminate]. eexists. split; reflexivity.
    + destruct (Hruns Hnc) as [lastNodeID Hok]. rewrite Hok. eexists. split; reflexivity.
Qed.

Lemma read_ok_of_uncorrupted (request : InternalReadHistoryBranchRequest.t) (db : S)
    (minNodeID : Z) (rows : list HistoryNodeRow.t) (err : option error) :
  readMinNodeID deserializePageToken request = Ok minNodeID ->
  SelectFromHistoryNode (readFilter request minNodeID) db = (rows, err) ->
  isErrNoRows err = false ->
  0 <= InternalReadHistoryBranchRequest.PageSize request <= maxSliceCap ->
  ~ corrupted rows ->
  exists resp,
    ReadHistoryBranch serializePageToken deserializePageToken maxSliceCap request db = Ok resp
    /\ InternalReadHistoryBranchResponse.History resp = map rowBlob (accepted rows).
Proof.
  intros Hmin Hsel Herr Hpage Hnc.
  rewrite (read_after_select request db minNodeID rows err Hmin Hsel Herr).
  rewrite (makeslice_in_range _ Hpage).
  destruct (isNil err && (length rows =? 0)%nat) eqn:Hempty.
  - apply andb_prop in Hempty as [_ Hlen]. apply Nat.eqb_eq in Hlen.
    destruct rows; [|discriminate]. eexists. split; reflexivity.
  - destruct (readRows_spec rows [] (-1) (-1)) as [[Hc _]|[_ Hok]]; [destruct (Hnc Hc)|].
    rewrite Hok. eexists. split; reflexivity.
Qed.

Lemma ordered_not_corrupted (rows : list HistoryNodeRow.t) :
  forall n t,
    rowsOrdered rows ->
    Forall (fun r => n < HistoryNodeRow.NodeID r
                     \/ (HistoryNodeRow.NodeID r = n /\ HistoryNodeRow.TxnID r < t)) rows ->
    ~ corruptedFrom (n, t) rows.
Proof.
  induction rows as [|row rows IH]; intros n t Hord Hall.
  - apply corruptedFrom_nil.
  - inversion Hord as [|? ? Hord' Hhead]; subst.
    inversion Hall as [|? ? Hrow Hall']; subst.
    rewrite corruptedFrom_cons. unfold corruptAt, acceptStep. simpl.
    intros [[Hc|[Hc1 Hc2]]|Hc]; [lia | lia |].
    destruct (Z.ltb_spec n (HistoryNodeRow.NodeID row)) as [Hlt|Hge].
    + revert Hc. apply IH; [exact Hord'|].
      eapply List.Forall_impl; [|exact Hhead]. unfold rowPrecedes. intros r. simpl. lia.
    + revert Hc. apply IH; assumption.
Qed.

Lemma isWinner_cons (row x : HistoryNodeRow.t) (rows : list HistoryNodeRow.t) :
  isWinner (row :: rows) x
  = (negb (HistoryNodeRow.NodeID row =? HistoryNodeRow.NodeID x)
     || (HistoryNodeRow.TxnID row <=? HistoryNodeRow.TxnID x))
    && isWinner rows x.
Proof. reflexivity. Qed.

Lemma accepted_winners (rows : list HistoryNodeRow.t) :
  forall n,
    rowsOrdered rows ->
    Forall (fun r => n <= HistoryNodeRow.NodeID r) rows ->
    acceptedFrom n rows
    = List.filter (fun r => (n <? HistoryNodeRow.NodeID r) && isWinner rows r) rows.
Proof.
  induction rows as [|row rows IH]; intros n Hord Hall; [reflexivity|].
  inversion Hord as [|? ? Hord' Hhead]; subst.
  inversion Hall as [|? ? Hrow Hall']; subst.
  rewrite List.Forall_forall in Hhead.
  cbn [acceptedFrom List.filter]. rewrite isWinner_cons.
  destruct (Z.ltb_spec n (HistoryNodeRow.NodeID row)) as [Hlt|Hge].
  - rewrite Z.eqb_refl, Z.leb_refl. cbn [negb orb andb].
    assert (Hw : isWinner rows row = true).
    { apply List.forallb_forall. intros r Hr. apply Hhead in Hr. unfold rowPrecedes in Hr.
      destruct (Z.eqb_spec (HistoryNodeRow.NodeID r) (HistoryNodeRow.NodeID row)); simpl;
        [apply Z.leb_le; lia | reflexivity]. }
    rewrite Hw. f_equal.
    rewrite (IH (HistoryNodeRow.NodeID row) Hord').
    + apply List.filter_ext_in. intros x Hx. rewrite isWinner_cons.
      apply Hhead in Hx. unfold rowPrecedes in Hx.
      destruct (Z.ltb_spec (HistoryNodeRow.NodeID row) (HistoryNodeRow.NodeID x)),
               (Z.ltb_spec n (HistoryNodeRow.NodeID x)),
               (Z.eqb_spec (HistoryNodeRow.NodeID row) (HistoryNodeRow.NodeID x)),
               (Z.leb_spec (HistoryNodeRow.TxnID row) (HistoryNodeRow.TxnID x));
        simpl; try reflexivity; lia.
    + apply List.Forall_forall. intros x Hx. apply Hhead in Hx. unfold rowPrecedes in Hx. lia.
  - cbn [andb]. rewrite (IH n Hord' Hall').
    apply List.filter_ext_in. intros x Hx. rewrite isWinner_cons.
    apply Hhead in Hx. unfold rowPrecedes in Hx.
    destruct (Z.ltb_spec n (HistoryNodeRow.NodeID x)),
             (Z.eqb_spec (HistoryNodeRow.NodeID row) (HistoryNodeRow.NodeID x)),
             (Z.leb_spec (HistoryNodeRow.TxnID row) (HistoryNodeRow.TxnID x));
      simpl; try reflexivity; lia.
Qed.

Lemma acceptedFrom_increasing (rows : list HistoryNodeRow.t) :
  forall n,
    StronglySorted Z.lt (map HistoryNodeRow.NodeID (acceptedFrom n rows))
    /\ Forall (fun r => n < HistoryNodeRow.NodeID r) (acceptedFrom n rows).
Proof.
  induction rows as [|row rows IH]; intros n; simpl.
  - split; constructor.
  - destruct (Z.ltb_spec n (HistoryNodeRow.NodeID row)) as [Hlt|Hge].
    + destruct (IH (HistoryNodeRow.NodeID row)) as [Hs Ha]. split.
      * simpl. constructor; [exact Hs|].
        apply List.Forall_forall. intros z Hz. apply List.in_map_iff in Hz as (r & <- & Hr).
        rewrite List.Forall_forall in Ha. apply Ha. exact Hr.
      * constructor; [exact Hlt|]. eapply List.Forall_impl; [|exact Ha]. simpl. intros; lia.
    + apply IH.
Qed.

Lemma increasing_NoDup (l : list Z) : StronglySorted Z.lt l -> List.NoDup l.
Proof.
  induction 1 as [|z l Hs IH Hall]; constructor; [|exact IH].
  intros Hin. rewrite List.Forall_forall in Hall. apply Hall in Hin. lia.
Qed.

Lemma acceptedFrom_kept (rows : list HistoryNodeRow.t) :
  forall n, sublist (acceptedFrom n rows) rows.
Proof.
  induction rows as [|row rows IH]; intros n; simpl; [constructor|].
  destruct (n <? HistoryNodeRow.NodeID row); [apply sublist_skip | apply sublist_cons]; apply IH.
Qed.

Lemma accepted_covers (rows : list HistoryNodeRow.t) :
  forall n,
    rowsOrdered rows ->
    forall row, In row rows -> n < HistoryNodeRow.NodeID row ->
    exists w, In w (acceptedFrom n rows)
              /\ HistoryNodeRow.NodeID w = HistoryNodeRow.NodeID row.
Proof.
  induction rows as [|r rows IH]; intros n Hord row Hin Hn; [destruct Hin|].
  inversion Hord as [|? ? Hord' Hhead]; subst. rewrite List.Forall_forall in Hhead.
  simpl. destruct (Z.ltb_spec n (HistoryNodeRow.NodeID r)) as [Hlt|Hge].
  - destruct Hin as [<-|Hin]; [exists r; split; [left|]; reflexivity|].
    pose proof (Hhead row Hin) as Hp. unfold rowPrecedes in Hp.
    destruct (Z.eq_dec (HistoryNodeRow.NodeID r) (HistoryNodeRow.NodeID row)) as [E|NE].
    + exists r. split; [left; reflexivity | exact E].
    + destruct (IH (HistoryNodeRow.NodeID r) Hord' row Hin) as (w & Hw & E); [lia|].
      exists w. split; [right; exact Hw | exact E].
  - destruct Hin as [<-|Hin]; [lia|]. apply IH; assumption.
Qed.

(** A read whose select returns rows does not get past line 179 when the
    page size is negative or above [maxSliceCap]. *)
Lemma read_panics_out_of_range (request : InternalReadHistoryBranchRequest.t) (db : S)
    (minNodeID : Z) (rows : list HistoryNodeRow.t) (err : option error) :
  readMinNodeID deserializePageToken request = Ok minNodeID ->
  SelectFromHistoryNode (readFilter request minNodeID) db = (rows, err) ->
  isErrNoRows err = false ->
  rows <> [] ->
  InternalReadHistoryBranchRequest.PageSize request < 0
  \/ maxSliceCap < InternalReadHistoryBranchRequest.PageSize request ->
  ReadHistoryBranch serializePageToken deserializePageToken maxSliceCap request db
  = Fail (RuntimePanic "makeslice: cap out of range").
Proof.
  intros Hmin Hsel Herr Hrows Hpage.
  rewrite (read_after_select request db minNodeID rows err Hmin Hsel Herr).
  rewrite (makeslice_out_of_range _ Hpage).
  destruct rows; [contradiction|]. cbn [length Nat.eqb]. now rewrite andb_false_r.
Qed.

(** C3, as amended. Txn dedup at read. For rows handed over by the node
    store sorted by (nodeID ASC, txnID DESC), with node ids that are not
    negative, and a page size that the allocation of line 179 accepts, the
    call returns, in order, the blob (data and encoding) of each row that
    carries the largest txnID of its nodeID and of no other row: one blob
    per distinct nodeID; a row with the same nodeID as another and a
    strictly smaller txnID is not among them. *)
Theorem read_dedups_by_largest_txn (request : InternalReadHistoryBranchRequest.t) (db : S)
    (minNodeID : Z) (rows : list HistoryNodeRow.t) (err : option error) :
  readMinNodeID deserializePageToken request = Ok minNodeID ->
  SelectFromHistoryNode (readFilter request minNodeID) db = (rows, err) ->
  isErrNoRows err = false ->
  0 <= InternalReadHistoryBranchRequest.PageSize request <= maxSliceCap ->
  rowsOrdered rows ->
  Forall (fun row => 0 <= HistoryNodeRow.NodeID row) rows ->
  exists resp emitted,
    ReadHistoryBranch serializePageToken deserializePageToken maxSliceCap request db = Ok resp
    /\ InternalReadHistoryBranchResponse.History resp
       = map (fun row => {| DataBlob.Encoding := HistoryNodeRow.DataEncoding row;
                            DataBlob.Data := HistoryNodeRow.Data row |}) emitted
    /\ sublist emitted rows
    /\ List.NoDup (map HistoryNodeRow.NodeID emitted)
    /\ (forall row, In row rows ->
          exists w, In w emitted /\ HistoryNodeRow.NodeID w = HistoryNodeRow.NodeID row)
    /\ (forall w r, In w emitted -> In r rows ->
          HistoryNodeRow.NodeID r = HistoryNodeRow.NodeID w ->
          HistoryNodeRow.TxnID r <= HistoryNodeRow.TxnID w)
    /\ (forall row r, In row rows -> In r rows ->
          HistoryNodeRow.NodeID r = HistoryNodeRow.NodeID row ->
          HistoryNodeRow.TxnID row < HistoryNodeRow.TxnID r ->
          ~ In row emitted)
    /\ emitted = winners rows.
Proof.
  intros Hmin Hsel Herr Hpage Hord Hpos.
  assert (Hacc : accepted rows = winners rows).
  { unfold accepted, winners. rewrite accepted_winners; [|exact Hord|].
    - apply List.filter_ext_in. intros x Hx. rewrite List.Forall_forall in Hpos.
      apply Hpos in Hx. destruct (Z.ltb_spec (-1) (HistoryNodeRow.NodeID x)); [reflexivity | lia].
    - eapply List.Forall_impl; [|exact Hpos]. simpl. intros; lia. }
  assert (Hnc : ~ corrupted rows).
  { apply ordered_not_corrupted; [exact Hord|].
    eapply List.Forall_impl; [|exact Hpos]. simpl. intros; lia. }
  destruct (read_ok_of_uncorrupted request db minNodeID rows err Hmin Hsel Herr Hpage Hnc)
    as (resp & Hok & Hhist).
  assert (Hlargest : forall w r, In w (winners rows) -> In r rows ->
            HistoryNodeRow.NodeID r = HistoryNodeRow.NodeID w ->
            HistoryNodeRow.TxnID r <= HistoryNodeRow.TxnID w).
  { intros w r Hw Hr Hnode. apply List.filter_In in Hw as [_ Hw]. unfold isWinner in Hw.
    rewrite List.forallb_forall in Hw. specialize (Hw r Hr).
    destruct (Z.eqb_spec (HistoryNodeRow.NodeID r) (HistoryNodeRow.NodeID w)); [|contradiction].
    simpl in Hw. now apply Z.leb_le in Hw. }
  exists resp, (winners rows). rewrite <- Hacc. repeat split.
  - exact Hok.
  - exact Hhist.
  - apply acceptedFrom_kept.
  - apply increasing_NoDup. apply acceptedFrom_increasing.
  - intros row Hin. apply accepted_covers; [exact Hord | exact Hin |].
    rewrite List.Forall_forall in Hpos. apply Hpos in Hin. lia.
  - intros w r Hw Hr Hnode. rewrite Hacc in Hw. now apply Hlargest.
  - intros row r Hrow Hr Hnode Htxn Hin. rewrite Hacc in Hin.
    pose proof (Hlargest row r Hin Hr Hnode). lia.
Qed.

Lemma add64_no_overflow (a : Z) :
  - 2 ^ 63 <= a < 2 ^ 63 - 1 -> add64 a 1 = a + 1.
Proof.
  intros Ha. unfold add64, wrap64. rewrite Z.mod_small; lia.
Qed.

Lemma read_with_token (request : InternalReadHistoryBranchRequest.t) (lastNodeID : Z) :
  InternalReadHistoryBranchRequest.NextPageToken request <> [] ->
  deserializePageToken (InternalReadHistoryBranchRequest.NextPageToken request)
  = Ok lastNodeID ->
  readMinNodeID deserializePageToken request = Ok (add64 lastNodeID 1).
Proof.
  intros Hne Hdec. unfold readMinNodeID.
  destruct (InternalReadHistoryBranchRequest.NextPageToken request) eqn:E; [contradiction|].
  rewrite Hdec. reflexivity.
Qed.

(** C8, as amended. Pagination token. A non-empty page token that decodes
    to lastNodeID makes the select start at lastNodeID + 1 (Go's int64
    addition; the sum itself unless lastNodeID is the largest int64), and
    the request's own minNodeID is ignored: the call behaves as the call
    without token that asks for that minimum. A response obtained from a
    successful select carries a token if and only if the select returned at
    least one row and at least pageSize rows, and the token then encodes
    the node id accepted last. *)
Theorem read_page_token (request : InternalReadHistoryBranchRequest.t) :
  (forall lastNodeID,
      InternalReadHistoryBranchRequest.NextPageToken request <> [] ->
      deserializePageToken (InternalReadHistoryBranchRequest.NextPageToken request)
      = Ok lastNodeID ->
      readMinNodeID deserializePageToken request = Ok (add64 lastNodeID 1)
      /\ (- 2 ^ 63 <= lastNodeID < 2 ^ 63 - 1 -> add64 lastNodeID 1 = lastNodeID + 1)
      /\ forall db,
           ReadHistoryBranch serializePageToken deserializePageToken maxSliceCap request db
           = ReadHistoryBranch serializePageToken deserializePageToken maxSliceCap
               (withMinNodeID request (add64 lastNodeID 1)) db)
  /\ (forall db minNodeID rows resp,
        readMinNodeID deserializePageToken request = Ok minNodeID ->
        SelectFromHistoryNode (readFilter request minNodeID) db = (rows, None) ->
        ReadHistoryBranch serializePageToken deserializePageToken maxSliceCap request db = Ok resp ->
        InternalReadHistoryBranchResponse.NextPageToken resp
        = (if negb (length rows =? 0)%nat
              && (InternalReadHistoryBranchRequest.PageSize request <=? Z.of_nat (length rows))
           then serializePageToken (lastAccepted rows).1
           else [])
        /\ ((forall n, serializePageToken n <> []) ->
            (InternalReadHistoryBranchResponse.NextPageToken resp <> []
             <-> rows <> []
                 /\ InternalReadHistoryBranchRequest.PageSize request
                    <= Z.of_nat (length rows)))).
Proof.
  split.
  - intros lastNodeID Hne Hdec.
    pose proof (read_with_token request lastNodeID Hne Hdec) as Hmin.
    split; [exact Hmin|]. split; [apply add64_no_overflow|].
    intros db. unfold ReadHistoryBranch. rewrite Hmin. reflexivity.
  - intros db minNodeID rows resp Hmin Hsel Hok.
    rewrite (read_after_select request db minNodeID rows None Hmin Hsel eq_refl) in Hok.
    cbn [isNil andb] in Hok.
    assert (Htok :
      InternalReadHistoryBranchResponse.NextPageToken resp
      = (if negb (length rows =? 0)%nat
            && (InternalReadHistoryBranchRequest.PageSize request <=? Z.of_nat (length rows))
         then serializePageToken (lastAccepted rows).1
         else [])).
    { destruct (length rows =? 0)%nat.
      - injection Hok as <-. reflexivity.
      - destruct (makesliceCapOutOfRange _ _); [discriminate|].
        destruct (readRows_spec rows [] (-1) (-1)) as [[_ [msg Hf]]|[_ Hr]];
          rewrite ?Hf, ?Hr in Hok; [discriminate|].
        injection Hok as <-. cbn [negb andb InternalReadHistoryBranchResponse.NextPageToken].
        unfold lastAccepted. rewrite Z.geb_leb. reflexivity. }
    split; [exact Htok|].
    intros Hser. rewrite Htok.
    destruct rows as [|row rows]; cbn [length Nat.eqb negb andb].
    + split; [intros Hc; now destruct Hc | intros [Hc _]; now destruct Hc].
    + destruct (Z.leb_spec (InternalReadHistoryBranchRequest.PageSize request)
                  (Z.of_nat (Datatypes.S (length rows)))) as [Hle|Hgt].
      * split; [intros _; split; [discriminate | exact Hle] | intros _; apply Hser].
      * split; [intros Hc; now destruct Hc | intros [_ Hc]; lia].
Qed.

End ReadFacts.

(** ** AppendHistoryNodes *)

Section AppendFacts.

Context {S : Type} `{DB S}.
Variable jsonMarshal : list HistoryBranchRange.t -> result bytes.
Variable ErrDupEntry : Z.

Lemma copy_ancestors (l acc : list HistoryBranchRange.t) :
  fold_left (fun ans anc => ans ++ [anc]) l acc = acc ++ l.
Proof.
  revert acc. induction l as [|x l IH]; intros acc; simpl.
  - now rewrite app_nil_r.
  - rewrite IH, <- app_assoc. reflexivity.
Qed.

(** C6. Append precondition. A request with nodeID below the begin node
    id of its branch is answered with InvalidRequest and the store is left
    as it was. Otherwise the append proceeds to the insert of the node row
    made of the request's tree id, branch id, node id, txn id, data and
    encoding. Without the new-branch flag the outcome of that insert is the
    outcome of the call, its error translated. With the flag, once the
    chain is serialized, the node insert is followed by the insert of the
    branch row (committed, created now, with the serialized chain and the
    request's info); the call succeeds, with the store both inserts leave,
    when each affects one row, and in every other case it returns the
    error met first and the store it started from. *)
Theorem append_precondition (now : Z) (request : InternalAppendHistoryNodesRequest.t)
    (db : S) :
  let branchInfo := InternalAppendHistoryNodesRequest.BranchInfo request in
  let nodeID := InternalAppendHistoryNodesRequest.NodeID request in
  let nodeRow :=
    {| HistoryNodeRow.TreeID := HistoryBranch.TreeID branchInfo;
       HistoryNodeRow.BranchID := HistoryBranch.BranchID branchInfo;
       HistoryNodeRow.NodeID := nodeID;
       HistoryNodeRow.TxnID := InternalAppendHistoryNodesRequest.TransactionID request;
       HistoryNodeRow.Data :=
         DataBlob.Data (InternalAppendHistoryNodesRequest.Events request);
       HistoryNodeRow.DataEncoding :=
         DataBlob.Encoding (InternalAppendHistoryNodesRequest.Events request) |} in
  (nodeID < GetBeginNodeID branchInfo ->
     AppendHistoryNodes jsonMarshal ErrDupEntry now request db
     = (Fail (InvalidPersistenceRequestError "cannot append to ancestors' nodes"), db))
  /\ (GetBeginNodeID branchInfo <= nodeID ->
      (InternalAppendHistoryNodesRequest.IsNewBranch request = false ->
         AppendHistoryNodes jsonMarshal ErrDupEntry now request db
         = match InsertIntoHistoryNode nodeRow db with
           | (Fail err, db') => (Fail (appendInsertError ErrDupEntry err), db')
           | (Ok _, db') => (Ok tt, db')
           end)
      /\ (InternalAppendHistoryNodesRequest.IsNewBranch request = true ->
          (forall e,
              jsonMarshal (HistoryBranch.Ancestors branchInfo) = Fail e ->
              AppendHistoryNodes jsonMarshal ErrDupEntry now request db = (Fail e, db))
          /\ forall ancestors,
               jsonMarshal (HistoryBranch.Ancestors branchInfo) = Ok ancestors ->
               let treeRow :=
                 {| HistoryTreeRow.TreeID := HistoryBranch.TreeID branchInfo;
                    HistoryTreeRow.BranchID := HistoryBranch.BranchID branchInfo;
                    HistoryTreeRow.InProgress := false;
                    HistoryTreeRow.CreatedTs := now;
                    HistoryTreeRow.Ancestors := ancestors;
                    HistoryTreeRow.Info := InternalAppendHistoryNodesRequest.Info request |} in
               (forall e db1,
                   InsertIntoHistoryNode nodeRow db = (Fail e, db1) ->
                   AppendHistoryNodes jsonMarshal ErrDupEntry now request db = (Fail e, db))
               /\ (forall r1 db1 e,
                      InsertIntoHistoryNode nodeRow db = (Ok r1, db1) ->
                      SqlResult.RowsAffected r1 = Fail e ->
                      AppendHistoryNodes jsonMarshal ErrDupEntry now request db = (Fail e, db))
               /\ (forall r1 db1 n,
                      InsertIntoHistoryNode nodeRow db = (Ok r1, db1) ->
                      SqlResult.RowsAffected r1 = Ok n -> n <> 1 ->
                      AppendHistoryNodes jsonMarshal ErrDupEntry now request db
                      = (Fail (RowsAffectedError "node" n), db))
               /\ (forall r1 db1,
                      InsertIntoHistoryNode nodeRow db = (Ok r1, db1) ->
                      SqlResult.RowsAffected r1 = Ok 1 ->
                      (forall e db2,
                          InsertIntoHistoryTree treeRow db1 = (Fail e, db2) ->
                          AppendHistoryNodes jsonMarshal ErrDupEntry now request db
                          = (Fail e, db))
                      /\ (forall r2 db2 e,
                             InsertIntoHistoryTree treeRow db1 = (Ok r2, db2) ->
                             SqlResult.RowsAffected r2 = Fail e ->
                             AppendHistoryNodes jsonMarshal ErrDupEntry now request db
                             = (Fail e, db))
                      /\ (forall r2 db2 n,
                             InsertIntoHistoryTree treeRow db1 = (Ok r2, db2) ->
                             SqlResult.RowsAffected r2 = Ok n -> n <> 1 ->
                             AppendHistoryNodes jsonMarshal ErrDupEntry now request db
                             = (Fail (RowsAffectedError "tree" n), db))
                      /\ (forall r2 db2,
                             InsertIntoHistoryTree treeRow db1 = (Ok r2, db2) ->
                             SqlResult.RowsAffected r2 = Ok 1 ->
                             AppendHistoryNodes jsonMarshal ErrDupEntry now request db
                             = (Ok tt, db2))))).
Proof.
  intros branchInfo nodeID nodeRow. unfold AppendHistoryNodes. fold branchInfo nodeID.
  change (appendNodeRow request) with nodeRow.
  split; [|split].
  - intros Hlt. destruct (Z.ltb_spec nodeID (GetBeginNodeID branchInfo)); [reflexivity | lia].
  - intros Hplain. destruct (Z.ltb_spec nodeID (GetBeginNodeID branchInfo)); [lia|].
    rewrite Hplain. reflexivity.
  - intros Hnew.
    destruct (Z.ltb_spec nodeID (GetBeginNodeID branchInfo)); [lia|].
    rewrite Hnew, copy_ancestors. unfold serializeAncestors. cbn [app]. split.
    + intros e Hser. rewrite Hser. reflexivity.
    + intros ancestors Hser. rewrite Hser.
      unfold appendTreeRow, MustParseUUID. fold branchInfo.
      unfold txExecute, appendNewBranchTx, bind, lift, ret, fail.
      assert (Hone : forall n, n <> 1 -> negb (n =? 1) = true)
        by (intros n Hn; destruct (Z.eqb_spec n 1); [contradiction | reflexivity]).
      split; [|split; [|split]].
      * intros e db1 Hins. rewrite Hins. reflexivity.
      * intros r1 db1 e Hins Hrows. rewrite Hins, Hrows. reflexivity.
      * intros r1 db1 n Hins Hrows Hn. rewrite Hins, Hrows, (Hone n Hn). reflexivity.
      * intros r1 db1 Hins Hrows. rewrite Hins, Hrows. cbn [Z.eqb Pos.eqb negb].
        split; [|split; [|split]].
        -- intros e db2 Htree. rewrite Htree. reflexivity.
        -- intros r2 db2 e Htree Hrows2. rewrite Htree, Hrows2. reflexivity.
        -- intros r2 db2 n Htree Hrows2 Hn. rewrite Htree, Hrows2, (Hone n Hn). reflexivity.
        -- intros r2 db2 Htree Hrows2. rewrite Htree, Hrows2. reflexivity.
Qed.

(** The plain path translates the duplicate-key signal. *)
Lemma append_plain_duplicate (now : Z) (request : InternalAppendHistoryNodesRequest.t)
    (db db' : S) (msg : string) :
  GetBeginNodeID (InternalAppendHistoryNodesRequest.BranchInfo request)
  <= InternalAppendHistoryNodesRequest.NodeID request ->
  InternalAppendHistoryNodesRequest.IsNewBranch request = false ->
  InsertIntoHistoryNode (appendNodeRow request) db = (Fail (MySQLError ErrDupEntry msg), db') ->
  AppendHistoryNodes jsonMarshal ErrDupEntry now request db
  = (Fail (ConditionFailedError "AppendHistoryNodes: row already exist: "), db').
Proof.
  intros Hge Hplain Hins. unfold AppendHistoryNodes.
  destruct (Z.ltb_spec (InternalAppendHistoryNodesRequest.NodeID request)
              (GetBeginNodeID (InternalAppendHistoryNodesRequest.BranchInfo request))); [lia|].
  rewrite Hplain, Hins. simpl. rewrite Z.eqb_refl. reflexivity.
Qed.

(** The new-branch path hands back whatever error the node insert gave,
    after the rollback. *)
Lemma append_new_branch_insert_error (now : Z)
    (request : InternalAppendHistoryNodesRequest.t) (db db' : S)
    (ancestors : bytes) (err : error) :
  GetBeginNodeID (InternalAppendHistoryNodesRequest.BranchInfo request)
  <= InternalAppendHistoryNodesRequest.NodeID request ->
  InternalAppendHistoryNodesRequest.IsNewBranch request = true ->
  jsonMarshal (HistoryBranch.Ancestors (InternalAppendHistoryNodesRequest.BranchInfo request))
  = Ok ancestors ->
  InsertIntoHistoryNode (appendNodeRow request) db = (Fail err, db') ->
  AppendHistoryNodes jsonMarshal ErrDupEntry now request db = (Fail err, db).
Proof.
  intros Hge Hnew Hser Hins. unfold AppendHistoryNodes.
  destruct (Z.ltb_spec (InternalAppendHistoryNodesRequest.NodeID request)
              (GetBeginNodeID (InternalAppendHistoryNodesRequest.BranchInfo request))); [lia|].
  rewrite Hnew, copy_ancestors. unfold serializeAncestors. simpl. rewrite Hser.
  unfold txExecute, appendNewBranchTx, bind. rewrite Hins. reflexivity.
Qed.

End AppendFacts.

(** ** GetHistoryTree and DeleteHistoryBranch *)

Section TreeFacts.

Context {S : Type} `{DB S}.
Variable jsonUnmarshal : bytes -> result (list HistoryBranchRange.t).

Lemma treeRows_spec (treeID : string) (rows : list HistoryTreeRow.t) :
  forall branches forkingBranches,
    Forall (decodes jsonUnmarshal) rows ->
    treeRows jsonUnmarshal treeID rows branches forkingBranches
    = Ok {| GetHistoryTreeResponse.Branches :=
              branches ++ map (fun row => treeRowBranch treeID row
                                            (decodedChain jsonUnmarshal row)) rows;
            GetHistoryTreeResponse.ForkingInProgressBranches :=
              forkingBranches
              ++ map treeRowForking (List.filter HistoryTreeRow.InProgress rows) |}.
Proof.
  induction rows as [|row rows IH]; intros branches forkingBranches Hall; simpl.
  - now rewrite !app_nil_r.
  - inversion Hall as [|? ? [ancs Hrow] Hall']; subst.
    unfold deserializeAncestors, decodedChain. rewrite Hrow.
    rewrite (IH _ _ Hall'). unfold decodedChain.
    destruct (HistoryTreeRow.InProgress row); simpl; rewrite <- !app_assoc; reflexivity.
Qed.

Lemma get_history_tree_rows (request : GetHistoryTreeRequest.t) (db : S)
    (rows : list HistoryTreeRow.t) (err : option error) :
  SelectFromHistoryTree (wholeTree (GetHistoryTreeRequest.TreeID request)) db = (rows, err) ->
  isErrNoRows err = false ->
  Forall (decodes jsonUnmarshal) rows ->
  GetHistoryTree jsonUnmarshal request db
  = Ok {| GetHistoryTreeResponse.Branches :=
            map (fun row => treeRowBranch (GetHistoryTreeRequest.TreeID request) row
                              (decodedChain jsonUnmarshal row)) rows;
          GetHistoryTreeResponse.ForkingInProgressBranches :=
            map treeRowForking (List.filter HistoryTreeRow.InProgress rows) |}.
Proof.
  intros Hsel Herr Hall. unfold GetHistoryTree. unfold wholeTree in Hsel.
  rewrite Hsel, Herr. cbn [orb].
  destruct (isNil err && (length rows =? 0)%nat) eqn:Hempty.
  - apply andb_prop in Hempty as [_ Hlen]. apply Nat.eqb_eq in Hlen.
    destruct rows; [reflexivity | discriminate].
  - rewrite (treeRows_spec _ rows [] [] Hall). reflexivity.
Qed.

(** C5, as amended. GetHistoryTree returns two collections: Branches holds
    one entry for every branch row of the tree, committed or in progress,
    with its deserialized ancestor chain; ForkingInProgressBranches holds
    exactly the rows whose in-progress flag is set, with branch id, fork
    time and info. *)
Theorem get_history_tree_collections (request : GetHistoryTreeRequest.t) (db : S)
    (rows : list HistoryTreeRow.t) (err : option error) :
  SelectFromHistoryTree (wholeTree (GetHistoryTreeRequest.TreeID request)) db = (rows, err) ->
  isErrNoRows err = false ->
  Forall (decodes jsonUnmarshal) rows ->
  exists rsp,
    GetHistoryTree jsonUnmarshal request db = Ok rsp
    /\ GetHistoryTreeResponse.Branches rsp
       = map (fun row =>
                {| HistoryBranch.TreeID := GetHistoryTreeRequest.TreeID request;
                   HistoryBranch.BranchID := HistoryTreeRow.BranchID row;
                   HistoryBranch.Ancestors := decodedChain jsonUnmarshal row |}) rows
    /\ GetHistoryTreeResponse.ForkingInProgressBranches rsp
       = map (fun row =>
                {| ForkingInProgressBranch.BranchID := HistoryTreeRow.BranchID row;
                   ForkingInProgressBranch.ForkTime := HistoryTreeRow.CreatedTs row;
                   ForkingInProgressBranch.Info := HistoryTreeRow.Info row |})
             (List.filter HistoryTreeRow.InProgress rows).
Proof.
  intros Hsel Herr Hall. eexists. split.
  - apply (get_history_tree_rows request db rows err Hsel Herr Hall).
  - split; reflexivity.
Qed.

(** C7, as amended. In-progress blocks delete. When the tree rows
    DeleteHistoryBranch observes, each with a chain that deserializes,
    include a branch whose in-progress flag is set, the call returns
    ConditionFailed and the store is the one it started from: neither the
    branch row nor any node is deleted. *)
Theorem delete_refused_while_forking (request : InternalDeleteHistoryBranchRequest.t)
    (db : S) (rows : list HistoryTreeRow.t) (err : option error) :
  let branch := InternalDeleteHistoryBranchRequest.BranchInfo request in
  SelectFromHistoryTree (wholeTree (HistoryBranch.TreeID branch)) db = (rows, err) ->
  isErrNoRows err = false ->
  Forall (decodes jsonUnmarshal) rows ->
  Exists (fun row => HistoryTreeRow.InProgress row = true) rows ->
  DeleteHistoryBranch jsonUnmarshal request db
  = (Fail (ConditionFailedError "There are branches in progress of forking"), db).
Proof.
  intros branch Hsel Herr Hall Hex. unfold DeleteHistoryBranch. fold branch.
  rewrite (get_history_tree_rows {| GetHistoryTreeRequest.TreeID := HistoryBranch.TreeID branch |}
             db rows err Hsel Herr Hall).
  cbn [GetHistoryTreeResponse.ForkingInProgressBranches].
  assert (Hlen : (0 < length (map treeRowForking
                                (List.filter HistoryTreeRow.InProgress rows)))%nat).
  { apply List.Exists_exists in Hex as (row & Hin & Hrow).
    assert (Hf : In row (List.filter HistoryTreeRow.InProgress rows))
      by (apply List.filter_In; split; assumption).
    rewrite length_map. destruct (List.filter _ rows); [destruct Hf | simpl; lia]. }
  apply Nat.ltb_lt in Hlen. rewrite Hlen. reflexivity.
Qed.

(** A row whose chain does not deserialize makes the delete fail with the
    codec's error, again without touching the store. *)
Lemma delete_fails_on_undecodable_row (request : InternalDeleteHistoryBranchRequest.t)
    (db : S) (e : error) :
  GetHistoryTree jsonUnmarshal
    {| GetHistoryTreeRequest.TreeID :=
         HistoryBranch.TreeID (InternalDeleteHistoryBranchRequest.BranchInfo request) |} db
  = Fail e ->
  DeleteHistoryBranch jsonUnmarshal request db = (Fail e, db).
Proof. intros Hget. unfold DeleteHistoryBranch. rewrite Hget. reflexivity. Qed.

(** The statements the delete of S4 issues, whatever the substrate: with
    B1 and B2 listed, the node delete on B2 from node 2 is followed by a node
    delete on B1 from node 2. *)
Lemma delete_plan_of_S4 (db : S) :
  deleteTx branchB2 (validBRsMaxEndNode [ branchB1; branchB2 ]) db
  = (DeleteFromHistoryTree
       {| HistoryTreeFilter.TreeID := T1; HistoryTreeFilter.BranchID := Some B2 |} ;;;
     DeleteFromHistoryNode
       {| HistoryNodeFilter.TreeID := T1; HistoryNodeFilter.BranchID := B2;
          HistoryNodeFilter.MinNodeID := Some 2; HistoryNodeFilter.MaxNodeID := None;
          HistoryNodeFilter.PageSize := None |} ;;;
     DeleteFromHistoryNode
       {| HistoryNodeFilter.TreeID := T1; HistoryNodeFilter.BranchID := B1;
          HistoryNodeFilter.MinNodeID := Some 2; HistoryNodeFilter.MaxNodeID := None;
          HistoryNodeFilter.PageSize := None |} ;;;
     ret tt)%stmt db.
Proof.
  assert (HB2 : validBRsMaxEndNode [ branchB1; branchB2 ] !! B2 = None) by evaluate.
  assert (HB1 : validBRsMaxEndNode [ branchB1; branchB2 ] !! B1 = Some 2) by evaluate.
  unfold deleteTx, bind. cbn [rev brsToDelete branchB2 HistoryBranch.Ancestors
    HistoryBranch.BranchID HistoryBranch.TreeID map app deleteWalk fst snd
    HistoryBranchRange.BranchID HistoryBranchRange.BeginNodeID].
  unfold MustParseUUID.
  destruct (DeleteFromHistoryTree _ db) as [[r|e] db1]; [|reflexivity].
  unfold bind. rewrite HB2.
  destruct (DeleteFromHistoryNode _ db1) as [[r2|e2] db2]; [|reflexivity].
  cbn [deleteWalk fst snd]. unfold bind. rewrite HB1. reflexivity.
Qed.

End TreeFacts.

(** ** The scenarios, evaluated *)

(** C1. Delete safety fails on scenario S4 of section 8. B1 owns nodes 1
    and 2, B2 was forked from B1 at node 2 and completed; no fork is in
    progress. Deleting B2 succeeds and removes, besides B2's own node, every
    node of B1 from node id 2 on, although B1 is still a branch of the tree:
    B1 read ["e1"; "e2b"] before the delete and reads ["e1"] after it. *)
Theorem delete_fork_prunes_live_source :
  map nodeKey (history_node dbS3)
  = [ (B1, 1, 100); (B1, 2, 101); (B1, 2, 200); (B2, 2, 300) ]
  /\ map treeKey (history_tree dbS3) = [ (B1, false); (B2, false) ]
  /\ memRead (readReq B1 1 10 10 []) dbS3 = Ok (readResponse [ "e1"; "e2b" ] [])
  /\ memDelete (deleteReq branchB2) dbS3 = (Ok tt, dbS4)
  /\ map treeKey (history_tree dbS4) = [ (B1, false) ]
  /\ map nodeKey (history_node dbS4) = [ (B1, 1, 100) ]
  /\ memRead (readReq B1 1 10 10 []) dbS4 = Ok (readResponse [ "e1" ] []).
Proof. repeat split; vm_compute; reflexivity. Qed.

(** C4. Duplicate-key translation fails on the new-branch path. The store
    already holds node (B1, 1, 100); appending it again makes the node insert
    fail with the duplicate-key signal. With IsNewBranch unset the call
    answers ConditionFailed; with IsNewBranch set it answers the raw MySQL
    error. *)
Theorem append_new_branch_duplicate_is_raw :
  memInsertIntoHistoryNode 1062 (appendNodeRow (appendReq true branchB1 1 100 "e1")) dbS1
  = (Fail (MySQLError 1062 "Duplicate entry"), dbS1)
  /\ memAppend 0 (appendReq true branchB1 1 100 "e1") dbS1
     = (Fail (MySQLError 1062 "Duplicate entry"), dbS1)
  /\ memAppend 0 (appendReq false branchB1 1 100 "e1") dbS1
     = (Fail (ConditionFailedError "AppendHistoryNodes: row already exist: "), dbS1).
Proof. repeat split; vm_compute; reflexivity. Qed.

(** C5 as stated fails: in S5 the branch B3 is in progress, and
    GetHistoryTree lists it among Branches as well. *)
Lemma get_history_tree_lists_in_progress_branch :
  map treeKey (history_tree dbS5) = [ (B1, false); (B3, true) ]
  /\ exists rsp,
       memGetTree treeReq dbS5 = Ok rsp
       /\ map HistoryBranch.BranchID (GetHistoryTreeResponse.Branches rsp) = [ B1; B3 ]
       /\ map ForkingInProgressBranch.BranchID
            (GetHistoryTreeResponse.ForkingInProgressBranches rsp) = [ B3 ].
Proof.
  split; [vm_compute; reflexivity|].
  eexists. split; [vm_compute; reflexivity|]. split; reflexivity.
Qed.

(** C8 as stated fails: with pageSize 0 the select returns no row, which is
    at least pageSize rows, and the response carries no token. *)
Lemma read_empty_page_has_no_token :
  memSelectFromHistoryNode (readFilter (readReq B1 1 10 0 []) 1) dbS1 = ([], None)
  /\ InternalReadHistoryBranchRequest.PageSize (readReq B1 1 10 0 [])
     <= Z.of_nat (@length HistoryNodeRow.t [])
  /\ memRead (readReq B1 1 10 0 []) dbS1 = Ok (readResponse [] []).
Proof. repeat split; vm_compute; try reflexivity. discriminate. Qed.

(** C3 as stated fails twice. In S2 the select hands over the three rows of
    B1, sorted, and with a page size of 2^62 the call panics at line 179
    instead of returning "e1" and "e2b". And on a store that holds the one
    row (B1, -1, -5), sorted as it is, the call returns no blob for node -1. *)
Lemma read_sorted_rows_without_their_blobs :
  (memSelectFromHistoryNode (readFilter (readReq B1 1 10 (2 ^ 62) []) 1) dbS2 = (rowsS2, None)
   /\ rowsOrdered rowsS2
   /\ memRead (readReq B1 1 10 (2 ^ 62) []) dbS2
      = Fail (RuntimePanic "makeslice: cap out of range"))
  /\ (memSelectFromHistoryNode (readFilter (readReq B1 (-5) 10 10 []) (-5)) dbNegative
      = ([ nodeRowOf B1 (-1) (-5) "e0" ], None)
      /\ rowsOrdered [ nodeRowOf B1 (-1) (-5) "e0" ]
      /\ memRead (readReq B1 (-5) 10 10 []) dbNegative = Ok (readResponse [] [])).
Proof.
  split.
  - assert (Hall : orderRows
                     (List.filter
                        (fun row => nodeInBranch (readFilter (readReq B1 1 10 (2 ^ 62) []) 1) row
                                    && fromMinNodeID (readFilter (readReq B1 1 10 (2 ^ 62) []) 1) row
                                    && belowMaxNodeID (readFilter (readReq B1 1 10 (2 ^ 62) []) 1)
                                         row)
                        (history_node dbS2))
                   = rowsS2) by evaluate.
    assert (Hsel : memSelectFromHistoryNode (readFilter (readReq B1 1 10 (2 ^ 62) []) 1) dbS2
                   = (rowsS2, None)).
    { unfold memSelectFromHistoryNode. rewrite Hall. unfold limitRows.
      cbn [HistoryNodeFilter.PageSize readFilter InternalReadHistoryBranchRequest.PageSize
           readReq].
      rewrite take_ge; [reflexivity|]. unfold rowsS2. cbn [length]. lia. }
    split; [exact Hsel|]. split; [unfold rowsOrdered, rowsS2; ordered|].
    apply (read_panics_out_of_range (S := MemDB) (H := memDB 1062)
             binSerializePageToken binDeserializePageToken (2 ^ 45)
             (readReq B1 1 10 (2 ^ 62) []) dbS2 1 rowsS2 None eq_refl Hsel eq_refl).
    + discriminate.
    + right. cbn [InternalReadHistoryBranchRequest.PageSize readReq]. lia.
  - split; [evaluate|]. split; [unfold rowsOrdered; ordered | evaluate].
Qed.

(** C7 as stated fails: the tree of the store below has a branch in
    progress, B3, whose chain does not deserialize; the delete returns the
    codec's error, not ConditionFailed. *)
Lemma delete_with_undecodable_row_is_not_refused :
  memSelectFromHistoryTree
    (wholeTree (HistoryBranch.TreeID
                  (InternalDeleteHistoryBranchRequest.BranchInfo (deleteReq branchB2)))) dbBadRow
  = (history_tree dbBadRow, None)
  /\ map treeKey (history_tree dbBadRow) = [ (B1, false); (B2, false); (B3, true) ]
  /\ memDelete (deleteReq branchB2) dbBadRow
     = (Fail (JSONError "unexpected end of input"), dbBadRow).
Proof. repeat split; vm_compute; reflexivity. Qed.

(** ** The theorems at work on the scenarios *)

(** Forking B2 from B1 at node 2 (second case), and B3 from B2 at node 2
    (first case: the entry of B1 is kept, truncated at 2). *)
Lemma fork_ancestor_chain_witness :
  GetBeginNodeID branchB1 < 2
  /\ forkNewAncestors (forkReq branchB1 2 B2) = HistoryBranch.Ancestors branchB2
  /\ 2 <= GetBeginNodeID branchB2
  /\ forkNewAncestors (forkReq branchB2 2 B3) = HistoryBranch.Ancestors branchB2.
Proof.
  destruct (fork_ancestor_chain (S := MemDB) (H := memDB 1062) binMarshal
              (forkReq branchB1 2 B2)) as (_ & HB & _).
  destruct (fork_ancestor_chain (S := MemDB) (H := memDB 1062) binMarshal
              (forkReq branchB2 2 B3)) as (HA & _ & _).
  assert (H1 : GetBeginNodeID branchB1 < 2) by (vm_compute; reflexivity).
  assert (H2 : 2 <= GetBeginNodeID branchB2) by (vm_compute; discriminate).
  split; [exact H1|]. split; [rewrite (HB H1); vm_compute; reflexivity|]. split; [exact H2|].
  destruct (HA H2) as [[_ E]|(copied & br & rest & Hchain & _ & _ & E)].
  - rewrite E. reflexivity.
  - rewrite E. destruct copied as [|c copied]; simpl in Hchain.
    + injection Hchain as <- _. reflexivity.
    + injection Hchain as _ Hrest. destruct copied; discriminate.
Defined.

(** The fork of S3: the new branch B2 begins at node 2. *)
Lemma fork_new_branch_begins_at_fork_node_witness :
  exists resp db',
    1 <= InternalForkHistoryBranchRequest.ForkNodeID (forkReq branchB1 2 B2)
    /\ memFork 0 (forkReq branchB1 2 B2) dbS2 = (Ok resp, db')
    /\ GetBeginNodeID (InternalForkHistoryBranchResponse.NewBranchInfo resp) = 2.
Proof.
  assert (Hpos : 1 <= InternalForkHistoryBranchRequest.ForkNodeID (forkReq branchB1 2 B2))
    by (vm_compute; discriminate).
  eexists. eexists. split; [exact Hpos|].
  assert (Hrun : memFork 0 (forkReq branchB1 2 B2) dbS2
                 = (fst (memFork 0 (forkReq branchB1 2 B2) dbS2),
                    snd (memFork 0 (forkReq branchB1 2 B2) dbS2)))
    by (destruct (memFork 0 (forkReq branchB1 2 B2) dbS2); reflexivity).
  assert (Hok : fst (memFork 0 (forkReq branchB1 2 B2) dbS2)
                = Ok {| InternalForkHistoryBranchResponse.NewBranchInfo := branchB2 |})
    by evaluate.
  rewrite Hok in Hrun. split; [exact Hrun|].
  exact (proj1 (fork_new_branch_begins_at_fork_node (S := MemDB) (H := memDB 1062)
                  binMarshal 0 (forkReq branchB1 2 B2) dbS2 _ _ Hpos Hrun)).
Defined.

(** Reading B1 after S2: the rows are ordered, txn 200 wins at node 2. *)
Lemma read_dedups_by_largest_txn_witness :
  readMinNodeID binDeserializePageToken (readReq B1 1 10 10 []) = Ok 1
  /\ memSelectFromHistoryNode (readFilter (readReq B1 1 10 10 []) 1) dbS2 = (rowsS2, None)
  /\ 0 <= InternalReadHistoryBranchRequest.PageSize (readReq B1 1 10 10 []) <= 2 ^ 45
  /\ rowsOrdered rowsS2
  /\ Forall (fun row => 0 <= HistoryNodeRow.NodeID row) rowsS2
  /\ exists resp,
       memRead (readReq B1 1 10 10 []) dbS2 = Ok resp
       /\ InternalReadHistoryBranchResponse.History resp = [ blob "e1"; blob "e2b" ].
Proof.
  assert (Hmin : readMinNodeID binDeserializePageToken (readReq B1 1 10 10 []) = Ok 1)
    by reflexivity.
  assert (Hsel : memSelectFromHistoryNode (readFilter (readReq B1 1 10 10 []) 1) dbS2
                 = (rowsS2, None)) by evaluate.
  assert (Hpage : 0 <= InternalReadHistoryBranchRequest.PageSize (readReq B1 1 10 10 [])
                  <= 2 ^ 45) by (simpl; lia).
  assert (Hord : rowsOrdered rowsS2) by (unfold rowsOrdered, rowsS2; ordered).
  assert (Hpos : Forall (fun row => 0 <= HistoryNodeRow.NodeID row) rowsS2)
    by (unfold rowsS2; repeat constructor; simpl; lia).
  repeat (split; [assumption|]).
  destruct (read_dedups_by_largest_txn (S := MemDB) (H := memDB 1062)
              binSerializePageToken binDeserializePageToken (2 ^ 45)
              (readReq B1 1 10 10 []) dbS2 1 rowsS2 None Hmin Hsel eq_refl Hpage Hord Hpos)
    as (resp & emitted & Hok & Hhist & _ & _ & _ & _ & _ & Hemitted).
  exists resp. split; [exact Hok|]. rewrite Hhist, Hemitted. evaluate.
Defined.

(** Reading B1 after S2 meets no corruption; rows handed over with node 2
    before node 1 are reported as corrupted. *)
Lemma read_fails_iff_corrupted_witness :
  0 <= InternalReadHistoryBranchRequest.PageSize (readReq B1 1 10 10 []) <= 2 ^ 45
  /\ memSelectFromHistoryNode (readFilter (readReq B1 1 10 10 []) 1) dbS2 = (rowsS2, None)
  /\ ~ corrupted rowsS2
  /\ memRead (readReq B1 1 10 10 []) dbS2 = Ok (readResponse [ "e1"; "e2b" ] [])
  /\ corrupted rowsBackwards
  /\ (exists msg, readRows rowsBackwards [] (-1) (-1) = Fail (InternalServiceError msg))
  /\ exists msg,
       ReadHistoryBranch (H := unorderedDB) binSerializePageToken binDeserializePageToken
         (2 ^ 45) (readReq B1 1 10 10 []) rowsBackwards
       = Fail (InternalServiceError msg).
Proof.
  assert (Hpage : 0 <= InternalReadHistoryBranchRequest.PageSize (readReq B1 1 10 10 [])
                  <= 2 ^ 45) by (simpl; lia).
  assert (Hsel : memSelectFromHistoryNode (readFilter (readReq B1 1 10 10 []) 1) dbS2
                 = (rowsS2, None)) by evaluate.
  assert (Hok : memRead (readReq B1 1 10 10 []) dbS2 = Ok (readResponse [ "e1"; "e2b" ] []))
    by evaluate.
  destruct (read_fails_iff_corrupted (S := MemDB) (H := memDB 1062)
              binSerializePageToken binDeserializePageToken (2 ^ 45) rowsS2)
    as (_ & _ & Hcall).
  destruct (Hcall (readReq B1 1 10 10 []) dbS2 1 None eq_refl Hsel eq_refl Hpage)
    as (Hsorted & _).
  destruct (read_fails_iff_corrupted (H := unorderedDB)
              binSerializePageToken binDeserializePageToken (2 ^ 45) rowsBackwards)
    as (Hloop & _ & Hcall').
  destruct (Hcall' (readReq B1 1 10 10 []) rowsBackwards 1 None eq_refl eq_refl eq_refl Hpage)
    as (Hbackwards & _).
  assert (Hc : corrupted rowsBackwards).
  { exists [ nodeRowOf B1 2 101 "e2" ], (nodeRowOf B1 1 100 "e1"), [].
    split; [reflexivity|]. left. vm_compute. reflexivity. }
  split; [exact Hpage|]. split; [exact Hsel|]. split.
  { intros Hcs. apply Hsorted in Hcs as [msg Hf]. unfold memRead in Hok.
    rewrite Hok in Hf. discriminate Hf. }
  split; [exact Hok|]. split; [exact Hc|]. split; [now apply Hloop | now apply Hbackwards].
Defined.

Lemma binSerializePageToken_nonempty (n : Z) : binSerializePageToken n <> [].
Proof. unfold binSerializePageToken. cbn [leBytes]. discriminate. Qed.

(** Reading B1 after S2 with the token of node 1 and pages of two rows: the
    select starts at node 2 and returns two rows, so a token follows. *)
Lemma read_page_token_witness :
  let request := readReq B1 1 10 2 (binSerializePageToken 1) in
  InternalReadHistoryBranchRequest.NextPageToken request <> []
  /\ binDeserializePageToken (InternalReadHistoryBranchRequest.NextPageToken request) = Ok 1
  /\ readMinNodeID binDeserializePageToken request = Ok 2
  /\ memSelectFromHistoryNode (readFilter request 2) dbS2
     = ([ nodeRowOf B1 2 200 "e2b"; nodeRowOf B1 2 101 "e2" ], None)
  /\ memRead request dbS2 = Ok (readResponse [ "e2b" ] (binSerializePageToken 2))
  /\ InternalReadHistoryBranchResponse.NextPageToken
       (readResponse [ "e2b" ] (binSerializePageToken 2)) <> [].
Proof.
  intros request.
  destruct (read_page_token (S := MemDB) (H := memDB 1062)
              binSerializePageToken binDeserializePageToken (2 ^ 45) request) as [Ha Hb].
  assert (Hne : InternalReadHistoryBranchRequest.NextPageToken request <> [])
    by (vm_compute; discriminate).
  assert (Hdec : binDeserializePageToken (InternalReadHistoryBranchRequest.NextPageToken request)
                 = Ok 1) by evaluate.
  destruct (Ha 1 Hne Hdec) as (Hmin & Hadd & _).
  assert (Hmin2 : readMinNodeID binDeserializePageToken request = Ok 2).
  { rewrite Hmin, Hadd; [reflexivity | lia]. }
  assert (Hsel : memSelectFromHistoryNode (readFilter request 2) dbS2
                 = ([ nodeRowOf B1 2 200 "e2b"; nodeRowOf B1 2 101 "e2" ], None)) by evaluate.
  assert (Hok : memRead request dbS2 = Ok (readResponse [ "e2b" ] (binSerializePageToken 2)))
    by evaluate.
  repeat (split; [assumption|]).
  destruct (Hb dbS2 2 _ _ Hmin2 Hsel Hok) as [_ Hiff].
  apply (Hiff binSerializePageToken_nonempty). split; [discriminate | simpl; lia].
Defined.

(** S6: node 1 cannot be appended to B2, which begins at node 2; node 3
    can, and its insert is issued. *)
Lemma append_precondition_witness :
  1 < GetBeginNodeID branchB2
  /\ memAppend 0 (appendReq false branchB2 1 301 "late") dbS3
     = (Fail (InvalidPersistenceRequestError "cannot append to ancestors' nodes"), dbS3)
  /\ GetBeginNodeID branchB2 <= 3
  /\ memAppend 0 (appendReq false branchB2 3 302 "e3") dbS3
     = (Ok tt,
        {| history_node := history_node dbS3 ++ [ nodeRowOf B2 3 302 "e3" ];
           history_tree := history_tree dbS3 |})
  /\ GetBeginNodeID branchB1 <= 1
  /\ memAppend 7 (appendReq true branchB1 1 100 "e1") dbEmpty
     = (Ok tt,
        {| history_node := [ nodeRowOf B1 1 100 "e1" ];
           history_tree :=
             [ {| HistoryTreeRow.TreeID := T1; HistoryTreeRow.BranchID := B1;
                  HistoryTreeRow.InProgress := false; HistoryTreeRow.CreatedTs := 7;
                  HistoryTreeRow.Ancestors := []; HistoryTreeRow.Info := "" |} ] |}).
Proof.
  assert (Hlt : 1 < GetBeginNodeID branchB2) by evaluate.
  assert (Hge : GetBeginNodeID branchB2 <= 3) by (vm_compute; discriminate).
  assert (Hfirst : GetBeginNodeID branchB1 <= 1) by (vm_compute; discriminate).
  destruct (append_precondition (S := MemDB) (H := memDB 1062) binMarshal 1062 0
              (appendReq false branchB2 1 301 "late") dbS3) as [Hreject _].
  destruct (append_precondition (S := MemDB) (H := memDB 1062) binMarshal 1062 0
              (appendReq false branchB2 3 302 "e3") dbS3) as [_ Hproceed].
  destruct (append_precondition (S := MemDB) (H := memDB 1062) binMarshal 1062 7
              (appendReq true branchB1 1 100 "e1") dbEmpty) as [_ Hborn].
  split; [exact Hlt|]. split; [exact (Hreject Hlt)|]. split; [exact Hge|].
  split; [unfold memAppend; rewrite (proj1 (Hproceed Hge) eq_refl); evaluate|].
  split; [exact Hfirst|].
  destruct (proj2 (Hborn Hfirst) eq_refl) as [_ Hchain].
  destruct (Hchain [] eq_refl) as (_ & _ & _ & Hnode).
  destruct (Hnode (affected 1)
              {| history_node := [ nodeRowOf B1 1 100 "e1" ]; history_tree := [] |}
              eq_refl eq_refl) as (_ & _ & _ & Htree).
  exact (Htree (affected 1) _ eq_refl eq_refl).
Defined.

Lemma rows_of_S5_decode : Forall (decodes binUnmarshal) (history_tree dbS5).
Proof.
  assert (D : map (fun row => binUnmarshal (HistoryTreeRow.Ancestors row)) (history_tree dbS5)
              = [ Ok []; Ok (HistoryBranch.Ancestors branchB2) ]) by evaluate.
  destruct (history_tree dbS5) as [|r1 [|r2 [|r3 rows]]]; try discriminate.
  injection D as D1 D2.
  constructor; [eexists; exact D1|]. constructor; [eexists; exact D2|]. constructor.
Defined.

(** S5: the tree holds B1 and the in-progress B3. *)
Lemma get_history_tree_collections_witness :
  memSelectFromHistoryTree (wholeTree (GetHistoryTreeRequest.TreeID treeReq)) dbS5
  = (history_tree dbS5, None)
  /\ Forall (decodes binUnmarshal) (history_tree dbS5)
  /\ exists rsp,
       memGetTree treeReq dbS5 = Ok rsp
       /\ GetHistoryTreeResponse.ForkingInProgressBranches rsp
          = map (fun row =>
                   {| ForkingInProgressBranch.BranchID := HistoryTreeRow.BranchID row;
                      ForkingInProgressBranch.ForkTime := HistoryTreeRow.CreatedTs row;
                      ForkingInProgressBranch.Info := HistoryTreeRow.Info row |})
                (List.filter HistoryTreeRow.InProgress (history_tree dbS5)).
Proof.
  assert (Hsel : memSelectFromHistoryTree (wholeTree (GetHistoryTreeRequest.TreeID treeReq)) dbS5
                 = (history_tree dbS5, None)) by evaluate.
  split; [exact Hsel|]. split; [exact rows_of_S5_decode|].
  destruct (get_history_tree_collections (S := MemDB) (H := memDB 1062) binUnmarshal
              treeReq dbS5 (history_tree dbS5) None Hsel eq_refl rows_of_S5_decode)
    as (rsp & Hok & _ & Hfork).
  exists rsp. split; assumption.
Defined.

(** S5: deleting B1 while B3 is in progress is refused. *)
Lemma delete_refused_while_forking_witness :
  memSelectFromHistoryTree
    (wholeTree (HistoryBranch.TreeID
                  (InternalDeleteHistoryBranchRequest.BranchInfo (deleteReq branchB1)))) dbS5
  = (history_tree dbS5, None)
  /\ Forall (decodes binUnmarshal) (history_tree dbS5)
  /\ Exists (fun row => HistoryTreeRow.InProgress row = true) (history_tree dbS5)
  /\ memDelete (deleteReq branchB1) dbS5
     = (Fail (ConditionFailedError "There are branches in progress of forking"), dbS5).
Proof.
  assert (Hsel : memSelectFromHistoryTree
                   (wholeTree (HistoryBranch.TreeID
                      (InternalDeleteHistoryBranchRequest.BranchInfo (deleteReq branchB1)))) dbS5
                 = (history_tree dbS5, None)) by evaluate.
  assert (Hex : Exists (fun row => HistoryTreeRow.InProgress row = true) (history_tree dbS5)).
  { assert (E : map HistoryTreeRow.InProgress (history_tree dbS5) = [ false; true ]) by evaluate.
    destruct (history_tree dbS5) as [|r1 [|r2 rows]]; try discriminate.
    injection E as _ E2 _. apply Exists_cons_tl. apply Exists_cons_hd. exact E2. }
  split; [exact Hsel|]. split; [exact rows_of_S5_decode|]. split; [exact Hex|].
  exact (delete_refused_while_forking (S := MemDB) (H := memDB 1062) binUnmarshal
           (deleteReq branchB1) dbS5 (history_tree dbS5) None Hsel eq_refl
           rows_of_S5_decode Hex).
Defined.

(** * Further properties *)

(** ** The reference map of DeleteHistoryBranch *)

Lemma recordRange_lookup (m : gmap string Z) (br : HistoryBranchRange.t) (id : string) :
  recordRange m br !! id
  = if decide (id = HistoryBranchRange.BranchID br)
    then Some (match m !! id with
               | Some curr => Z.max curr (HistoryBranchRange.EndNodeID br)
               | None => HistoryBranchRange.EndNodeID br
               end)
    else m !! id.
Proof.
  unfold recordRange. destruct (decide (id = HistoryBranchRange.BranchID br)) as [->|Hne].
  - destruct (m !! HistoryBranchRange.BranchID br) as [curr|] eqn:E.
    + destruct (Z.ltb_spec curr (HistoryBranchRange.EndNodeID br)).
      * rewrite lookup_insert_eq. f_equal. lia.
      * rewrite E. f_equal. lia.
    + now rewrite lookup_insert_eq.
  - destruct (m !! HistoryBranchRange.BranchID br) as [curr|] eqn:E.
    + destruct (Z.ltb_spec curr (HistoryBranchRange.EndNodeID br)).
      * now rewrite lookup_insert_ne.
      * reflexivity.
    + now rewrite lookup_insert_ne.
Qed.

Lemma validBRsMaxEndNode_ranges (branches : list HistoryBranch.t) :
  validBRsMaxEndNode branches = fold_left recordRange (allRanges branches) ∅.
Proof.
  unfold validBRsMaxEndNode, allRanges. generalize (∅ : gmap string Z).
  induction branches as [|b branches IH]; intros m; simpl; [reflexivity|].
  rewrite fold_left_app. apply IH.
Qed.

Lemma recordRanges_lookup (ranges : list HistoryBranchRange.t) (id : string) :
  forall m : gmap string Z,
    match fold_left recordRange ranges m !! id with
    | Some v =>
        (m !! id = Some v
         \/ exists br, In br ranges /\ HistoryBranchRange.BranchID br = id
                       /\ HistoryBranchRange.EndNodeID br = v)
        /\ (forall v0, m !! id = Some v0 -> v0 <= v)
        /\ (forall br, In br ranges -> HistoryBranchRange.BranchID br = id ->
                       HistoryBranchRange.EndNodeID br <= v)
    | None =>
        m !! id = None
        /\ forall br, In br ranges -> HistoryBranchRange.BranchID br <> id
    end.
Proof.
  induction ranges as [|r ranges IH]; intros m; simpl.
  - destruct (m !! id) as [v|] eqn:E.
    + split; [now left|]. split; [intros v0 [= ->]; lia | intros br []].
    + split; [reflexivity | intros br []].
  - specialize (IH (recordRange m r)). rewrite recordRange_lookup in IH.
    destruct (fold_left recordRange ranges (recordRange m r) !! id) as [v|].
    + destruct IH as (Hsrc & Hold & Hall).
      destruct (decide (id = HistoryBranchRange.BranchID r)) as [->|Hne].
      * pose proof (Hold _ eq_refl) as Hle.
        split; [|split].
        -- destruct Hsrc as [Hv|(br & Hin & Hid & Hend)].
           ++ injection Hv as Hv. destruct (m !! HistoryBranchRange.BranchID r) as [curr|] eqn:E.
              ** destruct (Z.max_spec curr (HistoryBranchRange.EndNodeID r)) as [[_ Hm]|[_ Hm]];
                   rewrite Hm in Hv.
                 --- right. exists r. auto.
                 --- left. now subst.
              ** right. exists r. auto.
           ++ right. exists br. auto.
        -- intros v0 Hv0. rewrite Hv0 in Hle. lia.
        -- intros br [<-|Hin] Hid.
           ++ destruct (m !! HistoryBranchRange.BranchID r); lia.
           ++ now apply Hall.
      * split; [|split].
        -- destruct Hsrc as [Hv|(br & Hin & Hid & Hend)]; [now left|].
           right. exists br. auto.
        -- exact Hold.
        -- intros br [<-|Hin] Hid; [congruence | now apply Hall].
    + destruct IH as (Hnone & Hall).
      destruct (decide (id = HistoryBranchRange.BranchID r)) as [->|Hne]; [discriminate|].
      split; [exact Hnone|]. intros br [<-|Hin]; [congruence | now apply Hall].
Qed.

(** X1. The reference map holds, for every branch id that some listed
    chain refers to, the largest end node id of the ranges referring to it,
    and nothing for any other branch id. *)
Theorem validBRsMaxEndNode_is_max (branches : list HistoryBranch.t) (id : string) :
  match validBRsMaxEndNode branches !! id with
  | Some v =>
      (exists b br, In b branches /\ In br (HistoryBranch.Ancestors b)
                    /\ HistoryBranchRange.BranchID br = id
                    /\ HistoryBranchRange.EndNodeID br = v)
      /\ (forall b br, In b branches -> In br (HistoryBranch.Ancestors b) ->
                       HistoryBranchRange.BranchID br = id ->
                       HistoryBranchRange.EndNodeID br <= v)
  | None =>
      forall b br, In b branches -> In br (HistoryBranch.Ancestors b) ->
                   HistoryBranchRange.BranchID br <> id
  end.
Proof.
  assert (Hflat : forall br, In br (allRanges branches)
                    <-> exists b, In b branches /\ In br (HistoryBranch.Ancestors b)).
  { intros br. unfold allRanges. rewrite in_concat. split.
    - intros (l & Hl & Hbr). apply List.in_map_iff in Hl as (b & <- & Hb). eauto.
    - intros (b & Hb & Hbr). exists (HistoryBranch.Ancestors b). split; [|exact Hbr].
      apply List.in_map_iff. eauto. }
  rewrite validBRsMaxEndNode_ranges.
  pose proof (recordRanges_lookup (allRanges branches) id ∅) as Hm.
  destruct (fold_left recordRange (allRanges branches) ∅ !! id) as [v|].
  - destruct Hm as (Hsrc & _ & Hall). split.
    + destruct Hsrc as [Hv|(br & Hin & Hid & Hend)]; [now rewrite lookup_empty in Hv|].
      apply Hflat in Hin as (b & Hb & Hbr). exists b, br. auto.
    + intros b br Hb Hbr. apply Hall, Hflat. eauto.
  - destruct Hm as (_ & Hall). intros b br Hb Hbr. apply Hall, Hflat. eauto.
Qed.

Lemma validBRsMaxEndNode_is_max_witness :
  validBRsMaxEndNode [ branchB1; branchB2 ] !! B1 = Some 2
  /\ (forall b br, In b [ branchB1; branchB2 ] -> In br (HistoryBranch.Ancestors b) ->
                   HistoryBranchRange.BranchID br = B1 ->
                   HistoryBranchRange.EndNodeID br <= 2).
Proof.
  assert (E : validBRsMaxEndNode [ branchB1; branchB2 ] !! B1 = Some 2) by evaluate.
  pose proof (validBRsMaxEndNode_is_max [ branchB1; branchB2 ] B1) as Hmax.
  rewrite E in Hmax. split; [reflexivity | exact (proj2 Hmax)].
Defined.

(** ** Chains built by ForkHistoryBranch *)

Lemma endsIncreasing_snoc (chain : list HistoryBranchRange.t) (br : HistoryBranchRange.t) :
  endsIncreasing chain ->
  Forall (fun a => HistoryBranchRange.EndNodeID a < HistoryBranchRange.EndNodeID br) chain ->
  endsIncreasing (chain ++ [br]).
Proof.
  unfold endsIncreasing. induction chain as [|c chain IH]; intros Hs Hall; simpl.
  - repeat constructor.
  - inversion Hs as [|? ? Hs' Hc]; subst. inversion Hall as [|? ? Hcb Hall']; subst.
    constructor; [now apply IH|].
    apply Forall_app. split; [exact Hc | constructor; [exact Hcb | constructor]].
Qed.

Lemma endsIncreasing_prefix (copied rest : list HistoryBranchRange.t) :
  endsIncreasing (copied ++ rest) -> endsIncreasing copied.
Proof.
  unfold endsIncreasing. induction copied as [|c copied IH]; intros Hs; simpl in *.
  - constructor.
  - inversion Hs as [|? ? Hs' Hc]; subst. constructor; [now apply IH|].
    apply Forall_app in Hc. tauto.
Qed.

Lemma endsIncreasing_below_last (chain : list HistoryBranchRange.t)
    (br : HistoryBranchRange.t) :
  endsIncreasing chain -> last chain = Some br ->
  Forall (fun a => HistoryBranchRange.EndNodeID a <= HistoryBranchRange.EndNodeID br) chain.
Proof.
  unfold endsIncreasing. induction chain as [|c chain IH]; intros Hs Hlast; [constructor|].
  inversion Hs as [|? ? Hs' Hc]; subst. destruct chain as [|c' chain].
  - injection Hlast as ->. constructor; [lia | constructor].
  - change (last (c :: c' :: chain)) with (last (c' :: chain)) in Hlast.
    pose proof (IH Hs' Hlast) as Hall. constructor; [|exact Hall].
    inversion Hc as [|? ? Hcc' _]; subst. inversion Hall; subst. lia.
Qed.

(** X2. Forking keeps a chain ordered: when the end node ids of the source
    chain increase strictly, so do those of the new chain, and none of them
    exceeds forkNodeID. *)
Theorem fork_keeps_ends_increasing (request : InternalForkHistoryBranchRequest.t) :
  endsIncreasing
    (HistoryBranch.Ancestors (InternalForkHistoryBranchRequest.ForkBranchInfo request)) ->
  endsIncreasing (forkNewAncestors request)
  /\ Forall (fun br => HistoryBranchRange.EndNodeID br
                       <= InternalForkHistoryBranchRequest.ForkNodeID request)
       (forkNewAncestors request).
Proof.
  intros Hs. unfold forkNewAncestors.
  set (forkB := InternalForkHistoryBranchRequest.ForkBranchInfo request) in *.
  set (fork := InternalForkHistoryBranchRequest.ForkNodeID request).
  destruct (Z.geb_spec (GetBeginNodeID forkB) fork) as [Hge|Hlt].
  - destruct (forkWalk_split fork (HistoryBranch.Ancestors forkB) [])
      as [[Hall ->]|(copied & br & rest & E & Hall & Hbr & ->)]; simpl.
    + split; [exact Hs|]. eapply List.Forall_impl; [|exact Hall]. simpl. intros; lia.
    + rewrite E in Hs. split.
      * apply endsIncreasing_snoc; [now apply endsIncreasing_prefix in Hs | exact Hall].
      * apply Forall_app. split.
        -- eapply List.Forall_impl; [|exact Hall]. simpl. intros; lia.
        -- constructor; [simpl; lia | constructor].
  - assert (Hbelow : Forall (fun a => HistoryBranchRange.EndNodeID a < fork)
                       (HistoryBranch.Ancestors forkB)).
    { unfold GetBeginNodeID in Hlt.
      destruct (last (HistoryBranch.Ancestors forkB)) as [l|] eqn:El.
      - eapply List.Forall_impl; [|exact (endsIncreasing_below_last _ _ Hs El)].
        simpl. intros; lia.
      - apply last_None in El. rewrite El. constructor. }
    split.
    + apply endsIncreasing_snoc; [exact Hs | exact Hbelow].
    + apply Forall_app. split.
      * eapply List.Forall_impl; [|exact Hbelow]. simpl. intros; lia.
      * constructor; [simpl; lia | constructor].
Qed.

Lemma fork_keeps_ends_increasing_witness :
  endsIncreasing (HistoryBranch.Ancestors branchB2)
  /\ endsIncreasing (forkNewAncestors (forkReq branchB2 3 B3))
  /\ Forall (fun br => HistoryBranchRange.EndNodeID br <= 3)
       (forkNewAncestors (forkReq branchB2 3 B3)).
Proof.
  assert (Hs : endsIncreasing (HistoryBranch.Ancestors branchB2))
    by (repeat constructor).
  split; [exact Hs|]. exact (fork_keeps_ends_increasing (forkReq branchB2 3 B3) Hs).
Defined.

Lemma chainLinked_truncate (forkNodeID : Z) (copied rest : list HistoryBranchRange.t)
    (br : HistoryBranchRange.t) :
  chainLinked (copied ++ br :: rest) ->
  Forall (fun a => HistoryBranchRange.EndNodeID a < forkNodeID) copied ->
  (copied = [] -> HistoryBranchRange.BeginNodeID br < forkNodeID) ->
  chainLinked (copied ++ [truncateRange br forkNodeID]).
Proof.
  induction copied as [|c copied IH]; intros Hl Hall Hfirst.
  - simpl. split; [now apply Hfirst | auto].
  - inversion Hall as [|? ? Hc Hall']; subst.
    destruct Hl as (Hc1 & Hnext & Hl'). simpl. split; [exact Hc1|]. split.
    + destruct copied; simpl in *; exact Hnext.
    + apply IH; [exact Hl' | exact Hall'|].
      intros ->. simpl in Hnext. lia.
Qed.

Lemma chainLinked_extend (chain : list HistoryBranchRange.t) (id : string) (forkNodeID : Z) :
  chainLinked chain ->
  GetBeginNodeID {| HistoryBranch.TreeID := ""; HistoryBranch.BranchID := id;
                    HistoryBranch.Ancestors := chain |} < forkNodeID ->
  chainLinked
    (chain ++ [ {| HistoryBranchRange.BranchID := id;
                   HistoryBranchRange.BeginNodeID :=
                     GetBeginNodeID {| HistoryBranch.TreeID := ""; HistoryBranch.BranchID := id;
                                       HistoryBranch.Ancestors := chain |};
                   HistoryBranchRange.EndNodeID := forkNodeID |} ]).
Proof.
  unfold GetBeginNodeID. simpl.
  induction chain as [|c chain IH]; intros Hl Hlt.
  - simpl in *. auto.
  - destruct Hl as (Hc1 & Hnext & Hl'). destruct chain as [|c' chain].
    + simpl in *. auto.
    + change (last (c :: c' :: chain)) with (last (c' :: chain)) in *.
      specialize (IH Hl' Hlt). simpl. simpl in IH. auto.
Qed.

(** X3. Forking keeps a chain linked: when every range of the source chain
    is non-empty and begins where the one before it ends, and forkNodeID
    lies above the begin node id of the first range, the new chain has the
    same two properties. *)
Theorem fork_keeps_chain_linked (request : InternalForkHistoryBranchRequest.t) :
  let forkB := InternalForkHistoryBranchRequest.ForkBranchInfo request in
  let forkNodeID := InternalForkHistoryBranchRequest.ForkNodeID request in
  chainLinked (HistoryBranch.Ancestors forkB) ->
  (forall br rest, HistoryBranch.Ancestors forkB = br :: rest ->
                   HistoryBranchRange.BeginNodeID br < forkNodeID) ->
  chainLinked (forkNewAncestors request).
Proof.
  intros forkB fork Hl Hfirst. unfold forkNewAncestors. fold forkB fork.
  destruct (Z.geb_spec (GetBeginNodeID forkB) fork) as [Hge|Hlt].
  - destruct (forkWalk_split fork (HistoryBranch.Ancestors forkB) [])
      as [[Hall ->]|(copied & br & rest & E & Hall & Hbr & ->)]; simpl; [exact Hl|].
    rewrite E in Hl. apply (chainLinked_truncate fork copied rest br Hl Hall).
    intros ->. exact (Hfirst br rest E).
  - destruct forkB as [tree id chain]. simpl in *.
    unfold GetBeginNodeID in *. simpl in *.
    exact (chainLinked_extend chain id fork Hl Hlt).
Qed.

Lemma fork_keeps_chain_linked_witness :
  chainLinked (HistoryBranch.Ancestors branchB2)
  /\ chainLinked (forkNewAncestors (forkReq branchB2 3 B3)).
Proof.
  assert (Hl : chainLinked (HistoryBranch.Ancestors branchB2)) by (simpl; lia).
  split; [exact Hl|].
  apply (fork_keeps_chain_linked (forkReq branchB2 3 B3) Hl).
  intros br rest E. injection E as <- _. simpl. lia.
Defined.

(** Forking at the begin node id of the first range leaves an empty range
    in the new chain. *)
Lemma fork_at_first_begin_gives_empty_range :
  forkNewAncestors (forkReq branchB2 1 B3)
  = [ {| HistoryBranchRange.BranchID := B1; HistoryBranchRange.BeginNodeID := 1;
         HistoryBranchRange.EndNodeID := 1 |} ].
Proof. reflexivity. Qed.

(** ** Pages of ReadHistoryBranch *)

Section PageFacts.

Context {S : Type} `{DB S}.
Variable serializePageToken : Z -> bytes.
Variable deserializePageToken : bytes -> result Z.
Variable maxSliceCap : Z.

Lemma uncorrupted_bounded (rows : list HistoryNodeRow.t) :
  forall n t,
    ~ corruptedFrom (n, t) rows ->
    n <= (fold_left acceptStep rows (n, t)).1
    /\ Forall (fun r => HistoryNodeRow.NodeID r <= (fold_left acceptStep rows (n, t)).1) rows.
Proof.
  induction rows as [|row rows IH]; intros n t Hnc; simpl.
  - split; [lia | constructor].
  - rewrite corruptedFrom_cons in Hnc.
    assert (Hrow : ~ corruptAt (n, t) row) by (intros Hc; apply Hnc; now left).
    assert (Hrest : ~ corruptedFrom (acceptStep (n, t) row) rows)
      by (intros Hc; apply Hnc; now right).
    unfold corruptAt in Hrow. simpl in Hrow.
    destruct (acceptStep (n, t) row) as [n' t'] eqn:E.
    destruct (IH n' t' Hrest) as [Hle Hall].
    assert (Hn' : n <= n' /\ HistoryNodeRow.NodeID row <= n').
    { unfold acceptStep in E. simpl in E.
      destruct (Z.ltb_spec n (HistoryNodeRow.NodeID row)); injection E as <- <-; lia. }
    split; [lia|]. constructor; [lia | exact Hall].
Qed.

Lemma lastAccepted_int64 (rows : list HistoryNodeRow.t) :
  forall last : Z * Z,
    isInt64 last.1 ->
    Forall (fun r => isInt64 (HistoryNodeRow.NodeID r)) rows ->
    isInt64 (fold_left acceptStep rows last).1.
Proof.
  induction rows as [|row rows IH]; intros last Hlast Hall; simpl; [exact Hlast|].
  inversion Hall; subst. apply IH; [|assumption].
  unfold acceptStep. destruct (last.1 <? HistoryNodeRow.NodeID row); assumption.
Qed.

(** X4. Whatever rows the select returns, a successful read never returns
    two blobs for one node id: the history is made of the blobs of some of
    the rows, in their order, with strictly increasing node ids above -1. *)
Theorem read_history_increasing (request : InternalReadHistoryBranchRequest.t) (db : S)
    (minNodeID : Z) (rows : list HistoryNodeRow.t) (err : option error)
    (resp : InternalReadHistoryBranchResponse.t) :
  readMinNodeID deserializePageToken request = Ok minNodeID ->
  SelectFromHistoryNode (readFilter request minNodeID) db = (rows, err) ->
  ReadHistoryBranch serializePageToken deserializePageToken maxSliceCap request db = Ok resp ->
  exists kept,
    sublist kept rows
    /\ InternalReadHistoryBranchResponse.History resp = map rowBlob kept
    /\ StronglySorted Z.lt (map HistoryNodeRow.NodeID kept)
    /\ Forall (fun r => -1 < HistoryNodeRow.NodeID r) kept.
Proof.
  intros Hmin Hsel. unfold ReadHistoryBranch. rewrite Hmin, Hsel.
  destruct (isErrNoRows err || isNil err && (length rows =? 0)%nat).
  - intros [= <-]. exists []. repeat split; try constructor. apply sublist_nil_l.
  - destruct (makesliceCapOutOfRange _ _); [discriminate|].
    destruct (readRows_spec rows [] (-1) (-1)) as [[_ [msg Hf]]|[_ Hr]];
      rewrite ?Hf, ?Hr; [discriminate|].
    intros [= <-]. exists (acceptedFrom (-1) rows).
    split; [apply acceptedFrom_kept|]. split; [reflexivity|].
    apply acceptedFrom_increasing.
Qed.

(** X5. The token of a page resumes above the page. When the codec round
    trips int64 values and the rows carry int64 node ids, a non-empty token
    of a successful read decodes to a node id that no row of the page
    exceeds, and presenting it makes the next select start one above it. *)
Theorem read_token_resumes_above_page (request : InternalReadHistoryBranchRequest.t)
    (db : S) (minNodeID : Z) (rows : list HistoryNodeRow.t) (err : option error)
    (resp : InternalReadHistoryBranchResponse.t) :
  (forall n, isInt64 n -> deserializePageToken (serializePageToken n) = Ok n) ->
  Forall (fun r => isInt64 (HistoryNodeRow.NodeID r)) rows ->
  readMinNodeID deserializePageToken request = Ok minNodeID ->
  SelectFromHistoryNode (readFilter request minNodeID) db = (rows, err) ->
  ReadHistoryBranch serializePageToken deserializePageToken maxSliceCap request db = Ok resp ->
  InternalReadHistoryBranchResponse.NextPageToken resp <> [] ->
  exists lastNodeID,
    deserializePageToken (InternalReadHistoryBranchResponse.NextPageToken resp) = Ok lastNodeID
    /\ Forall (fun r => HistoryNodeRow.NodeID r <= lastNodeID) rows
    /\ readMinNodeID deserializePageToken
         (withPageToken request (InternalReadHistoryBranchResponse.NextPageToken resp))
       = Ok (add64 lastNodeID 1).
Proof.
  intros Hcodec Hint Hmin Hsel. unfold ReadHistoryBranch. rewrite Hmin, Hsel.
  destruct (isErrNoRows err || isNil err && (length rows =? 0)%nat).
  - intros [= <-] Hne. now destruct Hne.
  - destruct (makesliceCapOutOfRange _ _); [discriminate|].
    destruct (readRows_spec rows [] (-1) (-1)) as [[_ [msg Hf]]|[Hnc Hr]];
      rewrite ?Hf, ?Hr; [discriminate|].
    intros [= <-]. cbn [InternalReadHistoryBranchResponse.NextPageToken].
    destruct (Z.of_nat (length rows) >=? InternalReadHistoryBranchRequest.PageSize request);
      [|intros Hne; now destruct Hne].
    intros Hne. set (lastNodeID := (fold_left acceptStep rows (-1, -1)).1) in *.
    assert (Hlast : isInt64 lastNodeID).
    { apply lastAccepted_int64; [unfold isInt64; simpl; lia | exact Hint]. }
    exists lastNodeID. split; [now apply Hcodec|].
    split; [apply (uncorrupted_bounded rows (-1) (-1) Hnc)|].
    unfold readMinNodeID, withPageToken. cbn [InternalReadHistoryBranchRequest.NextPageToken
      InternalReadHistoryBranchRequest.MinNodeID].
    destruct (serializePageToken lastNodeID) eqn:E; [now destruct Hne|].
    rewrite <- E, (Hcodec lastNodeID Hlast). reflexivity.
Qed.

End PageFacts.

(** The eight-byte codec round trips int64 values. *)

Lemma byteOfZ_value (v : Z) : 0 <= v < 256 -> Z.of_N (Byte.to_N (byteOfZ v)) = v.
Proof.
  intros Hv. unfold byteOfZ. destruct (Byte.of_N (Z.to_N v)) as [b|] eqn:E.
  - apply Byte.to_of_N in E. rewrite E. lia.
  - apply Byte.of_N_None_iff in E. lia.
Qed.

Lemma leBytes_length (k : nat) : forall z, length (leBytes k z) = k.
Proof. induction k as [|k IH]; intros z; simpl; [reflexivity | now rewrite IH]. Qed.

Lemma leValue_leBytes (k : nat) :
  forall z, 0 <= z -> leValue (leBytes k z) = z mod 256 ^ Z.of_nat k.
Proof.
  induction k as [|k IH]; intros z Hz.
  - simpl. now rewrite Z.mod_1_r.
  - cbn [leBytes leValue]. rewrite byteOfZ_value by (apply Z.mod_pos_bound; lia).
    rewrite IH by (apply Z.div_pos; lia).
    rewrite Nat2Z.inj_succ, Z.pow_succ_r by lia.
    rewrite Z.rem_mul_r by lia. reflexivity.
Qed.

Lemma binPageToken_round_trip (n : Z) :
  isInt64 n -> binDeserializePageToken (binSerializePageToken n) = Ok n.
Proof.
  unfold isInt64. intros Hn. unfold binDeserializePageToken, binSerializePageToken.
  rewrite leBytes_length. cbn [Nat.eqb]. f_equal.
  rewrite leValue_leBytes by (apply Z.mod_pos_bound; lia).
  change (256 ^ Z.of_nat 8) with (2 ^ 64). rewrite Z.mod_mod by lia.
  unfold wrap64. rewrite Zplus_mod_idemp_l. rewrite Z.mod_small; lia.
Qed.

Lemma read_history_increasing_witness :
  readMinNodeID binDeserializePageToken (readReq B1 1 10 10 []) = Ok 1
  /\ memSelectFromHistoryNode (readFilter (readReq B1 1 10 10 []) 1) dbS2 = (rowsS2, None)
  /\ memRead (readReq B1 1 10 10 []) dbS2 = Ok (readResponse [ "e1"; "e2b" ] [])
  /\ exists kept,
       sublist kept rowsS2
       /\ map blob [ "e1"; "e2b" ] = map rowBlob kept
       /\ StronglySorted Z.lt (map HistoryNodeRow.NodeID kept).
Proof.
  assert (Hmin : readMinNodeID binDeserializePageToken (readReq B1 1 10 10 []) = Ok 1)
    by reflexivity.
  assert (Hsel : memSelectFromHistoryNode (readFilter (readReq B1 1 10 10 []) 1) dbS2
                 = (rowsS2, None)) by evaluate.
  assert (Hok : memRead (readReq B1 1 10 10 []) dbS2 = Ok (readResponse [ "e1"; "e2b" ] []))
    by evaluate.
  repeat (split; [assumption|]).
  destruct (read_history_increasing (S := MemDB) (H := memDB 1062)
              binSerializePageToken binDeserializePageToken (2 ^ 45)
              (readReq B1 1 10 10 []) dbS2 1 rowsS2 None _ Hmin Hsel Hok)
    as (kept & Hsub & Hhist & Hinc & _).
  exists kept. repeat split; assumption.
Defined.

Lemma read_token_resumes_above_page_witness :
  let request := readReq B1 1 10 2 [] in
  let token := binSerializePageToken 2 in
  memSelectFromHistoryNode (readFilter request 1) dbS2
  = ([ nodeRowOf B1 1 100 "e1"; nodeRowOf B1 2 200 "e2b" ], None)
  /\ memRead request dbS2 = Ok (readResponse [ "e1"; "e2b" ] token)
  /\ token <> []
  /\ exists lastNodeID,
       binDeserializePageToken token = Ok lastNodeID
       /\ readMinNodeID binDeserializePageToken (withPageToken request token)
          = Ok (add64 lastNodeID 1).
Proof.
  intros request token.
  assert (Hmin : readMinNodeID binDeserializePageToken request = Ok 1) by reflexivity.
  assert (Hsel : memSelectFromHistoryNode (readFilter request 1) dbS2
                 = ([ nodeRowOf B1 1 100 "e1"; nodeRowOf B1 2 200 "e2b" ], None)) by evaluate.
  assert (Hok : memRead request dbS2 = Ok (readResponse [ "e1"; "e2b" ] token)) by evaluate.
  assert (Hne : token <> []) by apply binSerializePageToken_nonempty.
  assert (Hint : Forall (fun r => isInt64 (HistoryNodeRow.NodeID r))
                   [ nodeRowOf B1 1 100 "e1"; nodeRowOf B1 2 200 "e2b" ])
    by (repeat constructor; unfold isInt64; simpl; lia).
  repeat (split; [assumption|]).
  destruct (read_token_resumes_above_page (S := MemDB) (H := memDB 1062)
              binSerializePageToken binDeserializePageToken (2 ^ 45) request dbS2 1 _ None _
              binPageToken_round_trip Hint Hmin Hsel Hok Hne)
    as (lastNodeID & Hdec & _ & Hnext).
  exists lastNodeID. split; assumption.
Defined.

(** ** The walk of DeleteHistoryBranch, on any substrate *)

Section WalkFacts.

Context {S : Type} `{DB S}.
Variable jsonUnmarshal : bytes -> result (list HistoryBranchRange.t).

Lemma bind_assoc {A B C : Type} (c : Stmt S A) (k1 : A -> Stmt S B) (k2 : B -> Stmt S C)
    (db : S) :
  bind (bind c k1) k2 db = bind c (fun a => bind (k1 a) k2) db.
Proof. unfold bind. destruct (c db) as [[a|e] s]; reflexivity. Qed.

Lemma bind_ext {A B : Type} (c : Stmt S A) (k1 k2 : A -> Stmt S B) (db : S) :
  (forall a s, k1 a s = k2 a s) -> bind c k1 db = bind c k2 db.
Proof. intros Hk. unfold bind. destruct (c db) as [[a|e] s]; [apply Hk | reflexivity]. Qed.

Lemma bind_ret_unit (c : Stmt S unit) (db : S) : bind c (fun _ => ret tt) db = c db.
Proof. unfold bind, ret. destruct (c db) as [[[]|e] s]; reflexivity. Qed.

Lemma deleteWalk_unreferenced (treeID : string) (maxEndNode : gmap string Z)
    (brs : list (string * Z)) (rest : list (string * Z)) (db : S) :
  Forall (fun br => maxEndNode !! br.1 = None) brs ->
  deleteWalk treeID maxEndNode (brs ++ rest) db
  = (bind (deleteEach treeID brs) (fun _ => deleteWalk treeID maxEndNode rest)) db.
Proof.
  revert db. induction brs as [|br brs IH]; intros db Hall.
  - reflexivity.
  - inversion Hall as [|? ? Hbr Hall']; subst.
    cbn [app deleteWalk deleteEach]. rewrite Hbr, bind_assoc.
    unfold nodesFrom, MustParseUUID. apply bind_ext. intros _ s. now apply IH.
Qed.

Lemma deleteWalk_first_referenced (treeID : string) (maxEndNode : gmap string Z)
    (brs older : list (string * Z)) (br : string * Z) (maxReferredEndNodeID : Z) (db : S) :
  Forall (fun br => maxEndNode !! br.1 = None) brs ->
  maxEndNode !! br.1 = Some maxReferredEndNodeID ->
  deleteWalk treeID maxEndNode (brs ++ br :: older) db
  = deleteEach treeID (brs ++ [ (br.1, maxReferredEndNodeID) ]) db.
Proof.
  intros Hall Hbr.
  rewrite (deleteWalk_unreferenced treeID maxEndNode brs (br :: older) db Hall).
  clear Hall. revert db. induction brs as [|b brs IH]; intros db.
  - cbn [deleteEach app]. unfold bind at 1. unfold ret at 1. cbn [deleteWalk].
    rewrite Hbr. unfold nodesFrom, MustParseUUID. reflexivity.
  - cbn [deleteEach app]. rewrite bind_assoc. apply bind_ext. intros _ s. apply IH.
Qed.

Lemma deleteWalk_none_referenced (treeID : string) (maxEndNode : gmap string Z)
    (brs : list (string * Z)) (db : S) :
  Forall (fun br => maxEndNode !! br.1 = None) brs ->
  deleteWalk treeID maxEndNode brs db = deleteEach treeID brs db.
Proof.
  intros Hall.
  pose proof (deleteWalk_unreferenced treeID maxEndNode brs [] db Hall) as Hw.
  rewrite app_nil_r in Hw. rewrite Hw. apply bind_ret_unit.
Qed.

(** X6. The walk over the ranges to delete, taken from the newest one.
    Ranges of branches that no listed chain refers to are deleted from their
    begin node id; the first range whose branch is referred to is deleted
    from the largest end node id referring to it; the ranges after it are
    not touched. When no range is referred to, all are deleted from their
    begin node id. *)
Theorem deleteWalk_stops_at_first_referenced (treeID : string)
    (maxEndNode : gmap string Z) (db : S) :
  (forall brs br maxReferredEndNodeID older,
      Forall (fun br => maxEndNode !! br.1 = None) brs ->
      maxEndNode !! br.1 = Some maxReferredEndNodeID ->
      deleteWalk treeID maxEndNode (brs ++ br :: older) db
      = deleteEach treeID (brs ++ [ (br.1, maxReferredEndNodeID) ]) db)
  /\ (forall brs,
        Forall (fun br => maxEndNode !! br.1 = None) brs ->
        deleteWalk treeID maxEndNode brs db = deleteEach treeID brs db).
Proof.
  split.
  - intros brs br v older. apply deleteWalk_first_referenced.
  - intros brs. apply deleteWalk_none_referenced.
Qed.

Lemma validBRsMaxEndNode_nil : validBRsMaxEndNode [] = ∅.
Proof. reflexivity. Qed.

(** X7. An unanswered tree select lets the delete through. When the select
    on the tree returns no rows, with or without an error, GetHistoryTree
    reports an empty tree without error, and DeleteHistoryBranch goes on to
    delete the branch row and every range of the branch, the ancestors'
    included, from its begin node id. *)
Theorem delete_after_empty_tree_select (request : InternalDeleteHistoryBranchRequest.t)
    (db : S) (err : option error) :
  let branch := InternalDeleteHistoryBranchRequest.BranchInfo request in
  let treeID := HistoryBranch.TreeID branch in
  SelectFromHistoryTree (wholeTree treeID) db = ([], err) ->
  GetHistoryTree jsonUnmarshal {| GetHistoryTreeRequest.TreeID := treeID |} db
  = Ok {| GetHistoryTreeResponse.Branches := [];
          GetHistoryTreeResponse.ForkingInProgressBranches := [] |}
  /\ DeleteHistoryBranch jsonUnmarshal request db
     = txExecute "DeleteHistoryBranch"
         (DeleteFromHistoryTree
            {| HistoryTreeFilter.TreeID := treeID;
               HistoryTreeFilter.BranchID := Some (HistoryBranch.BranchID branch) |} ;;;
          deleteEach treeID (rev (brsToDelete branch)))%stmt db.
Proof.
  intros branch treeID Hsel.
  assert (Hget : GetHistoryTree jsonUnmarshal {| GetHistoryTreeRequest.TreeID := treeID |} db
                 = Ok {| GetHistoryTreeResponse.Branches := [];
                         GetHistoryTreeResponse.ForkingInProgressBranches := [] |}).
  { unfold GetHistoryTree. unfold wholeTree in Hsel. cbn [GetHistoryTreeRequest.TreeID].
    rewrite Hsel. destruct (isErrNoRows err || isNil err && (length [] =? 0)%nat); reflexivity. }
  split; [exact Hget|].
  unfold DeleteHistoryBranch. fold branch treeID. rewrite Hget.
  cbn [GetHistoryTreeResponse.ForkingInProgressBranches GetHistoryTreeResponse.Branches
       length Nat.ltb Nat.leb].
  rewrite validBRsMaxEndNode_nil. unfold txExecute, deleteTx, bind. fold branch treeID.
  unfold MustParseUUID.
  destruct (DeleteFromHistoryTree _ db) as [[r|e] db1]; [|reflexivity].
  rewrite deleteWalk_none_referenced; [reflexivity|].
  apply List.Forall_forall. intros br _. apply lookup_empty.
Qed.

End WalkFacts.

Lemma deleteWalk_stops_at_first_referenced_witness :
  validBRsMaxEndNode [ branchB1; branchB2 ] !! B2 = None
  /\ validBRsMaxEndNode [ branchB1; branchB2 ] !! B1 = Some 2
  /\ deleteWalk (H := memDB 1062) T1 (validBRsMaxEndNode [ branchB1; branchB2 ])
       [ (B2, 2); (B1, 1) ] dbS3
     = deleteEach (H := memDB 1062) T1 [ (B2, 2); (B1, 2) ] dbS3.
Proof.
  assert (HB2 : validBRsMaxEndNode [ branchB1; branchB2 ] !! B2 = None) by evaluate.
  assert (HB1 : validBRsMaxEndNode [ branchB1; branchB2 ] !! B1 = Some 2) by evaluate.
  split; [exact HB2|]. split; [exact HB1|].
  destruct (deleteWalk_stops_at_first_referenced (S := MemDB) (H := memDB 1062) T1
              (validBRsMaxEndNode [ branchB1; branchB2 ]) dbS3) as [Hstop _].
  apply (Hstop [ (B2, 2) ] (B1, 1) 2 []); [|exact HB1].
  constructor; [exact HB2 | constructor].
Defined.

(** Deleting B2 when the tree select answers nothing removes the nodes of
    B2 and every node of its ancestor B1. *)
Lemma delete_after_empty_tree_select_witness :
  memSelectFromHistoryTree
    (wholeTree (HistoryBranch.TreeID
                  (InternalDeleteHistoryBranchRequest.BranchInfo (deleteReq branchB2)))) dbNoTree
  = ([], None)
  /\ map nodeKey (history_node dbNoTree)
     = [ (B1, 1, 100); (B1, 2, 101); (B1, 2, 200); (B2, 2, 300) ]
  /\ memDelete (deleteReq branchB2) dbNoTree
     = (Ok tt, {| history_node := []; history_tree := [] |}).
Proof.
  assert (Hsel : memSelectFromHistoryTree
                   (wholeTree (HistoryBranch.TreeID
                      (InternalDeleteHistoryBranchRequest.BranchInfo (deleteReq branchB2))))
                   dbNoTree = ([], None)) by evaluate.
  split; [exact Hsel|]. split; [evaluate|].
  unfold memDelete.
  rewrite (proj2 (delete_after_empty_tree_select (S := MemDB) (H := memDB 1062) binUnmarshal
                    (deleteReq branchB2) dbNoTree None Hsel)).
  evaluate.
Defined.

(** ** Failures *)

Section FailureFacts.

Context {S : Type} `{DB S}.
Variable jsonUnmarshal : bytes -> result (list HistoryBranchRange.t).

Lemma treeRows_undecodable (treeID : string) (pre rest : list HistoryTreeRow.t)
    (row : HistoryTreeRow.t) (e : error) :
  forall branches forkingBranches,
    Forall (decodes jsonUnmarshal) pre ->
    jsonUnmarshal (HistoryTreeRow.Ancestors row) = Fail e ->
    treeRows jsonUnmarshal treeID (pre ++ row :: rest) branches forkingBranches = Fail e.
Proof.
  induction pre as [|p pre IH]; intros branches forkingBranches Hall Hrow; simpl.
  - unfold deserializeAncestors. now rewrite Hrow.
  - inversion Hall as [|? ? [ancs Hp] Hall']; subst.
    unfold deserializeAncestors. rewrite Hp. now apply IH.
Qed.

(** X9. A tree row whose chain does not deserialize fails the listing and
    the delete. When the rows before it deserialize, GetHistoryTree returns
    the codec's error for that row, and DeleteHistoryBranch on the tree
    returns the same error and leaves the store alone. *)
Theorem undecodable_row_fails_tree_operations
    (request : InternalDeleteHistoryBranchRequest.t) (db : S)
    (pre rest : list HistoryTreeRow.t) (row : HistoryTreeRow.t)
    (err : option error) (e : error) :
  let treeID := HistoryBranch.TreeID (InternalDeleteHistoryBranchRequest.BranchInfo request) in
  SelectFromHistoryTree (wholeTree treeID) db = (pre ++ row :: rest, err) ->
  isErrNoRows err = false ->
  Forall (decodes jsonUnmarshal) pre ->
  jsonUnmarshal (HistoryTreeRow.Ancestors row) = Fail e ->
  GetHistoryTree jsonUnmarshal {| GetHistoryTreeRequest.TreeID := treeID |} db = Fail e
  /\ DeleteHistoryBranch jsonUnmarshal request db = (Fail e, db).
Proof.
  intros treeID Hsel Herr Hall Hrow.
  assert (Hget : GetHistoryTree jsonUnmarshal {| GetHistoryTreeRequest.TreeID := treeID |} db
                 = Fail e).
  { unfold GetHistoryTree. unfold wholeTree in Hsel. cbn [GetHistoryTreeRequest.TreeID].
    rewrite Hsel, Herr. cbn [orb].
    replace (length (pre ++ row :: rest) =? 0)%nat with false
      by (symmetry; apply Nat.eqb_neq; rewrite length_app; simpl; lia).
    rewrite andb_false_r. now apply treeRows_undecodable. }
  split; [exact Hget|].
  unfold DeleteHistoryBranch. fold treeID. rewrite Hget. reflexivity.
Qed.

End FailureFacts.

Lemma undecodable_row_fails_tree_operations_witness :
  memSelectFromHistoryTree
    (wholeTree (HistoryBranch.TreeID
                  (InternalDeleteHistoryBranchRequest.BranchInfo (deleteReq branchB2)))) dbBadRow
  = (history_tree dbBadRow, None)
  /\ memGetTree treeReq dbBadRow = Fail (JSONError "unexpected end of input")
  /\ memDelete (deleteReq branchB2) dbBadRow
     = (Fail (JSONError "unexpected end of input"), dbBadRow).
Proof.
  assert (Hsel : memSelectFromHistoryTree
                   (wholeTree (HistoryBranch.TreeID
                      (InternalDeleteHistoryBranchRequest.BranchInfo (deleteReq branchB2))))
                   dbBadRow = (history_tree dbBadRow, None)) by evaluate.
  split; [exact Hsel|].
  assert (Hpre : Forall (decodes binUnmarshal) (history_tree dbS3)).
  { assert (D : map (fun row => binUnmarshal (HistoryTreeRow.Ancestors row)) (history_tree dbS3)
                = [ Ok []; Ok (HistoryBranch.Ancestors branchB2) ]) by evaluate.
    destruct (history_tree dbS3) as [|r1 [|r2 [|r3 rows]]]; try discriminate.
    injection D as D1 D2.
    constructor; [eexists; exact D1|]. constructor; [eexists; exact D2|]. constructor. }
  exact (undecodable_row_fails_tree_operations (S := MemDB) (H := memDB 1062) binUnmarshal
           (deleteReq branchB2) dbBadRow (history_tree dbS3) []
           {| HistoryTreeRow.TreeID := T1; HistoryTreeRow.BranchID := B3;
              HistoryTreeRow.InProgress := true; HistoryTreeRow.CreatedTs := 0;
              HistoryTreeRow.Ancestors := [ x01 ]; HistoryTreeRow.Info := "" |}
           None (JSONError "unexpected end of input") Hsel eq_refl Hpre eq_refl).
Defined.

(** ** DeleteHistoryBranch on the executable store *)

Section MemDeleteFacts.

Variable dupEntry : Z.
Variable jsonUnmarshal : bytes -> result (list HistoryBranchRange.t).

Lemma filter_all {A : Type} (f : A -> bool) (l : list A) :
  (forall x, In x l -> f x = true) -> List.filter f l = l.
Proof.
  induction l as [|x l IH]; intros Hf; simpl; [reflexivity|].
  rewrite (Hf x (or_introl eq_refl)), IH; [reflexivity|].
  intros y Hy. apply Hf. now right.
Qed.

Lemma filter_twice {A : Type} (f g : A -> bool) (l : list A) :
  List.filter f (List.filter g l) = List.filter (fun x => g x && f x) l.
Proof.
  induction l as [|x l IH]; simpl; [reflexivity|].
  destruct (g x); simpl; [destruct (f x)|]; now rewrite IH.
Qed.

Lemma nodeInBranch_nodesFrom (treeID branchID : string) (v : Z) (row : HistoryNodeRow.t) :
  nodeInBranch (nodesFrom treeID branchID v) row = true
  <-> HistoryNodeRow.TreeID row = treeID /\ HistoryNodeRow.BranchID row = branchID.
Proof.
  unfold nodeInBranch, nodesFrom. simpl.
  rewrite andb_true_iff, !String.eqb_eq. reflexivity.
Qed.

Lemma mem_deleteWalk (treeID : string) (maxEndNode : gmap string Z)
    (brs : list (string * Z)) :
  forall db : MemDB,
    deleteWalk (H := memDB dupEntry) treeID maxEndNode brs db
    = (Ok tt,
       {| history_node :=
            List.filter (fun row => negb (walkDooms treeID maxEndNode brs row))
              (history_node db);
          history_tree := history_tree db |}).
Proof.
  induction brs as [|br brs IH]; intros db.
  - cbn [deleteWalk walkDooms]. unfold ret. rewrite filter_all by reflexivity.
    now destruct db.
  - cbn [deleteWalk walkDooms]. destruct (maxEndNode !! br.1) as [v|] eqn:E.
    + reflexivity.
    + unfold bind. cbn [DeleteFromHistoryNode memDB memDeleteFromHistoryNode].
      rewrite IH. cbn [history_node history_tree]. rewrite filter_twice.
      f_equal. f_equal. apply List.filter_ext. intros row.
      unfold nodesFrom, MustParseUUID. now rewrite negb_orb.
Qed.

Lemma mem_delete_success (request : InternalDeleteHistoryBranchRequest.t) (db db' : MemDB) :
  let branch := InternalDeleteHistoryBranchRequest.BranchInfo request in
  let treeID := HistoryBranch.TreeID branch in
  DeleteHistoryBranch (H := memDB dupEntry) jsonUnmarshal request db = (Ok tt, db') ->
  exists rsp,
    GetHistoryTree (H := memDB dupEntry) jsonUnmarshal
      {| GetHistoryTreeRequest.TreeID := treeID |} db = Ok rsp
    /\ GetHistoryTreeResponse.ForkingInProgressBranches rsp = []
    /\ db' = {| history_node :=
                  List.filter
                    (fun row =>
                       negb (walkDooms treeID
                               (validBRsMaxEndNode (GetHistoryTreeResponse.Branches rsp))
                               (rev (brsToDelete branch)) row))
                    (history_node db);
                history_tree :=
                  List.filter
                    (fun row =>
                       negb (treeRowMatches (oneBranch treeID (HistoryBranch.BranchID branch))
                               row))
                    (history_tree db) |}.
Proof.
  intros branch treeID. unfold DeleteHistoryBranch. fold branch treeID.
  destruct (GetHistoryTree _ _ db) as [rsp|e]; [|discriminate].
  destruct (GetHistoryTreeResponse.ForkingInProgressBranches rsp) as [|f fs] eqn:Ef;
    [|discriminate].
  cbn [length Nat.ltb Nat.leb]. unfold txExecute, deleteTx, bind. fold branch treeID.
  cbn [DeleteFromHistoryTree memDB memDeleteFromHistoryTree].
  rewrite mem_deleteWalk. cbn [history_node history_tree].
  intros [= <-]. exists rsp. split; [reflexivity|]. split; [exact Ef | reflexivity].
Qed.

Lemma walkDooms_in_plan (treeID : string) (maxEndNode : gmap string Z)
    (brs : list (string * Z)) (row : HistoryNodeRow.t) :
  walkDooms treeID maxEndNode brs row = true ->
  HistoryNodeRow.TreeID row = treeID /\ In (HistoryNodeRow.BranchID row) (map fst brs).
Proof.
  induction brs as [|br brs IH]; simpl; [discriminate|].
  destruct (maxEndNode !! br.1).
  - rewrite andb_true_iff, nodeInBranch_nodesFrom. intros [[Ht Hb] _]. auto.
  - rewrite orb_true_iff, andb_true_iff, nodeInBranch_nodesFrom.
    intros [[[Ht Hb] _]|Hrest]; [auto|]. destruct (IH Hrest). auto.
Qed.

Lemma walkDooms_above_reference (treeID : string) (maxEndNode : gmap string Z)
    (brs : list (string * Z)) (row : HistoryNodeRow.t) (v : Z) :
  walkDooms treeID maxEndNode brs row = true ->
  maxEndNode !! HistoryNodeRow.BranchID row = Some v ->
  v <= HistoryNodeRow.NodeID row.
Proof.
  induction brs as [|br brs IH]; simpl; [discriminate|].
  destruct (maxEndNode !! br.1) as [v0|] eqn:E.
  - rewrite andb_true_iff, nodeInBranch_nodesFrom. unfold fromMinNodeID, nodesFrom. simpl.
    intros [[_ Hb] Hmin] Hv. rewrite Hb, E in Hv. injection Hv as <-. lia.
  - rewrite orb_true_iff, andb_true_iff, nodeInBranch_nodesFrom.
    intros [[[_ Hb] _]|Hrest] Hv; [congruence | now apply IH].
Qed.

(** X10. What a successful delete leaves alone, on the executable store.
    The tree table loses exactly the row of the deleted branch; no node is
    added; and every node of another tree, or of a branch that is neither the
    deleted branch nor one of its ancestors, is kept. *)
Theorem mem_delete_touches_only_plan (request : InternalDeleteHistoryBranchRequest.t)
    (db db' : MemDB) :
  let branch := InternalDeleteHistoryBranchRequest.BranchInfo request in
  let treeID := HistoryBranch.TreeID branch in
  DeleteHistoryBranch (H := memDB dupEntry) jsonUnmarshal request db = (Ok tt, db') ->
  (forall row, In row (history_tree db')
               <-> In row (history_tree db)
                   /\ ~ (HistoryTreeRow.TreeID row = treeID
                         /\ HistoryTreeRow.BranchID row = HistoryBranch.BranchID branch))
  /\ (forall row, In row (history_node db') -> In row (history_node db))
  /\ (forall row, In row (history_node db) ->
                  HistoryNodeRow.TreeID row <> treeID
                  \/ ~ In (HistoryNodeRow.BranchID row)
                          (HistoryBranch.BranchID branch
                           :: map HistoryBranchRange.BranchID (HistoryBranch.Ancestors branch)) ->
                  In row (history_node db')).
Proof.
  intros branch treeID Hok.
  destruct (mem_delete_success request db db' Hok) as (rsp & _ & _ & ->).
  fold branch treeID. cbn [history_node history_tree]. split; [|split].
  - intros row. rewrite List.filter_In. unfold treeRowMatches, oneBranch. simpl.
    destruct (String.eqb_spec (HistoryTreeRow.TreeID row) treeID) as [Ht|Ht],
             (String.eqb_spec (HistoryTreeRow.BranchID row) (HistoryBranch.BranchID branch))
               as [Hb|Hb]; simpl; intuition congruence.
  - intros row Hin. apply List.filter_In in Hin. tauto.
  - intros row Hin Hout. apply List.filter_In. split; [exact Hin|].
    apply negb_true_iff, not_true_iff_false. intros Hdoom.
    apply walkDooms_in_plan in Hdoom as [Ht Hb].
    destruct Hout as [Hout|Hout]; [contradiction|]. apply Hout.
    rewrite List.map_rev in Hb. apply List.in_rev in Hb. unfold brsToDelete in Hb.
    rewrite List.map_app, List.in_app_iff, List.map_map in Hb.
    simpl in Hb. destruct Hb as [Hb|[Hb|[]]]; [right; exact Hb | left; now symmetry].
Qed.

Lemma validBRsMaxEndNode_covers (branches : list HistoryBranch.t) (b : HistoryBranch.t)
    (br : HistoryBranchRange.t) :
  In b branches -> In br (HistoryBranch.Ancestors b) ->
  exists v, validBRsMaxEndNode branches !! HistoryBranchRange.BranchID br = Some v
            /\ HistoryBranchRange.EndNodeID br <= v.
Proof.
  intros Hb Hbr. rewrite validBRsMaxEndNode_ranges.
  assert (Hin : In br (allRanges branches)).
  { unfold allRanges. apply in_concat. exists (HistoryBranch.Ancestors b).
    split; [apply List.in_map_iff; eauto | exact Hbr]. }
  pose proof (recordRanges_lookup (allRanges branches) (HistoryBranchRange.BranchID br) ∅) as Hm.
  destruct (fold_left recordRange (allRanges branches) ∅ !! HistoryBranchRange.BranchID br)
    as [v|].
  - exists v. split; [reflexivity|]. now apply Hm.
  - destruct Hm as [_ Hnone]. now destruct (Hnone br Hin).
Qed.

(** X11. What a successful delete preserves, on the executable store. When
    the rows of the tree deserialize, every node that lies inside an
    ancestor range of some branch row of the tree, that is a node of the
    range's branch with a node id below the range's end node id, is still
    stored after the delete. *)
Theorem mem_delete_keeps_referenced_segments
    (request : InternalDeleteHistoryBranchRequest.t) (db db' : MemDB) :
  let treeID := HistoryBranch.TreeID (InternalDeleteHistoryBranchRequest.BranchInfo request) in
  (forall row, In row (history_tree db) -> HistoryTreeRow.TreeID row = treeID ->
               decodes jsonUnmarshal row) ->
  DeleteHistoryBranch (H := memDB dupEntry) jsonUnmarshal request db = (Ok tt, db') ->
  forall row br node,
    In row (history_tree db) -> HistoryTreeRow.TreeID row = treeID ->
    In br (decodedChain jsonUnmarshal row) ->
    In node (history_node db) ->
    HistoryNodeRow.TreeID node = treeID ->
    HistoryNodeRow.BranchID node = HistoryBranchRange.BranchID br ->
    HistoryNodeRow.NodeID node < HistoryBranchRange.EndNodeID br ->
    In node (history_node db').
Proof.
  intros treeID Hdec Hok row br node Hrow Htree Hbr Hnode Hnt Hnb Hbelow.
  destruct (mem_delete_success request db db' Hok) as (rsp & Hget & _ & ->).
  fold treeID in Hget |- *. cbn [history_node].
  set (rows := List.filter (treeRowMatches (wholeTree treeID)) (history_tree db)).
  assert (Hrows : Forall (decodes jsonUnmarshal) rows).
  { apply List.Forall_forall. intros r Hr. apply List.filter_In in Hr as [Hr Hm].
    apply Hdec; [exact Hr|]. unfold treeRowMatches, wholeTree in Hm. simpl in Hm.
    rewrite andb_true_r in Hm. now apply String.eqb_eq in Hm. }
  rewrite (get_history_tree_rows (H := memDB dupEntry) jsonUnmarshal
             {| GetHistoryTreeRequest.TreeID := treeID |} db rows None eq_refl eq_refl Hrows)
    in Hget.
  injection Hget as <-. cbn [GetHistoryTreeResponse.Branches].
  apply List.filter_In. split; [exact Hnode|].
  apply negb_true_iff, not_true_iff_false. intros Hdoom.
  assert (Hin : In row rows).
  { apply List.filter_In. split; [exact Hrow|]. unfold treeRowMatches, wholeTree. simpl.
    rewrite andb_true_r. now apply String.eqb_eq. }
  destruct (validBRsMaxEndNode_covers
              (map (fun row => treeRowBranch treeID row (decodedChain jsonUnmarshal row)) rows)
              (treeRowBranch treeID row (decodedChain jsonUnmarshal row)) br)
    as (v & Hv & Hle).
  { apply List.in_map_iff. eauto. }
  { exact Hbr. }
  rewrite <- Hnb in Hv.
  pose proof (walkDooms_above_reference _ _ _ _ v Hdoom Hv). lia.
Qed.

End MemDeleteFacts.

(** ** The life of a fork on the executable store *)

Section MemForkFacts.

Variable dupEntry : Z.
Variable jsonMarshal : list HistoryBranchRange.t -> result bytes.
Variable jsonUnmarshal : bytes -> result (list HistoryBranchRange.t).

Lemma filter_none {A : Type} (f : A -> bool) (l : list A) :
  (forall x, In x l -> f x = false) -> List.filter f l = [].
Proof.
  induction l as [|x l IH]; intros Hf; simpl; [reflexivity|].
  rewrite (Hf x (or_introl eq_refl)). apply IH. intros y Hy. apply Hf. now right.
Qed.

Lemma existsb_none {A : Type} (f : A -> bool) (l : list A) :
  (forall x, In x l -> f x = false) -> existsb f l = false.
Proof.
  induction l as [|x l IH]; intros Hf; simpl; [reflexivity|].
  rewrite (Hf x (or_introl eq_refl)). apply IH. intros y Hy. apply Hf. now right.
Qed.

Lemma fresh_tree_rows (request : InternalForkHistoryBranchRequest.t) (db : MemDB) :
  freshBranch request db ->
  forall row, In row (history_tree db) ->
    treeRowMatches
      (oneBranch (HistoryBranch.TreeID (InternalForkHistoryBranchRequest.ForkBranchInfo request))
         (InternalForkHistoryBranchRequest.NewBranchID request)) row = false.
Proof.
  intros [Hfresh _] row Hin. specialize (Hfresh row Hin).
  unfold treeRowMatches, oneBranch. simpl.
  destruct (String.eqb_spec (HistoryTreeRow.TreeID row)
              (HistoryBranch.TreeID (InternalForkHistoryBranchRequest.ForkBranchInfo request))),
           (String.eqb_spec (HistoryTreeRow.BranchID row)
              (InternalForkHistoryBranchRequest.NewBranchID request)); simpl; tauto.
Qed.

Lemma sameTreeKey_forkRow (now : Z) (request : InternalForkHistoryBranchRequest.t)
    (ancestors : bytes) (inProgress : bool) (row : HistoryTreeRow.t) :
  sameTreeKey (forkRow now request ancestors inProgress) row
  = treeRowMatches
      (oneBranch (HistoryBranch.TreeID (InternalForkHistoryBranchRequest.ForkBranchInfo request))
         (InternalForkHistoryBranchRequest.NewBranchID request)) row.
Proof.
  unfold sameTreeKey, treeRowMatches, oneBranch, forkRow. simpl.
  now rewrite (String.eqb_sym (HistoryTreeRow.TreeID row)),
              (String.eqb_sym (HistoryTreeRow.BranchID row)).
Qed.

Lemma forkRow_matches (now : Z) (request : InternalForkHistoryBranchRequest.t)
    (ancestors : bytes) (inProgress : bool) :
  treeRowMatches
    (oneBranch (HistoryBranch.TreeID (InternalForkHistoryBranchRequest.ForkBranchInfo request))
       (InternalForkHistoryBranchRequest.NewBranchID request))
    (forkRow now request ancestors inProgress) = true.
Proof. unfold treeRowMatches, oneBranch, forkRow. simpl. now rewrite !String.eqb_refl. Qed.

(** The fork itself, on a store where the new branch id is not taken. *)
Lemma mem_fork (now : Z) (request : InternalForkHistoryBranchRequest.t) (db : MemDB)
    (ancestors : bytes) :
  jsonMarshal (forkNewAncestors request) = Ok ancestors ->
  freshBranch request db ->
  ForkHistoryBranch (H := memDB dupEntry) jsonMarshal now request db
  = (Ok {| InternalForkHistoryBranchResponse.NewBranchInfo := forkedBranch request |},
     {| history_node := history_node db;
        history_tree := history_tree db ++ [ forkRow now request ancestors true ] |}).
Proof.
  intros Hser Hfresh. unfold ForkHistoryBranch, serializeAncestors. rewrite Hser.
  unfold bind, lift, ret. cbn [InsertIntoHistoryTree memDB]. unfold memInsertIntoHistoryTree.
  rewrite existsb_none; [reflexivity|].
  intros row Hin.
  change (sameTreeKey (forkRow now request ancestors true) row = false).
  rewrite (sameTreeKey_forkRow now request ancestors true row).
  exact (fresh_tree_rows request db Hfresh row Hin).
Qed.

(** X12. An aborted fork leaves no trace. On a store that holds neither a
    branch row nor a node under the new branch id, ForkHistoryBranch
    followed by CompleteForkBranch with success unset gives back the store
    as it was. *)
Theorem mem_fork_then_abort_restores_store (now : Z)
    (request : InternalForkHistoryBranchRequest.t) (db : MemDB) (ancestors : bytes) :
  jsonMarshal (forkNewAncestors request) = Ok ancestors ->
  freshBranch request db ->
  exists resp forked,
    ForkHistoryBranch (H := memDB dupEntry) jsonMarshal now request db = (Ok resp, forked)
    /\ CompleteForkBranch (H := memDB dupEntry)
         {| InternalCompleteForkBranchRequest.BranchInfo :=
              InternalForkHistoryBranchResponse.NewBranchInfo resp;
            InternalCompleteForkBranchRequest.Success := false |} forked
       = (Ok tt, db).
Proof.
  intros Hser Hfresh. eexists. eexists. split; [apply (mem_fork now request db ancestors Hser Hfresh)|].
  cbn [InternalForkHistoryBranchResponse.NewBranchInfo].
  unfold CompleteForkBranch, txExecute, bind, lift, ret, fail.
  cbn [InternalCompleteForkBranchRequest.Success InternalCompleteForkBranchRequest.BranchInfo
       DeleteFromHistoryNode DeleteFromHistoryTree memDB
       memDeleteFromHistoryNode memDeleteFromHistoryTree history_node history_tree
       forkedBranch HistoryBranch.TreeID HistoryBranch.BranchID].
  unfold MustParseUUID.
  set (treeID := HistoryBranch.TreeID (InternalForkHistoryBranchRequest.ForkBranchInfo request)).
  set (newID := InternalForkHistoryBranchRequest.NewBranchID request).
  change {| HistoryTreeFilter.TreeID := treeID; HistoryTreeFilter.BranchID := Some newID |}
    with (oneBranch treeID newID).
  rewrite !List.filter_app. cbn [List.filter].
  pose proof (forkRow_matches now request ancestors true) as Hmatch.
  fold treeID newID in Hmatch. rewrite Hmatch. cbn [negb].
  rewrite (filter_none (treeRowMatches (oneBranch treeID newID)) (history_tree db))
    by (exact (fresh_tree_rows request db Hfresh)).
  rewrite (filter_all (fun row => negb (treeRowMatches (oneBranch treeID newID) row))
             (history_tree db))
    by (intros row Hin; apply negb_true_iff; exact (fresh_tree_rows request db Hfresh row Hin)).
  rewrite filter_all.
  - cbn [app length affected SqlResult.RowsAffected Z.of_nat Pos.of_succ_nat Z.eqb Pos.eqb negb].
    rewrite app_nil_r. now destruct db.
  - intros node Hin. apply negb_true_iff, not_true_iff_false. intros Hdoom.
    apply andb_true_iff in Hdoom as [Hb _]. unfold nodeInBranch in Hb. simpl in Hb.
    apply andb_true_iff in Hb as [Ht Hb]. apply String.eqb_eq in Ht, Hb.
    destruct Hfresh as [_ Hnodes]. apply (Hnodes node Hin). split; assumption.
Qed.

End MemForkFacts.

Section MemCommitFacts.

Variable dupEntry : Z.
Variable jsonMarshal : list HistoryBranchRange.t -> result bytes.
Variable jsonUnmarshal : bytes -> result (list HistoryBranchRange.t).

Lemma sameTreeKey_matches (key row : HistoryTreeRow.t) :
  sameTreeKey key row
  = treeRowMatches (oneBranch (HistoryTreeRow.TreeID key) (HistoryTreeRow.BranchID key)) row.
Proof.
  unfold sameTreeKey, treeRowMatches, oneBranch. simpl.
  now rewrite (String.eqb_sym (HistoryTreeRow.TreeID row)),
              (String.eqb_sym (HistoryTreeRow.BranchID row)).
Qed.

(** X13. Completing a fork commits its row. On a store where the new
    branch id is not taken, ForkHistoryBranch followed by CompleteForkBranch
    with success set leaves the nodes as they were and the tree table with
    one more row: that of the new branch, with the serialized new chain and
    the in-progress flag cleared. *)
Theorem mem_fork_then_complete_commits (now : Z)
    (request : InternalForkHistoryBranchRequest.t) (db : MemDB) (ancestors : bytes) :
  jsonMarshal (forkNewAncestors request) = Ok ancestors ->
  freshBranch request db ->
  exists resp forked,
    ForkHistoryBranch (H := memDB dupEntry) jsonMarshal now request db = (Ok resp, forked)
    /\ history_tree forked = history_tree db ++ [ forkRow now request ancestors true ]
    /\ CompleteForkBranch (H := memDB dupEntry)
         {| InternalCompleteForkBranchRequest.BranchInfo :=
              InternalForkHistoryBranchResponse.NewBranchInfo resp;
            InternalCompleteForkBranchRequest.Success := true |} forked
       = (Ok tt,
          {| history_node := history_node db;
             history_tree := history_tree db ++ [ forkRow now request ancestors false ] |}).
Proof.
  intros Hser Hfresh. eexists. eexists.
  split; [apply (mem_fork dupEntry jsonMarshal now request db ancestors Hser Hfresh)|].
  split; [reflexivity|].
  cbn [InternalForkHistoryBranchResponse.NewBranchInfo].
  unfold CompleteForkBranch, bind, lift, ret, fail.
  cbn [InternalCompleteForkBranchRequest.Success InternalCompleteForkBranchRequest.BranchInfo
       UpdateHistoryTree memDB memUpdateHistoryTree history_node history_tree
       forkedBranch HistoryBranch.TreeID HistoryBranch.BranchID].
  unfold MustParseUUID.
  set (treeID := HistoryBranch.TreeID (InternalForkHistoryBranchRequest.ForkBranchInfo request)).
  set (newID := InternalForkHistoryBranchRequest.NewBranchID request).
  set (key := {| HistoryTreeRow.TreeID := treeID; HistoryTreeRow.BranchID := newID;
                 HistoryTreeRow.InProgress := false; HistoryTreeRow.CreatedTs := 0;
                 HistoryTreeRow.Ancestors := []; HistoryTreeRow.Info := "" |}).
  assert (Hold : forall row, In row (history_tree db) -> sameTreeKey key row = false).
  { intros row Hin. rewrite sameTreeKey_matches.
    exact (fresh_tree_rows request db Hfresh row Hin). }
  assert (Hnew : sameTreeKey key (forkRow now request ancestors true) = true).
  { rewrite sameTreeKey_matches. exact (forkRow_matches now request ancestors true). }
  rewrite List.filter_app, List.map_app. cbn [List.filter map]. rewrite Hnew.
  rewrite (filter_none (sameTreeKey key) (history_tree db) Hold).
  cbn [app length affected SqlResult.RowsAffected Z.of_nat Pos.of_succ_nat Z.eqb Pos.eqb negb].
  f_equal. f_equal. f_equal.
  rewrite <- (List.map_id (history_tree db)) at 2.
  apply List.map_ext_in. intros row Hin. now rewrite (Hold row Hin).
Qed.

(** The refusal of a delete, from the rows the tree select returns. *)
Lemma delete_refused_of_rows {S : Type} `{DB S}
    (request : InternalDeleteHistoryBranchRequest.t) (db : S)
    (rows : list HistoryTreeRow.t) (row : HistoryTreeRow.t) :
  SelectFromHistoryTree
    (wholeTree (HistoryBranch.TreeID (InternalDeleteHistoryBranchRequest.BranchInfo request))) db
  = (rows, None) ->
  Forall (decodes jsonUnmarshal) rows ->
  In row rows -> HistoryTreeRow.InProgress row = true ->
  DeleteHistoryBranch jsonUnmarshal request db
  = (Fail (ConditionFailedError "There are branches in progress of forking"), db).
Proof.
  intros Hsel Hall Hin Hrow. unfold DeleteHistoryBranch.
  rewrite (get_history_tree_rows jsonUnmarshal
             {| GetHistoryTreeRequest.TreeID :=
                  HistoryBranch.TreeID (InternalDeleteHistoryBranchRequest.BranchInfo request) |}
             db rows None Hsel eq_refl Hall).
  cbn [GetHistoryTreeResponse.ForkingInProgressBranches]. rewrite length_map.
  assert (Hf : In row (List.filter HistoryTreeRow.InProgress rows))
    by (apply List.filter_In; split; assumption).
  destruct (List.filter HistoryTreeRow.InProgress rows); [destruct Hf | reflexivity].
Qed.

(** X14. A fork in progress blocks every delete on its tree. On a store
    where the new branch id is not taken and the rows of the tree
    deserialize, as does the new chain, after ForkHistoryBranch every
    DeleteHistoryBranch on a branch of that tree is refused with
    ConditionFailed and changes nothing. *)
Theorem mem_fork_blocks_deletes (now : Z) (request : InternalForkHistoryBranchRequest.t)
    (db : MemDB) (ancestors : bytes) (delete : InternalDeleteHistoryBranchRequest.t) :
  let treeID := HistoryBranch.TreeID (InternalForkHistoryBranchRequest.ForkBranchInfo request) in
  jsonMarshal (forkNewAncestors request) = Ok ancestors ->
  (exists chain, jsonUnmarshal ancestors = Ok chain) ->
  freshBranch request db ->
  (forall row, In row (history_tree db) -> HistoryTreeRow.TreeID row = treeID ->
               decodes jsonUnmarshal row) ->
  HistoryBranch.TreeID (InternalDeleteHistoryBranchRequest.BranchInfo delete) = treeID ->
  exists resp forked,
    ForkHistoryBranch (H := memDB dupEntry) jsonMarshal now request db = (Ok resp, forked)
    /\ DeleteHistoryBranch (H := memDB dupEntry) jsonUnmarshal delete forked
       = (Fail (ConditionFailedError "There are branches in progress of forking"), forked).
Proof.
  intros treeID Hser Hchain Hfresh Hdec Htree. eexists. eexists.
  split; [apply (mem_fork dupEntry jsonMarshal now request db ancestors Hser Hfresh)|].
  eapply (delete_refused_of_rows (H := memDB dupEntry) delete _ _
            (forkRow now request ancestors true)).
  - reflexivity.
  - cbn [history_tree]. apply List.Forall_forall. intros row Hin.
    apply List.filter_In in Hin as [Hin Hm].
    unfold treeRowMatches, wholeTree in Hm. simpl in Hm. rewrite andb_true_r in Hm.
    apply String.eqb_eq in Hm. unfold MustParseUUID in Hm. rewrite Htree in Hm.
    apply List.in_app_iff in Hin as [Hin|[<-|[]]]; [now apply Hdec | exact Hchain].
  - cbn [history_tree]. apply List.filter_In. split.
    + apply List.in_app_iff. right. now left.
    + unfold treeRowMatches, wholeTree, forkRow, MustParseUUID. simpl.
      rewrite Htree. fold treeID. now rewrite String.eqb_refl.
  - reflexivity.
Qed.

End MemCommitFacts.

(** ** Appends and reads on the executable store *)

Lemma sameNodeKey_refl (row : HistoryNodeRow.t) : sameNodeKey row row = true.
Proof. unfold sameNodeKey. now rewrite !String.eqb_refl, !Z.eqb_refl. Qed.

Lemma sameNodeKey_fullKey (a b : HistoryNodeRow.t) :
  fullKey a = fullKey b -> sameNodeKey a b = true.
Proof.
  destruct a, b. unfold fullKey, sameNodeKey. simpl. intros [= -> -> -> ->].
  now rewrite !String.eqb_refl, !Z.eqb_refl.
Qed.

Lemma insertOrdered_In (row x : HistoryNodeRow.t) (rows : list HistoryNodeRow.t) :
  In x (insertOrdered row rows) <-> x = row \/ In x rows.
Proof.
  induction rows as [|r rows IH]; simpl; [intuition congruence|].
  destruct (nodeRowBefore r row); simpl; rewrite ?IH; intuition congruence.
Qed.

Lemma orderRows_In (x : HistoryNodeRow.t) (rows : list HistoryNodeRow.t) :
  In x (orderRows rows) <-> In x rows.
Proof.
  unfold orderRows. induction rows as [|r rows IH]; simpl; [reflexivity|].
  rewrite insertOrdered_In, IH. intuition congruence.
Qed.

Lemma take_In {A : Type} (n : nat) (l : list A) (x : A) : In x (take n l) -> In x l.
Proof.
  revert l. induction n as [|n IH]; intros [|a l]; simpl; try tauto.
  intros [->|Hin]; [now left | right; now apply IH].
Qed.

Lemma orderRows_newest (row : HistoryNodeRow.t) (rows : list HistoryNodeRow.t) :
  (forall x, In x rows -> nodeRowBefore row x = true) ->
  orderRows (rows ++ [row]) = row :: orderRows rows.
Proof.
  unfold orderRows. rewrite fold_right_app. cbn [fold_right insertOrdered].
  induction rows as [|r rows IH]; intros Hnew; [reflexivity|].
  cbn [fold_right]. rewrite IH by (intros x Hx; apply Hnew; now right).
  cbn [insertOrdered]. now rewrite (Hnew r (or_introl eq_refl)).
Qed.

Lemma readRows_skips (rows : list HistoryNodeRow.t) (history : list DataBlob.t)
    (lastNodeID lastTxnID : Z) :
  Forall (fun x => HistoryNodeRow.NodeID x = lastNodeID
                   /\ HistoryNodeRow.TxnID x < lastTxnID) rows ->
  readRows rows history lastNodeID lastTxnID = Ok (history, lastNodeID).
Proof.
  induction 1 as [|x rows [Hn Ht] _ IH]; [reflexivity|].
  cbn [readRows]. rewrite Hn, Z.ltb_irrefl, Z.eqb_refl.
  destruct (Z.ltb_spec (HistoryNodeRow.TxnID x) lastTxnID); [exact IH | lia].
Qed.

Section MemAppendFacts.

Variable dupEntry : Z.
Variable jsonMarshal : list HistoryBranchRange.t -> result bytes.
Variable serializePageToken : Z -> bytes.
Variable deserializePageToken : bytes -> result Z.
Variable maxSliceCap : Z.

Lemma mem_append_plain (now : Z) (request : InternalAppendHistoryNodesRequest.t)
    (db db' : MemDB) :
  InternalAppendHistoryNodesRequest.IsNewBranch request = false ->
  AppendHistoryNodes (H := memDB dupEntry) jsonMarshal dupEntry now request db = (Ok tt, db') ->
  db' = {| history_node := history_node db ++ [ appendNodeRow request ];
           history_tree := history_tree db |}.
Proof.
  intros Hplain. unfold AppendHistoryNodes. rewrite Hplain.
  destruct (_ <? _); [discriminate|].
  cbn [InsertIntoHistoryNode memDB]. unfold memInsertIntoHistoryNode.
  destruct (existsb _ _); [discriminate|]. now intros [= <-].
Qed.

(** X15. A repeated append is rejected. After a successful append without
    the new-branch flag, another such append with the same tree, branch,
    node id and txn id, whatever its payload, returns ConditionFailed and
    leaves the store as it is. *)
Theorem mem_append_twice_rejected (now now' : Z)
    (request again : InternalAppendHistoryNodesRequest.t) (db db' : MemDB) :
  InternalAppendHistoryNodesRequest.IsNewBranch request = false ->
  AppendHistoryNodes (H := memDB dupEntry) jsonMarshal dupEntry now request db = (Ok tt, db') ->
  InternalAppendHistoryNodesRequest.IsNewBranch again = false ->
  GetBeginNodeID (InternalAppendHistoryNodesRequest.BranchInfo again)
  <= InternalAppendHistoryNodesRequest.NodeID again ->
  fullKey (appendNodeRow again) = fullKey (appendNodeRow request) ->
  AppendHistoryNodes (H := memDB dupEntry) jsonMarshal dupEntry now' again db'
  = (Fail (ConditionFailedError "AppendHistoryNodes: row already exist: "), db').
Proof.
  intros Hplain Hok Hplain' Hbegin Hkey.
  rewrite (mem_append_plain now request db db' Hplain Hok).
  unfold AppendHistoryNodes. rewrite Hplain'.
  destruct (Z.ltb_spec (InternalAppendHistoryNodesRequest.NodeID again)
              (GetBeginNodeID (InternalAppendHistoryNodesRequest.BranchInfo again))); [lia|].
  cbn [InsertIntoHistoryNode memDB]. unfold memInsertIntoHistoryNode. cbn [history_node].
  rewrite existsb_app. cbn [existsb].
  replace (sameNodeKey (appendNodeRow again) (appendNodeRow request)) with true.
  - rewrite orb_true_r. cbn [orb]. unfold appendInsertError. now rewrite Z.eqb_refl.
  - symmetry. now apply sameNodeKey_fullKey.
Qed.

(** X16. An append is read back. After a successful append without the
    new-branch flag at a node id that is not negative, with a txn id above
    those already stored for that node of the branch, reading the branch
    from that node id to the next, with a page of at least one row and no
    more than the allocation of line 179 accepts, succeeds and returns
    exactly one blob: the one appended. *)
Theorem mem_append_then_read (now : Z) (request : InternalAppendHistoryNodesRequest.t)
    (db db' : MemDB) (pageSize : Z) :
  let branchInfo := InternalAppendHistoryNodesRequest.BranchInfo request in
  let nodeID := InternalAppendHistoryNodesRequest.NodeID request in
  InternalAppendHistoryNodesRequest.IsNewBranch request = false ->
  AppendHistoryNodes (H := memDB dupEntry) jsonMarshal dupEntry now request db = (Ok tt, db') ->
  0 <= nodeID ->
  1 <= pageSize <= maxSliceCap ->
  (forall node, In node (history_node db) ->
                HistoryNodeRow.TreeID node = HistoryBranch.TreeID branchInfo ->
                HistoryNodeRow.BranchID node = HistoryBranch.BranchID branchInfo ->
                HistoryNodeRow.NodeID node = nodeID ->
                HistoryNodeRow.TxnID node
                < InternalAppendHistoryNodesRequest.TransactionID request) ->
  exists resp,
    ReadHistoryBranch (H := memDB dupEntry) serializePageToken deserializePageToken maxSliceCap
      (readNode (HistoryBranch.TreeID branchInfo) (HistoryBranch.BranchID branchInfo)
         nodeID pageSize) db'
    = Ok resp
    /\ InternalReadHistoryBranchResponse.History resp
       = [ InternalAppendHistoryNodesRequest.Events request ].
Proof.
  intros branchInfo nodeID Hplain Hok Hnode Hpage Hnewest.
  rewrite (mem_append_plain now request db db' Hplain Hok).
  set (row := appendNodeRow request).
  set (read := readNode (HistoryBranch.TreeID branchInfo) (HistoryBranch.BranchID branchInfo)
                 nodeID pageSize).
  set (keep := fun r => nodeInBranch (readFilter read nodeID) r
                        && fromMinNodeID (readFilter read nodeID) r
                        && belowMaxNodeID (readFilter read nodeID) r).
  assert (Hrow : keep row = true).
  { unfold keep, nodeInBranch, fromMinNodeID, belowMaxNodeID, row, appendNodeRow,
      readFilter, read, readNode, MustParseUUID. simpl. fold branchInfo nodeID.
    rewrite !String.eqb_refl. simpl.
    apply andb_true_iff. split; [apply Z.leb_le | apply Z.ltb_lt]; lia. }
  assert (Hold : forall x, In x (List.filter keep (history_node db)) ->
                           HistoryNodeRow.NodeID x = nodeID
                           /\ HistoryNodeRow.TxnID x
                              < InternalAppendHistoryNodesRequest.TransactionID request).
  { intros x Hx. apply List.filter_In in Hx as [Hin Hk]. unfold keep in Hk.
    apply andb_true_iff in Hk as [Hk Hmax]. apply andb_true_iff in Hk as [Hb Hmin].
    unfold nodeInBranch, readFilter, read, readNode, MustParseUUID in Hb. simpl in Hb.
    apply andb_true_iff in Hb as [Ht Hb]. apply String.eqb_eq in Ht, Hb.
    unfold fromMinNodeID, readFilter in Hmin. simpl in Hmin. apply Z.leb_le in Hmin.
    unfold belowMaxNodeID, readFilter, read, readNode in Hmax. simpl in Hmax.
    apply Z.ltb_lt in Hmax.
    assert (Hn : HistoryNodeRow.NodeID x = nodeID) by lia.
    split; [exact Hn|]. now apply Hnewest. }
  assert (Hsel : exists rest,
             SelectFromHistoryNode (DB := memDB dupEntry) (readFilter read nodeID)
               {| history_node := history_node db ++ [ row ]; history_tree := history_tree db |}
             = (row :: rest, None)
             /\ Forall (fun x => HistoryNodeRow.NodeID x = nodeID
                                 /\ HistoryNodeRow.TxnID x
                                    < InternalAppendHistoryNodesRequest.TransactionID request)
                  rest).
  { cbn [SelectFromHistoryNode memDB]. unfold memSelectFromHistoryNode. cbn [history_node].
    fold keep. rewrite List.filter_app. cbn [List.filter]. rewrite Hrow.
    rewrite orderRows_newest.
    - unfold limitRows, readFilter, read, readNode. simpl.
      destruct (Z.to_nat pageSize) as [|k] eqn:Ek; [lia|]. cbn [take].
      eexists. split; [reflexivity|].
      apply List.Forall_forall. intros x Hx. apply take_In in Hx.
      rewrite orderRows_In in Hx. now apply Hold.
    - intros x Hx. destruct (Hold x Hx) as [Hn Ht].
      unfold nodeRowBefore, row, appendNodeRow. simpl. fold nodeID. rewrite Hn.
      rewrite Z.ltb_irrefl, Z.eqb_refl. simpl. now apply Z.ltb_lt. }
  destruct Hsel as (rest & Hsel & Hrest).
  assert (Hmin : readMinNodeID deserializePageToken read = Ok nodeID) by reflexivity.
  rewrite (read_after_select (H := memDB dupEntry) serializePageToken deserializePageToken
             maxSliceCap read _ nodeID (row :: rest) None Hmin Hsel eq_refl).
  cbn [isNil andb length Nat.eqb].
  rewrite makeslice_in_range by (simpl; lia).
  cbn [readRows]. change (HistoryNodeRow.NodeID row) with nodeID.
  destruct (Z.ltb_spec nodeID (-1)); [lia|].
  destruct (Z.eqb_spec nodeID (-1)); [lia|].
  rewrite (readRows_skips rest _ nodeID _ Hrest).
  eexists. split; [reflexivity|]. simpl.
  unfold rowBlob, row, appendNodeRow. simpl.
  now destruct (InternalAppendHistoryNodesRequest.Events request).
Qed.

End MemAppendFacts.

(** ** Reads on a store with distinct keys *)

Section MemReadFacts.

Variable dupEntry : Z.
Variable serializePageToken : Z -> bytes.
Variable deserializePageToken : bytes -> result Z.
Variable maxSliceCap : Z.

Lemma nodeRowBefore_precedes (a b : HistoryNodeRow.t) :
  nodeRowBefore a b = true <-> rowPrecedes a b.
Proof.
  unfold nodeRowBefore, rowPrecedes.
  rewrite orb_true_iff, andb_true_iff, !Z.ltb_lt, Z.eqb_eq. reflexivity.
Qed.

Lemma rowPrecedes_total (a b : HistoryNodeRow.t) :
  keyNT a <> keyNT b -> nodeRowBefore a b = false -> rowPrecedes b a.
Proof.
  intros Hkey Hnot. apply not_true_iff_false in Hnot. rewrite nodeRowBefore_precedes in Hnot.
  unfold rowPrecedes in *. unfold keyNT in Hkey.
  destruct (Z.eq_dec (HistoryNodeRow.NodeID a) (HistoryNodeRow.NodeID b)) as [En|Nn];
    [|lia].
  destruct (Z.eq_dec (HistoryNodeRow.TxnID a) (HistoryNodeRow.TxnID b)) as [Et|Nt];
    [|lia].
  exfalso. apply Hkey. now rewrite En, Et.
Qed.

Lemma rowPrecedes_trans (a b c : HistoryNodeRow.t) :
  rowPrecedes a b -> rowPrecedes b c -> rowPrecedes a c.
Proof. unfold rowPrecedes. lia. Qed.

Lemma insertOrdered_ordered (row : HistoryNodeRow.t) (rows : list HistoryNodeRow.t) :
  rowsOrdered rows ->
  Forall (fun x => keyNT x <> keyNT row) rows ->
  rowsOrdered (insertOrdered row rows).
Proof.
  unfold rowsOrdered. induction rows as [|r rows IH]; intros Hs Hkeys; simpl.
  - repeat constructor.
  - inversion Hs as [|? ? Hs' Hr]; subst. inversion Hkeys as [|? ? Hk Hkeys']; subst.
    destruct (nodeRowBefore r row) eqn:E.
    + constructor; [now apply IH|]. apply List.Forall_forall. intros x Hx.
      apply insertOrdered_In in Hx as [->|Hx].
      * now apply nodeRowBefore_precedes.
      * rewrite List.Forall_forall in Hr. now apply Hr.
    + assert (Hrow : rowPrecedes row r) by now apply rowPrecedes_total.
      constructor; [exact Hs|]. constructor; [exact Hrow|].
      eapply List.Forall_impl; [|exact Hr]. intros x Hx.
      exact (rowPrecedes_trans row r x Hrow Hx).
Qed.

Lemma orderRows_ordered (rows : list HistoryNodeRow.t) :
  List.NoDup (map keyNT rows) -> rowsOrdered (orderRows rows).
Proof.
  unfold orderRows. induction rows as [|r rows IH]; intros Hnd; simpl.
  - constructor.
  - apply List.NoDup_cons_iff in Hnd as [Hr Hnd]. apply insertOrdered_ordered; [now apply IH|].
    apply List.Forall_forall. intros x Hx Hkey. apply Hr.
    apply List.in_map_iff. exists x. split; [exact Hkey|]. now apply orderRows_In.
Qed.

Lemma branch_keys_distinct (keep : HistoryNodeRow.t -> bool) (treeID branchID : string)
    (rows : list HistoryNodeRow.t) :
  (forall x, keep x = true ->
             HistoryNodeRow.TreeID x = treeID /\ HistoryNodeRow.BranchID x = branchID) ->
  List.NoDup (map fullKey rows) ->
  List.NoDup (map keyNT (List.filter keep rows)).
Proof.
  intros Hkeep. induction rows as [|r rows IH]; intros Hnd; simpl; [constructor|].
  apply List.NoDup_cons_iff in Hnd as [Hr Hnd]. destruct (keep r) eqn:Er; [|now apply IH].
  simpl. constructor; [|now apply IH].
  intros Hin. apply List.in_map_iff in Hin as (y & Hy & Hin).
  apply List.filter_In in Hin as [Hin Ey]. apply Hr. apply List.in_map_iff. exists y.
  split; [|exact Hin]. destruct (Hkeep r Er) as [Ht Hb], (Hkeep y Ey) as [Ht' Hb'].
  unfold keyNT in Hy. injection Hy as Hn Htx. unfold fullKey. congruence.
Qed.

Lemma rowsOrdered_take (k : nat) (rows : list HistoryNodeRow.t) :
  rowsOrdered rows -> rowsOrdered (take k rows).
Proof.
  unfold rowsOrdered. revert k. induction rows as [|r rows IH]; intros [|k] Hs; simpl;
    try constructor.
  - inversion Hs; subst. now apply IH.
  - inversion Hs as [|? ? _ Hr]; subst. apply List.Forall_forall. intros x Hx.
    apply take_In in Hx. rewrite List.Forall_forall in Hr. now apply Hr.
Qed.

(** X17. The store never looks corrupted to a read. On a store whose node
    rows have distinct primary keys, a read whose minimum node id is not
    negative and whose page size lies between 0 and what the allocation of
    line 179 accepts succeeds: the select returns rows ordered by
    (nodeID ASC, txnID DESC), and the history holds, in order, the data and
    the encoding of each row that carries the largest txnID of its nodeID
    among the rows of the page. *)
Theorem mem_read_returns_winners (request : InternalReadHistoryBranchRequest.t)
    (db : MemDB) (minNodeID : Z) :
  distinctKeys db ->
  readMinNodeID deserializePageToken request = Ok minNodeID ->
  0 <= minNodeID ->
  0 <= InternalReadHistoryBranchRequest.PageSize request <= maxSliceCap ->
  exists rows resp,
    SelectFromHistoryNode (DB := memDB dupEntry) (readFilter request minNodeID) db = (rows, None)
    /\ rowsOrdered rows
    /\ ReadHistoryBranch (H := memDB dupEntry) serializePageToken deserializePageToken maxSliceCap
         request db = Ok resp
    /\ InternalReadHistoryBranchResponse.History resp
       = map (fun row => {| DataBlob.Encoding := HistoryNodeRow.DataEncoding row;
                            DataBlob.Data := HistoryNodeRow.Data row |})
           (winners rows)
    /\ (forall w r, In w (winners rows) -> In r rows ->
          HistoryNodeRow.NodeID r = HistoryNodeRow.NodeID w ->
          HistoryNodeRow.TxnID r <= HistoryNodeRow.TxnID w).
Proof.
  intros Hkeys Hmin Hnonneg Hpage.
  set (f := readFilter request minNodeID).
  set (keep := fun r => nodeInBranch f r && fromMinNodeID f r && belowMaxNodeID f r).
  set (rows := limitRows f (orderRows (List.filter keep (history_node db)))).
  assert (Hsel : SelectFromHistoryNode (DB := memDB dupEntry) f db = (rows, None))
    by reflexivity.
  assert (Hbranch : forall x, keep x = true ->
            HistoryNodeRow.TreeID x = HistoryNodeFilter.TreeID f
            /\ HistoryNodeRow.BranchID x = HistoryNodeFilter.BranchID f).
  { intros x Hx. unfold keep in Hx. apply andb_true_iff in Hx as [Hx _].
    apply andb_true_iff in Hx as [Hx _]. unfold nodeInBranch in Hx.
    apply andb_true_iff in Hx as [Ht Hb]. now apply String.eqb_eq in Ht, Hb. }
  assert (Hord : rowsOrdered rows).
  { unfold rows, limitRows. simpl. apply rowsOrdered_take, orderRows_ordered.
    exact (branch_keys_distinct keep _ _ (history_node db) Hbranch Hkeys). }
  assert (Hpos : Forall (fun r => 0 <= HistoryNodeRow.NodeID r) rows).
  { apply List.Forall_forall. intros x Hx. unfold rows, limitRows in Hx. simpl in Hx.
    apply take_In in Hx. rewrite orderRows_In in Hx. apply List.filter_In in Hx as [_ Hx].
    unfold keep in Hx. apply andb_true_iff in Hx as [Hx _].
    apply andb_true_iff in Hx as [_ Hx]. unfold fromMinNodeID, f, readFilter in Hx.
    simpl in Hx. apply Z.leb_le in Hx. lia. }
  assert (Hnc : ~ corrupted rows).
  { apply ordered_not_corrupted; [exact Hord|].
    eapply List.Forall_impl; [|exact Hpos]. simpl. intros; lia. }
  destruct (read_ok_of_uncorrupted (H := memDB dupEntry) serializePageToken
              deserializePageToken maxSliceCap request db minNodeID rows None Hmin Hsel eq_refl Hpage Hnc)
    as (resp & Hok & Hhist).
  exists rows, resp. split; [exact Hsel|]. split; [exact Hord|]. split; [exact Hok|].
  split; [|intros w r Hw Hr Hnode; apply List.filter_In in Hw as [_ Hw];
           unfold isWinner in Hw; rewrite List.forallb_forall in Hw; specialize (Hw r Hr);
           destruct (Z.eqb_spec (HistoryNodeRow.NodeID r) (HistoryNodeRow.NodeID w));
           [simpl in Hw; now apply Z.leb_le in Hw | contradiction]].
  rewrite Hhist. change (map rowBlob (accepted rows) = map rowBlob (winners rows)).
  f_equal. unfold accepted, winners.
  rewrite accepted_winners; [|exact Hord|].
  - apply List.filter_ext_in. intros x Hx. rewrite List.Forall_forall in Hpos.
    apply Hpos in Hx. destruct (Z.ltb_spec (-1) (HistoryNodeRow.NodeID x)); [reflexivity | lia].
  - eapply List.Forall_impl; [|exact Hpos]. simpl. intros; lia.
Qed.

(** The inserts of the store keep the keys distinct. *)
Lemma mem_insert_keeps_keys_distinct (row : HistoryNodeRow.t) (db db' : MemDB)
    (r : SqlResult.t) :
  distinctKeys db ->
  memInsertIntoHistoryNode dupEntry row db = (Ok r, db') ->
  distinctKeys db'.
Proof.
  unfold distinctKeys, memInsertIntoHistoryNode. intros Hkeys.
  destruct (existsb (sameNodeKey row) (history_node db)) eqn:E; [discriminate|].
  intros [= _ <-]. cbn [history_node]. rewrite List.map_app. simpl.
  apply List.NoDup_app; [exact Hkeys | repeat constructor; intros [] |].
  intros key Hin Hrow.
  destruct Hrow as [<-|[]]. apply List.in_map_iff in Hin as (x & Hx & Hin).
  assert (Hsame : sameNodeKey row x = true) by (apply sameNodeKey_fullKey; now symmetry).
  assert (Hex : existsb (sameNodeKey row) (history_node db) = true)
    by (apply existsb_exists; eauto).
  congruence.
Qed.

End MemReadFacts.

(** ** The further properties at work on the scenarios *)

Ltac member := vm_compute; repeat first [ left; reflexivity | right ].

Lemma rows_of_S3_decode :
  forall row, In row (history_tree dbS3) -> HistoryTreeRow.TreeID row = T1 ->
              decodes binUnmarshal row.
Proof.
  assert (D : map (fun row => binUnmarshal (HistoryTreeRow.Ancestors row)) (history_tree dbS3)
              = [ Ok []; Ok (HistoryBranch.Ancestors branchB2) ]) by evaluate.
  destruct (history_tree dbS3) as [|r1 [|r2 [|r3 rows]]]; try discriminate.
  injection D as D1 D2. intros row [<-|[<-|[]]] _; eexists; eassumption.
Defined.

Lemma mem_delete_touches_only_plan_witness :
  memDelete (deleteReq branchB2) dbS3 = (Ok tt, dbS4)
  /\ (forall row, In row (history_node dbS4) -> In row (history_node dbS3))
  /\ (forall row, In row (history_tree dbS4)
                  <-> In row (history_tree dbS3)
                      /\ ~ (HistoryTreeRow.TreeID row = T1 /\ HistoryTreeRow.BranchID row = B2)).
Proof.
  assert (Hok : memDelete (deleteReq branchB2) dbS3 = (Ok tt, dbS4)) by evaluate.
  split; [exact Hok|].
  destruct (mem_delete_touches_only_plan 1062 binUnmarshal (deleteReq branchB2) dbS3 dbS4 Hok)
    as (Htree & Hnodes & _).
  split; [exact Hnodes | exact Htree].
Defined.

(** Node 1 of B1 lies inside the range that B2 inherits and outlives the
    delete of B2. *)
Lemma mem_delete_keeps_referenced_segments_witness :
  memDelete (deleteReq branchB2) dbS3 = (Ok tt, dbS4)
  /\ In treeRowB2 (history_tree dbS3)
  /\ In (nodeRowOf B1 1 100 "e1") (history_node dbS3)
  /\ In (nodeRowOf B1 1 100 "e1") (history_node dbS4).
Proof.
  assert (Hok : memDelete (deleteReq branchB2) dbS3 = (Ok tt, dbS4)) by evaluate.
  assert (Hrow : In treeRowB2 (history_tree dbS3)) by member.
  assert (Hnode : In (nodeRowOf B1 1 100 "e1") (history_node dbS3)) by member.
  repeat (split; [assumption|]).
  apply (mem_delete_keeps_referenced_segments 1062 binUnmarshal (deleteReq branchB2) dbS3 dbS4
           rows_of_S3_decode Hok treeRowB2
           {| HistoryBranchRange.BranchID := B1; HistoryBranchRange.BeginNodeID := 1;
              HistoryBranchRange.EndNodeID := 2 |}
           (nodeRowOf B1 1 100 "e1") Hrow eq_refl).
  - member.
  - exact Hnode.
  - reflexivity.
  - reflexivity.
  - simpl. lia.
Defined.

Lemma B3_is_fresh_in_S2 : freshBranch (forkReq branchB1 2 B3) dbS2.
Proof.
  split.
  - intros row Hin [_ Hb].
    assert (E : map HistoryTreeRow.BranchID (history_tree dbS2) = [ B1 ]) by evaluate.
    apply (List.in_map HistoryTreeRow.BranchID) in Hin. rewrite E, Hb in Hin.
    destruct Hin as [Hin|[]]. discriminate Hin.
  - intros node Hin [_ Hb].
    assert (E : map HistoryNodeRow.BranchID (history_node dbS2) = [ B1; B1; B1 ]) by evaluate.
    apply (List.in_map HistoryNodeRow.BranchID) in Hin. rewrite E, Hb in Hin.
    destruct Hin as [Hin|[Hin|[Hin|[]]]]; discriminate Hin.
Defined.

Lemma mem_fork_then_abort_restores_store_witness :
  binMarshal (forkNewAncestors (forkReq branchB1 2 B3))
  = Ok (concat (map encodeRange (HistoryBranch.Ancestors branchB2)))
  /\ freshBranch (forkReq branchB1 2 B3) dbS2
  /\ exists resp forked,
       memFork 0 (forkReq branchB1 2 B3) dbS2 = (Ok resp, forked)
       /\ memCompleteFork
            {| InternalCompleteForkBranchRequest.BranchInfo :=
                 InternalForkHistoryBranchResponse.NewBranchInfo resp;
               InternalCompleteForkBranchRequest.Success := false |} forked
          = (Ok tt, dbS2).
Proof.
  split; [reflexivity|]. split; [exact B3_is_fresh_in_S2|].
  exact (mem_fork_then_abort_restores_store 1062 binMarshal 0 (forkReq branchB1 2 B3) dbS2 _
           eq_refl B3_is_fresh_in_S2).
Defined.

Lemma mem_fork_then_complete_commits_witness :
  freshBranch (forkReq branchB1 2 B3) dbS2
  /\ exists resp forked,
       memFork 0 (forkReq branchB1 2 B3) dbS2 = (Ok resp, forked)
       /\ map treeKey (history_tree forked) = [ (B1, false); (B3, true) ]
       /\ map treeKey
            (history_tree
               (after (memCompleteFork
                         {| InternalCompleteForkBranchRequest.BranchInfo :=
                              InternalForkHistoryBranchResponse.NewBranchInfo resp;
                            InternalCompleteForkBranchRequest.Success := true |}) forked))
          = [ (B1, false); (B3, false) ].
Proof.
  split; [exact B3_is_fresh_in_S2|].
  destruct (mem_fork_then_complete_commits 1062 binMarshal 0 (forkReq branchB1 2 B3) dbS2 _
              eq_refl B3_is_fresh_in_S2) as (resp & forked & Hfork & Htree & Hdone).
  exists resp, forked. split; [exact Hfork|]. split.
  - rewrite Htree. evaluate.
  - unfold after, memCompleteFork. rewrite Hdone. evaluate.
Defined.

Lemma mem_fork_blocks_deletes_witness :
  freshBranch (forkReq branchB1 2 B3) dbS2
  /\ exists resp forked,
       memFork 0 (forkReq branchB1 2 B3) dbS2 = (Ok resp, forked)
       /\ memDelete (deleteReq branchB1) forked
          = (Fail (ConditionFailedError "There are branches in progress of forking"), forked).
Proof.
  split; [exact B3_is_fresh_in_S2|].
  apply (mem_fork_blocks_deletes 1062 binMarshal binUnmarshal 0 (forkReq branchB1 2 B3) dbS2
           (concat (map encodeRange (HistoryBranch.Ancestors branchB2))) (deleteReq branchB1)).
  - reflexivity.
  - eexists. evaluate.
  - exact B3_is_fresh_in_S2.
  - intros row Hin _.
    assert (D : map (fun row => binUnmarshal (HistoryTreeRow.Ancestors row)) (history_tree dbS2)
                = [ Ok [] ]) by evaluate.
    destruct (history_tree dbS2) as [|r1 [|r2 rows]]; try discriminate.
    injection D as D1. destruct Hin as [<-|[]]. eexists. exact D1.
  - reflexivity.
Defined.

(** Node 2 of B1 is appended with txn 101; appending (B1, 2, 101) again,
    with another payload, is rejected. *)
Lemma mem_append_twice_rejected_witness :
  memAppend 0 (appendReq false branchB1 2 101 "e2") dbBorn = (Ok tt, dbS1)
  /\ memAppend 7 (appendReq false branchB1 2 101 "other") dbS1
     = (Fail (ConditionFailedError "AppendHistoryNodes: row already exist: "), dbS1).
Proof.
  assert (Hok : memAppend 0 (appendReq false branchB1 2 101 "e2") dbBorn = (Ok tt, dbS1))
    by evaluate.
  split; [exact Hok|].
  apply (mem_append_twice_rejected 1062 binMarshal 0 7
           (appendReq false branchB1 2 101 "e2") (appendReq false branchB1 2 101 "other")
           dbBorn dbS1 eq_refl Hok eq_refl).
  - vm_compute. discriminate.
  - reflexivity.
Defined.

Lemma mem_append_then_read_witness :
  memAppend 0 (appendReq false branchB1 2 101 "e2") dbBorn = (Ok tt, dbS1)
  /\ exists resp,
       memRead (readNode T1 B1 2 10) dbS1 = Ok resp
       /\ InternalReadHistoryBranchResponse.History resp = [ blob "e2" ].
Proof.
  assert (Hok : memAppend 0 (appendReq false branchB1 2 101 "e2") dbBorn = (Ok tt, dbS1))
    by evaluate.
  split; [exact Hok|].
  apply (mem_append_then_read 1062 binMarshal binSerializePageToken binDeserializePageToken (2 ^ 45) 0
           (appendReq false branchB1 2 101 "e2") dbBorn dbS1 10 eq_refl Hok).
  - simpl. lia.
  - lia.
  - intros node Hin _ _ Hn.
    assert (E : map HistoryNodeRow.NodeID (history_node dbBorn) = [ 1 ]) by evaluate.
    apply (List.in_map HistoryNodeRow.NodeID) in Hin. rewrite E, Hn in Hin.
    destruct Hin as [Hin|[]]. discriminate Hin.
Defined.

Lemma keys_of_S2_distinct : distinctKeys dbS2.
Proof.
  unfold distinctKeys.
  assert (E : map fullKey (history_node dbS2)
              = [ (T1, B1, 1, 100); (T1, B1, 2, 101); (T1, B1, 2, 200) ]) by evaluate.
  rewrite E.
  repeat (constructor; [simpl; intros Hin; repeat destruct Hin as [Hin|Hin];
                        first [discriminate Hin | exact Hin]|]).
  constructor.
Defined.

Lemma mem_read_returns_winners_witness :
  distinctKeys dbS2
  /\ exists rows resp,
       memSelectFromHistoryNode (readFilter (readReq B1 1 10 10 []) 1) dbS2 = (rows, None)
       /\ rowsOrdered rows
       /\ memRead (readReq B1 1 10 10 []) dbS2 = Ok resp
       /\ InternalReadHistoryBranchResponse.History resp = [ blob "e1"; blob "e2b" ].
Proof.
  split; [exact keys_of_S2_distinct|].
  destruct (mem_read_returns_winners 1062 binSerializePageToken binDeserializePageToken (2 ^ 45)
              (readReq B1 1 10 10 []) dbS2 1 keys_of_S2_distinct eq_refl)
    as (rows & resp & Hsel & Hord & Hok & Hhist & _).
  { lia. }
  { simpl. lia. }
  exists rows, resp. split; [exact Hsel|]. split; [exact Hord|]. split; [exact Hok|].
  rewrite Hhist.
  assert (E : memSelectFromHistoryNode (readFilter (readReq B1 1 10 10 []) 1) dbS2
              = (rowsS2, None)) by evaluate.
  cbn [SelectFromHistoryNode memDB] in Hsel. rewrite E in Hsel. injection Hsel as <-.
  evaluate.
Defined.

(** ** Births and deaths of branches on the executable store *)


Section MemBranchFacts.

Variable dupEntry : Z.
Variable jsonMarshal : list HistoryBranchRange.t -> result bytes.
Variable jsonUnmarshal : bytes -> result (list HistoryBranchRange.t).


Lemma walkDooms_own_range (treeID branchID : string) (beginNodeID : Z)
    (maxEndNode : gmap string Z) (older : list (string * Z)) (node : HistoryNodeRow.t) :
  maxEndNode !! branchID = None ->
  HistoryNodeRow.TreeID node = treeID ->
  HistoryNodeRow.BranchID node = branchID ->
  beginNodeID <= HistoryNodeRow.NodeID node ->
  walkDooms treeID maxEndNode ((branchID, beginNodeID) :: older) node = true.
Proof.
  intros Hnone Ht Hb Hn. cbn [walkDooms fst snd]. rewrite Hnone.
  apply orb_true_iff. left. apply andb_true_iff. split.
  - now apply nodeInBranch_nodesFrom.
  - unfold fromMinNodeID, nodesFrom. simpl. now apply Z.leb_le.
Qed.

(** X19. A branch nobody forked from loses its own nodes. When the rows of
    the tree deserialize and no chain among them refers to the deleted
    branch, a successful delete leaves no node of that branch at or above
    its begin node id. *)
Theorem mem_delete_removes_own_nodes (request : InternalDeleteHistoryBranchRequest.t)
    (db db' : MemDB) :
  let branch := InternalDeleteHistoryBranchRequest.BranchInfo request in
  let treeID := HistoryBranch.TreeID branch in
  (forall row, In row (history_tree db) -> HistoryTreeRow.TreeID row = treeID ->
               decodes jsonUnmarshal row) ->
  (forall row br, In row (history_tree db) -> HistoryTreeRow.TreeID row = treeID ->
                  In br (decodedChain jsonUnmarshal row) ->
                  HistoryBranchRange.BranchID br <> HistoryBranch.BranchID branch) ->
  DeleteHistoryBranch (H := memDB dupEntry) jsonUnmarshal request db = (Ok tt, db') ->
  forall node, In node (history_node db') ->
    ~ (HistoryNodeRow.TreeID node = treeID
       /\ HistoryNodeRow.BranchID node = HistoryBranch.BranchID branch
       /\ GetBeginNodeID branch <= HistoryNodeRow.NodeID node).
Proof.
  intros branch treeID Hdec Hunref Hok node Hin (Ht & Hb & Hn).
  destruct (mem_delete_success dupEntry jsonUnmarshal request db db' Hok)
    as (rsp & Hget & _ & ->).
  fold branch treeID in Hget, Hin. cbn [history_node] in Hin.
  apply List.filter_In in Hin as [_ Hkept]. apply negb_true_iff in Hkept.
  set (rows := List.filter (treeRowMatches (wholeTree treeID)) (history_tree db)) in *.
  assert (Hrows : forall r, In r rows -> In r (history_tree db)
                                         /\ HistoryTreeRow.TreeID r = treeID).
  { intros r Hr. apply List.filter_In in Hr as [Hr Hm]. split; [exact Hr|].
    unfold treeRowMatches, wholeTree in Hm. simpl in Hm. rewrite andb_true_r in Hm.
    now apply String.eqb_eq in Hm. }
  assert (Hall : Forall (decodes jsonUnmarshal) rows).
  { apply List.Forall_forall. intros r Hr. destruct (Hrows r Hr). now apply Hdec. }
  rewrite (get_history_tree_rows (H := memDB dupEntry) jsonUnmarshal
             {| GetHistoryTreeRequest.TreeID := treeID |} db rows None eq_refl eq_refl Hall)
    in Hget.
  injection Hget as <-. cbn [GetHistoryTreeResponse.Branches] in Hkept.
  assert (Hnone : validBRsMaxEndNode
                    (map (fun row => treeRowBranch treeID row (decodedChain jsonUnmarshal row))
                       rows) !! HistoryBranch.BranchID branch = None).
  { rewrite validBRsMaxEndNode_ranges.
    pose proof (recordRanges_lookup
                  (allRanges (map (fun row => treeRowBranch treeID row
                                                (decodedChain jsonUnmarshal row)) rows))
                  (HistoryBranch.BranchID branch) ∅) as Hm.
    destruct (fold_left recordRange _ ∅ !! HistoryBranch.BranchID branch) as [v|];
      [|reflexivity].
    destruct Hm as ([Hv|(br & Hbr & Hid & _)] & _); [now rewrite lookup_empty in Hv|].
    exfalso. unfold allRanges in Hbr. apply in_concat in Hbr as (chain & Hchain & Hbr).
    apply List.in_map_iff in Hchain as (b & <- & Hb').
    apply List.in_map_iff in Hb' as (r & <- & Hr). destruct (Hrows r Hr) as [Hr1 Hr2].
    exact (Hunref r br Hr1 Hr2 Hbr Hid). }
  unfold brsToDelete in Hkept. rewrite rev_app_distr in Hkept. cbn [rev app] in Hkept.
  rewrite (walkDooms_own_range treeID (HistoryBranch.BranchID branch)
             (GetBeginNodeID branch) _ _ node Hnone Ht Hb Hn) in Hkept.
  discriminate.
Qed.

End MemBranchFacts.


(** S4, second step: in S4 no chain refers to B1 any more, and deleting B1
    removes its remaining node. *)
Lemma mem_delete_removes_own_nodes_witness :
  memDelete (deleteReq branchB1) dbS4 = (Ok tt, dbEmpty)
  /\ forall node, In node (history_node dbEmpty) ->
       ~ (HistoryNodeRow.TreeID node = T1 /\ HistoryNodeRow.BranchID node = B1
          /\ GetBeginNodeID branchB1 <= HistoryNodeRow.NodeID node).
Proof.
  assert (Hok : memDelete (deleteReq branchB1) dbS4 = (Ok tt, dbEmpty)) by evaluate.
  split; [exact Hok|].
  assert (D : exists row, history_tree dbS4 = [ row ]
                          /\ binUnmarshal (HistoryTreeRow.Ancestors row) = Ok [])
    by (eexists; split; [evaluate | reflexivity]).
  destruct D as (r & E & Hr).
  apply (mem_delete_removes_own_nodes 1062 binUnmarshal (deleteReq branchB1) dbS4 dbEmpty).
  - intros row Hin _. rewrite E in Hin. destruct Hin as [<-|[]]. eexists. exact Hr.
  - intros row br Hin _ Hbr. rewrite E in Hin. destruct Hin as [<-|[]].
    unfold decodedChain in Hbr. rewrite Hr in Hbr. destruct Hbr.
  - exact Hok.
Defined.

(** ** Pages of a read on the executable store *)

Lemma acceptedFrom_app (l1 l2 : list HistoryNodeRow.t) :
  forall n t,
    acceptedFrom n (l1 ++ l2)
    = acceptedFrom n l1 ++ acceptedFrom (fold_left acceptStep l1 (n, t)).1 l2.
Proof.
  induction l1 as [|r l1 IH]; intros n t; [reflexivity|].
  cbn [app acceptedFrom fold_left]. unfold acceptStep at 2. cbn [fst].
  destruct (n <? HistoryNodeRow.NodeID r).
  - cbn [app]. f_equal. apply IH.
  - apply IH.
Qed.

Lemma acceptedFrom_above (l : list HistoryNodeRow.t) (n m : Z) :
  Forall (fun r => n < HistoryNodeRow.NodeID r /\ m < HistoryNodeRow.NodeID r) l ->
  acceptedFrom n l = acceptedFrom m l.
Proof.
  destruct l as [|r l]; [reflexivity|]. intros Hall.
  inversion Hall as [|? ? [Hn Hm] _]; subst. cbn [acceptedFrom].
  destruct (Z.ltb_spec n (HistoryNodeRow.NodeID r)), (Z.ltb_spec m (HistoryNodeRow.NodeID r));
    try lia. reflexivity.
Qed.

Lemma acceptedFrom_filter (l : list HistoryNodeRow.t) (lastNodeID : Z) :
  forall n, lastNodeID <= n ->
    acceptedFrom n (List.filter (fun r => lastNodeID <? HistoryNodeRow.NodeID r) l)
    = acceptedFrom n l.
Proof.
  induction l as [|r l IH]; intros n Hn; cbn [List.filter acceptedFrom]; [reflexivity|].
  destruct (Z.ltb_spec lastNodeID (HistoryNodeRow.NodeID r)).
  - cbn [acceptedFrom]. destruct (Z.ltb_spec n (HistoryNodeRow.NodeID r)).
    + f_equal. apply IH. lia.
    + now apply IH.
  - destruct (Z.ltb_spec n (HistoryNodeRow.NodeID r)); [lia|]. now apply IH.
Qed.

Lemma lastAccepted_invariant (P : Z -> Prop) (rows : list HistoryNodeRow.t) :
  forall last : Z * Z,
    P last.1 ->
    Forall (fun r => P (HistoryNodeRow.NodeID r)) rows ->
    P (fold_left acceptStep rows last).1.
Proof.
  induction rows as [|row rows IH]; intros last Hlast Hall; simpl; [exact Hlast|].
  inversion Hall; subst. apply IH; [|assumption].
  unfold acceptStep. destruct (last.1 <? HistoryNodeRow.NodeID row); assumption.
Qed.

Lemma rowsOrdered_filter (keep : HistoryNodeRow.t -> bool) (rows : list HistoryNodeRow.t) :
  rowsOrdered rows -> rowsOrdered (List.filter keep rows).
Proof.
  unfold rowsOrdered. induction 1 as [|r rows Hs IH Hr]; cbn [List.filter]; [constructor|].
  destruct (keep r); [|exact IH]. constructor; [exact IH|].
  apply List.Forall_forall. intros x Hx. apply List.filter_In in Hx as [Hx _].
  rewrite List.Forall_forall in Hr. now apply Hr.
Qed.

Lemma ordered_unique (l1 : list HistoryNodeRow.t) :
  forall l2,
    rowsOrdered l1 -> rowsOrdered l2 -> (forall x, In x l1 <-> In x l2) -> l1 = l2.
Proof.
  unfold rowsOrdered. induction l1 as [|a l1 IH]; intros [|b l2] H1 H2 Hsame.
  - reflexivity.
  - destruct (proj2 (Hsame b) (or_introl eq_refl)).
  - destruct (proj1 (Hsame a) (or_introl eq_refl)).
  - inversion H1 as [|? ? H1' Ha]; subst. inversion H2 as [|? ? H2' Hb]; subst.
    rewrite List.Forall_forall in Ha, Hb.
    assert (Hirr : forall x, ~ rowPrecedes x x) by (unfold rowPrecedes; intros x; lia).
    assert (Hasym : forall x y, rowPrecedes x y -> rowPrecedes y x -> False)
      by (unfold rowPrecedes; intros x y; lia).
    assert (Hab : a = b).
    { destruct (proj1 (Hsame a) (or_introl eq_refl)) as [E|Hin]; [now symmetry|].
      destruct (proj2 (Hsame b) (or_introl eq_refl)) as [E|Hin']; [exact E|].
      destruct (Hasym a b (Ha b Hin') (Hb a Hin)). }
    subst b. f_equal. apply IH; [assumption | assumption |].
    intros x. split; intros Hx.
    + destruct (proj1 (Hsame x) (or_intror Hx)) as [E|Hin]; [|exact Hin].
      subst x. destruct (Hirr a (Ha a Hx)).
    + destruct (proj2 (Hsame x) (or_intror Hx)) as [E|Hin]; [|exact Hin].
      subst x. destruct (Hirr a (Hb a Hx)).
Qed.

Lemma accepted_is_winners (rows : list HistoryNodeRow.t) :
  rowsOrdered rows ->
  Forall (fun r => 0 <= HistoryNodeRow.NodeID r) rows ->
  accepted rows = winners rows.
Proof.
  intros Hord Hpos. unfold accepted, winners.
  rewrite accepted_winners; [|exact Hord|].
  - apply List.filter_ext_in. intros x Hx. rewrite List.Forall_forall in Hpos.
    apply Hpos in Hx. destruct (Z.ltb_spec (-1) (HistoryNodeRow.NodeID x)); [reflexivity | lia].
  - eapply List.Forall_impl; [|exact Hpos]. simpl. intros; lia.
Qed.

Lemma inRange_spec (request : InternalReadHistoryBranchRequest.t) (minNodeID : Z)
    (row : HistoryNodeRow.t) :
  inRange request minNodeID row = true
  <-> HistoryNodeRow.TreeID row = InternalReadHistoryBranchRequest.TreeID request
      /\ HistoryNodeRow.BranchID row = InternalReadHistoryBranchRequest.BranchID request
      /\ minNodeID <= HistoryNodeRow.NodeID row
         < InternalReadHistoryBranchRequest.MaxNodeID request.
Proof.
  unfold inRange, nodeInBranch, fromMinNodeID, belowMaxNodeID, readFilter, MustParseUUID.
  simpl. rewrite !andb_true_iff, !String.eqb_eq, Z.leb_le, Z.ltb_lt. tauto.
Qed.

Lemma branchRows_In (request : InternalReadHistoryBranchRequest.t) (minNodeID : Z)
    (db : MemDB) (row : HistoryNodeRow.t) :
  In row (branchRows request minNodeID db)
  <-> In row (history_node db) /\ inRange request minNodeID row = true.
Proof. unfold branchRows. rewrite orderRows_In. apply List.filter_In. Qed.

Lemma branchRows_ordered (request : InternalReadHistoryBranchRequest.t) (minNodeID : Z)
    (db : MemDB) :
  distinctKeys db -> rowsOrdered (branchRows request minNodeID db).
Proof.
  intros Hkeys. unfold branchRows. apply orderRows_ordered.
  apply (branch_keys_distinct (inRange request minNodeID)
           (InternalReadHistoryBranchRequest.TreeID request)
           (InternalReadHistoryBranchRequest.BranchID request)); [|exact Hkeys].
  intros x Hx. apply inRange_spec in Hx. tauto.
Qed.

(** The rows above a node id are the rows of the read that starts right
    after it. *)
Lemma branchRows_above (request : InternalReadHistoryBranchRequest.t)
    (minNodeID lastNodeID : Z) (db : MemDB) :
  distinctKeys db ->
  minNodeID <= lastNodeID + 1 ->
  List.filter (fun r => lastNodeID <? HistoryNodeRow.NodeID r)
    (branchRows request minNodeID db)
  = branchRows request (lastNodeID + 1) db.
Proof.
  intros Hkeys Hle. apply ordered_unique.
  - now apply rowsOrdered_filter, branchRows_ordered.
  - now apply branchRows_ordered.
  - intros x. rewrite List.filter_In, !branchRows_In, !inRange_spec, Z.ltb_lt.
    intuition lia.
Qed.

Section MemPageFacts.

Variable dupEntry : Z.
Variable serializePageToken : Z -> bytes.
Variable deserializePageToken : bytes -> result Z.
Variable maxSliceCap : Z.

(** X20. Pages chain up to the whole history. On a store whose node rows
    have distinct primary keys, with a token codec that round trips int64
    values and never yields an empty token, a read with a minimum node id
    that is not negative, an int64 MaxNodeID and a page size of at least
    one row and no more than the allocation of line 179 accepts succeeds,
    and either it carries no token and its history is all the branch holds
    from the minimum node id on, or it carries a token for a node id
    lastNodeID not below the minimum, its history is not empty, the request
    that presents the token starts at lastNodeID + 1, and the history of
    the page followed by all the branch holds from lastNodeID + 1 on is all
    the branch holds from the minimum on: no node is lost or repeated
    between pages. *)
Theorem mem_read_pages_chain (request : InternalReadHistoryBranchRequest.t) (db : MemDB)
    (minNodeID : Z) :
  (forall n, isInt64 n -> deserializePageToken (serializePageToken n) = Ok n) ->
  (forall n, serializePageToken n <> []) ->
  distinctKeys db ->
  readMinNodeID deserializePageToken request = Ok minNodeID ->
  0 <= minNodeID ->
  1 <= InternalReadHistoryBranchRequest.PageSize request <= maxSliceCap ->
  isInt64 (InternalReadHistoryBranchRequest.MaxNodeID request) ->
  exists resp,
    ReadHistoryBranch (H := memDB dupEntry) serializePageToken deserializePageToken maxSliceCap
      request db = Ok resp
    /\ ((InternalReadHistoryBranchResponse.NextPageToken resp = []
         /\ InternalReadHistoryBranchResponse.History resp
            = wholeHistory request minNodeID db)
        \/ exists lastNodeID,
             InternalReadHistoryBranchResponse.NextPageToken resp <> []
             /\ deserializePageToken (InternalReadHistoryBranchResponse.NextPageToken resp)
                = Ok lastNodeID
             /\ minNodeID <= lastNodeID
             /\ readMinNodeID deserializePageToken
                  (withPageToken request (InternalReadHistoryBranchResponse.NextPageToken resp))
                = Ok (lastNodeID + 1)
             /\ InternalReadHistoryBranchResponse.History resp <> []
             /\ InternalReadHistoryBranchResponse.History resp
                ++ wholeHistory request (lastNodeID + 1) db
                = wholeHistory request minNodeID db).
Proof.
  intros Hcodec Hnonempty Hkeys Hmin Hnonneg Hpage Hmax.
  set (pageSize := InternalReadHistoryBranchRequest.PageSize request) in *.
  set (maxNodeID := InternalReadHistoryBranchRequest.MaxNodeID request) in *.
  set (all := branchRows request minNodeID db).
  set (k := Z.to_nat pageSize).
  assert (Hk : (1 <= k)%nat) by (unfold k; lia).
  assert (Hsel : SelectFromHistoryNode (DB := memDB dupEntry) (readFilter request minNodeID) db
                 = (take k all, None)) by reflexivity.
  assert (Hordall : rowsOrdered all) by now apply branchRows_ordered.
  assert (Hboundall : Forall (fun r => minNodeID <= HistoryNodeRow.NodeID r < maxNodeID) all).
  { apply List.Forall_forall. intros x Hx. apply branchRows_In in Hx as [_ Hx].
    apply inRange_spec in Hx. tauto. }
  assert (Hwhole : wholeHistory request minNodeID db = map rowBlob (accepted all)).
  { unfold wholeHistory. fold all. rewrite accepted_is_winners; [reflexivity | exact Hordall |].
    eapply List.Forall_impl; [|exact Hboundall]. simpl. intros; lia. }
  assert (Hsplit : take k all ++ drop k all = all) by apply take_drop.
  assert (Hlen : length (take k all) = Nat.min k (length all)) by apply length_take.
  remember (take k all) as rows eqn:Erows.
  assert (Hord : rowsOrdered rows) by (subst rows; now apply rowsOrdered_take).
  assert (Hbound : Forall (fun r => minNodeID <= HistoryNodeRow.NodeID r < maxNodeID) rows).
  { apply List.Forall_forall. intros x Hx. subst rows. apply take_In in Hx.
    rewrite List.Forall_forall in Hboundall. now apply Hboundall. }
  assert (Hnc : ~ corrupted rows).
  { apply ordered_not_corrupted; [exact Hord|].
    eapply List.Forall_impl; [|exact Hbound]. simpl. intros; lia. }
  rewrite (read_after_select (H := memDB dupEntry) serializePageToken deserializePageToken maxSliceCap
             request db minNodeID rows None Hmin Hsel eq_refl).
  fold pageSize. cbn [isNil andb].
  rewrite makeslice_in_range by lia.
  destruct rows as [|r0 rows'].
  { cbn [length Nat.eqb]. eexists. split; [reflexivity|]. left. split; [reflexivity|].
    cbn [emptyReadResponse InternalReadHistoryBranchResponse.History].
    rewrite Hwhole. cbn [length] in Hlen.
    assert (Hnil : all = []) by (apply length_zero_iff_nil; lia).
    now rewrite Hnil. }
  change ((length (r0 :: rows') =? 0)%nat) with false. cbv iota.
  destruct (readRows_spec (r0 :: rows') [] (-1) (-1)) as [[Hc _]|[_ Hok]];
    [destruct (Hnc Hc)|].
  rewrite Hok. cbn [app].
  set (lastNodeID := (fold_left acceptStep (r0 :: rows') (-1, -1)).1) in *.
  eexists. split; [reflexivity|].
  cbn [InternalReadHistoryBranchResponse.History
       InternalReadHistoryBranchResponse.NextPageToken].
  rewrite Z.geb_leb.
  destruct (Z.leb_spec pageSize (Z.of_nat (length (r0 :: rows')))) as [Hfull|Hshort].
  - right. exists lastNodeID.
    assert (Hr0 : minNodeID <= HistoryNodeRow.NodeID r0 < maxNodeID)
      by now inversion Hbound.
    assert (Hrange : -1 <= lastNodeID < maxNodeID).
    { apply (lastAccepted_invariant (fun z => -1 <= z < maxNodeID)); [simpl; lia|].
      eapply List.Forall_impl; [|exact Hbound]. simpl. intros; lia. }
    assert (Hbelow : Forall (fun r => HistoryNodeRow.NodeID r <= lastNodeID) (r0 :: rows'))
      by apply (uncorrupted_bounded (r0 :: rows') (-1) (-1) Hnc).
    assert (Hlast : minNodeID <= lastNodeID) by (inversion Hbelow; subst; lia).
    assert (Hint : isInt64 lastNodeID) by (unfold isInt64 in *; lia).
    split; [apply Hnonempty|]. split; [now apply Hcodec|]. split; [exact Hlast|].
    split.
    { rewrite (read_with_token deserializePageToken
                 (withPageToken request (serializePageToken lastNodeID)) lastNodeID).
      - f_equal. apply add64_no_overflow. unfold isInt64 in *. lia.
      - apply Hnonempty.
      - now apply Hcodec. }
    split.
    { cbn [acceptedFrom]. destruct (Z.ltb_spec (-1) (HistoryNodeRow.NodeID r0)); [|lia].
      discriminate. }
    rewrite Hwhole. unfold accepted. rewrite <- Hsplit at 1.
    rewrite (acceptedFrom_app (r0 :: rows') (drop k all) (-1) (-1)), map_app.
    fold lastNodeID. f_equal. unfold wholeHistory. f_equal.
    rewrite <- accepted_is_winners.
    + unfold accepted.
      rewrite <- (branchRows_above request minNodeID lastNodeID db Hkeys) by lia.
      fold all.
      rewrite (acceptedFrom_above _ (-1) lastNodeID).
      * rewrite <- Hsplit at 1. rewrite List.filter_app.
        rewrite (filter_none (fun r => lastNodeID <? HistoryNodeRow.NodeID r) (r0 :: rows')).
        -- cbn [app]. apply acceptedFrom_filter. lia.
        -- intros x Hx. rewrite List.Forall_forall in Hbelow. apply Hbelow in Hx.
           apply Z.ltb_ge. exact Hx.
      * apply List.Forall_forall. intros x Hx. apply List.filter_In in Hx as [_ Hx].
        apply Z.ltb_lt in Hx. lia.
    + now apply branchRows_ordered.
    + apply List.Forall_forall. intros x Hx. apply branchRows_In in Hx as [_ Hx].
      apply inRange_spec in Hx. lia.
  - left. split; [reflexivity|]. rewrite Hwhole. unfold accepted.
    assert (Hall : all = r0 :: rows').
    { rewrite <- Hsplit. rewrite drop_ge; [now rewrite app_nil_r|]. lia. }
    now rewrite Hall.
Qed.

End MemPageFacts.

(** S2 read in pages of one row: the first page holds "e1" and its token
    leads to node 2, where the branch holds "e2b". *)
Lemma mem_read_pages_chain_witness :
  distinctKeys dbS2
  /\ wholeHistory (readReq B1 1 10 1 []) 1 dbS2 = [ blob "e1"; blob "e2b" ]
  /\ exists resp,
       memRead (readReq B1 1 10 1 []) dbS2 = Ok resp
       /\ InternalReadHistoryBranchResponse.History resp
          ++ wholeHistory (readReq B1 1 10 1 []) 2 dbS2
          = [ blob "e1"; blob "e2b" ].
Proof.
  split; [exact keys_of_S2_distinct|].
  assert (Hwhole : wholeHistory (readReq B1 1 10 1 []) 1 dbS2 = [ blob "e1"; blob "e2b" ])
    by evaluate.
  split; [exact Hwhole|].
  destruct (mem_read_pages_chain 1062 binSerializePageToken binDeserializePageToken (2 ^ 45)
              (readReq B1 1 10 1 []) dbS2 1 binPageToken_round_trip
              binSerializePageToken_nonempty keys_of_S2_distinct eq_refl)
    as (resp & Hok & Hpages).
  { lia. }
  { simpl. lia. }
  { unfold isInt64. simpl. lia. }
  exists resp. split; [exact Hok|].
  destruct Hpages as [[Htoken _]|(lastNodeID & _ & Hdec & _ & _ & _ & Hchain)].
  - exfalso. unfold memRead in *.
    assert (E : ReadHistoryBranch (H := memDB 1062) binSerializePageToken
                  binDeserializePageToken (2 ^ 45) (readReq B1 1 10 1 []) dbS2
                = Ok (readResponse [ "e1" ] (binSerializePageToken 1))) by evaluate.
    rewrite E in Hok. injection Hok as <-. discriminate Htoken.
  - assert (E : ReadHistoryBranch (H := memDB 1062) binSerializePageToken
                  binDeserializePageToken (2 ^ 45) (readReq B1 1 10 1 []) dbS2
                = Ok (readResponse [ "e1" ] (binSerializePageToken 1))) by evaluate.
    rewrite E in Hok. injection Hok as <-.
    assert (Hone : lastNodeID = 1).
    { cbn [readResponse InternalReadHistoryBranchResponse.NextPageToken] in Hdec.
      rewrite binPageToken_round_trip in Hdec by (unfold isInt64; lia). congruence. }
    subst lastNodeID. rewrite <- Hwhole. exact Hchain.
Defined.

(** ** The listing of a tree on the executable store *)

Lemma map_filter_comm {A B : Type} (f : A -> B) (p : B -> bool) (l : list A) :
  map f (List.filter (fun x => p (f x)) l) = List.filter p (map f l).
Proof.
  induction l as [|x l IH]; simpl; [reflexivity|].
  destruct (p (f x)); simpl; now rewrite IH.
Qed.

Section MemListingFacts.

Variable dupEntry : Z.
Variable jsonMarshal : list HistoryBranchRange.t -> result bytes.
Variable jsonUnmarshal : bytes -> result (list HistoryBranchRange.t).

Lemma treeRows_ok_decodes (treeID : string) (rows : list HistoryTreeRow.t) :
  forall branches forkingBranches rsp,
    treeRows jsonUnmarshal treeID rows branches forkingBranches = Ok rsp ->
    Forall (decodes jsonUnmarshal) rows.
Proof.
  induction rows as [|row rows IH]; intros branches forkingBranches rsp; cbn [treeRows];
    [constructor|].
  unfold deserializeAncestors.
  destruct (jsonUnmarshal (HistoryTreeRow.Ancestors row)) as [ancs|e] eqn:E; [|discriminate].
  intros Hok. constructor; [now exists ancs | eapply IH; exact Hok].
Qed.

(** A listing that succeeds on the store is read off the rows of the tree,
    all of which deserialize. *)
Lemma mem_get_tree (treeID : string) (db : MemDB) (rsp : GetHistoryTreeResponse.t) :
  GetHistoryTree (H := memDB dupEntry) jsonUnmarshal (listing treeID) db = Ok rsp ->
  Forall (decodes jsonUnmarshal)
    (List.filter (treeRowMatches (wholeTree treeID)) (history_tree db))
  /\ rsp = {| GetHistoryTreeResponse.Branches :=
                map (fun row => treeRowBranch treeID row (decodedChain jsonUnmarshal row))
                  (List.filter (treeRowMatches (wholeTree treeID)) (history_tree db));
              GetHistoryTreeResponse.ForkingInProgressBranches :=
                map treeRowForking
                  (List.filter HistoryTreeRow.InProgress
                     (List.filter (treeRowMatches (wholeTree treeID)) (history_tree db))) |}.
Proof.
  intros Hok.
  set (rows := List.filter (treeRowMatches (wholeTree treeID)) (history_tree db)) in *.
  assert (Hsel : SelectFromHistoryTree (DB := memDB dupEntry)
                   (wholeTree (GetHistoryTreeRequest.TreeID (listing treeID))) db
                 = (rows, None)) by reflexivity.
  assert (Hdec : Forall (decodes jsonUnmarshal) rows).
  { pose proof Hok as Hrun. unfold GetHistoryTree in Hrun. unfold wholeTree in Hsel.
    rewrite Hsel in Hrun. cbn [isErrNoRows isNil orb andb] in Hrun.
    destruct (length rows =? 0)%nat eqn:El.
    - apply Nat.eqb_eq, length_zero_iff_nil in El. rewrite El. constructor.
    - eapply treeRows_ok_decodes. exact Hrun. }
  split; [exact Hdec|].
  rewrite (get_history_tree_rows (H := memDB dupEntry) jsonUnmarshal (listing treeID) db
             rows None Hsel eq_refl Hdec) in Hok.
  now injection Hok.
Qed.

(** The listing of a store whose rows of the tree deserialize. *)
Lemma mem_get_tree_of_rows (treeID : string) (db : MemDB) :
  Forall (decodes jsonUnmarshal)
    (List.filter (treeRowMatches (wholeTree treeID)) (history_tree db)) ->
  GetHistoryTree (H := memDB dupEntry) jsonUnmarshal (listing treeID) db
  = Ok {| GetHistoryTreeResponse.Branches :=
            map (fun row => treeRowBranch treeID row (decodedChain jsonUnmarshal row))
              (List.filter (treeRowMatches (wholeTree treeID)) (history_tree db));
          GetHistoryTreeResponse.ForkingInProgressBranches :=
            map treeRowForking
              (List.filter HistoryTreeRow.InProgress
                 (List.filter (treeRowMatches (wholeTree treeID)) (history_tree db))) |}.
Proof.
  intros Hdec.
  exact (get_history_tree_rows (H := memDB dupEntry) jsonUnmarshal (listing treeID) db
           _ None eq_refl eq_refl Hdec).
Qed.

(** Completing the fork of a request on the store its fork left. *)
Lemma mem_complete_fork (now : Z) (request : InternalForkHistoryBranchRequest.t)
    (db : MemDB) (ancestors : bytes) :
  freshBranch request db ->
  CompleteForkBranch (H := memDB dupEntry) (completion request true)
    {| history_node := history_node db;
       history_tree := history_tree db ++ [ forkRow now request ancestors true ] |}
  = (Ok tt,
     {| history_node := history_node db;
        history_tree := history_tree db ++ [ forkRow now request ancestors false ] |}).
Proof.
  intros Hfresh.
  unfold CompleteForkBranch, completion, bind, lift, ret, fail.
  cbn [InternalCompleteForkBranchRequest.Success InternalCompleteForkBranchRequest.BranchInfo
       UpdateHistoryTree memDB memUpdateHistoryTree history_node history_tree
       forkedBranch HistoryBranch.TreeID HistoryBranch.BranchID].
  unfold MustParseUUID.
  set (treeID := HistoryBranch.TreeID (InternalForkHistoryBranchRequest.ForkBranchInfo request)).
  set (newID := InternalForkHistoryBranchRequest.NewBranchID request).
  set (key := {| HistoryTreeRow.TreeID := treeID; HistoryTreeRow.BranchID := newID;
                 HistoryTreeRow.InProgress := false; HistoryTreeRow.CreatedTs := 0;
                 HistoryTreeRow.Ancestors := []; HistoryTreeRow.Info := "" |}).
  assert (Hold : forall row, In row (history_tree db) -> sameTreeKey key row = false).
  { intros row Hin. rewrite sameTreeKey_matches.
    exact (fresh_tree_rows request db Hfresh row Hin). }
  assert (Hnew : sameTreeKey key (forkRow now request ancestors true) = true).
  { rewrite sameTreeKey_matches. exact (forkRow_matches now request ancestors true). }
  rewrite List.filter_app, List.map_app. cbn [List.filter map]. rewrite Hnew.
  rewrite (filter_none (sameTreeKey key) (history_tree db) Hold).
  cbn [app length affected SqlResult.RowsAffected Z.of_nat Pos.of_succ_nat Z.eqb Pos.eqb negb].
  f_equal. f_equal. f_equal.
  rewrite <- (List.map_id (history_tree db)) at 2.
  apply List.map_ext_in. intros row Hin. now rewrite (Hold row Hin).
Qed.

(** X21. The listing follows a fork. On a store where the new branch id is
    not taken and the tree is listed as [before], with a codec that reads
    the new chain back: after ForkHistoryBranch the listing holds one more
    branch, the new one with its chain, and one more fork in progress, with
    the new branch id, the time of the fork and the request's info; after
    CompleteForkBranch with success set the new branch stays listed and the
    forks in progress are those of [before] again. *)
Theorem mem_fork_listing (now : Z) (request : InternalForkHistoryBranchRequest.t)
    (db : MemDB) (ancestors : bytes) (before : GetHistoryTreeResponse.t) :
  let treeID := HistoryBranch.TreeID (InternalForkHistoryBranchRequest.ForkBranchInfo request) in
  jsonMarshal (forkNewAncestors request) = Ok ancestors ->
  jsonUnmarshal ancestors = Ok (forkNewAncestors request) ->
  freshBranch request db ->
  GetHistoryTree (H := memDB dupEntry) jsonUnmarshal (listing treeID) db = Ok before ->
  exists resp forked committed,
    ForkHistoryBranch (H := memDB dupEntry) jsonMarshal now request db = (Ok resp, forked)
    /\ GetHistoryTree (H := memDB dupEntry) jsonUnmarshal (listing treeID) forked
       = Ok {| GetHistoryTreeResponse.Branches :=
                 GetHistoryTreeResponse.Branches before
                 ++ [ InternalForkHistoryBranchResponse.NewBranchInfo resp ];
               GetHistoryTreeResponse.ForkingInProgressBranches :=
                 GetHistoryTreeResponse.ForkingInProgressBranches before
                 ++ [ forkingEntry now request ] |}
    /\ CompleteForkBranch (H := memDB dupEntry)
         {| InternalCompleteForkBranchRequest.BranchInfo :=
              InternalForkHistoryBranchResponse.NewBranchInfo resp;
            InternalCompleteForkBranchRequest.Success := true |} forked
       = (Ok tt, committed)
    /\ GetHistoryTree (H := memDB dupEntry) jsonUnmarshal (listing treeID) committed
       = Ok {| GetHistoryTreeResponse.Branches :=
                 GetHistoryTreeResponse.Branches before
                 ++ [ InternalForkHistoryBranchResponse.NewBranchInfo resp ];
               GetHistoryTreeResponse.ForkingInProgressBranches :=
                 GetHistoryTreeResponse.ForkingInProgressBranches before |}.
Proof.
  intros treeID Hser Hread Hfresh Hbefore.
  destruct (mem_get_tree treeID db before Hbefore) as [Hdec ->].
  set (rows := List.filter (treeRowMatches (wholeTree treeID)) (history_tree db)) in *.
  assert (Hrows : forall inProgress,
            List.filter (treeRowMatches (wholeTree treeID))
              (history_tree db ++ [ forkRow now request ancestors inProgress ])
            = rows ++ [ forkRow now request ancestors inProgress ]).
  { intros inProgress. rewrite List.filter_app. fold rows. f_equal. cbn [List.filter].
    unfold treeRowMatches, wholeTree, forkRow, MustParseUUID. simpl. fold treeID.
    now rewrite String.eqb_refl. }
  assert (Hall : forall inProgress,
            Forall (decodes jsonUnmarshal)
              (rows ++ [ forkRow now request ancestors inProgress ])).
  { intros inProgress. apply Forall_app. split; [exact Hdec|].
    constructor; [|constructor]. exists (forkNewAncestors request). exact Hread. }
  assert (Hchain : forall inProgress,
            treeRowBranch treeID (forkRow now request ancestors inProgress)
              (decodedChain jsonUnmarshal (forkRow now request ancestors inProgress))
            = forkedBranch request).
  { intros inProgress. unfold decodedChain, forkRow. cbn [HistoryTreeRow.Ancestors].
    rewrite Hread. reflexivity. }
  eexists. eexists. eexists.
  split; [apply (mem_fork dupEntry jsonMarshal now request db ancestors Hser Hfresh)|].
  split; [|split].
  - rewrite mem_get_tree_of_rows; cbn [history_tree]; rewrite (Hrows true);
      [|exact (Hall true)].
    rewrite map_app, List.filter_app, map_app. cbn [map List.filter]. rewrite (Hchain true).
    reflexivity.
  - exact (mem_complete_fork now request db ancestors Hfresh).
  - rewrite mem_get_tree_of_rows; cbn [history_tree]; rewrite (Hrows false);
      [|exact (Hall false)].
    rewrite map_app, List.filter_app, map_app. cbn [map List.filter]. rewrite (Hchain false).
    cbn [forkRow HistoryTreeRow.InProgress]. now rewrite !app_nil_r.
Qed.

(** The first append of a branch, when it succeeds. *)
Lemma mem_append_new_success (now : Z) (request : InternalAppendHistoryNodesRequest.t)
    (db db' : MemDB) (ancestors : bytes) :
  InternalAppendHistoryNodesRequest.IsNewBranch request = true ->
  jsonMarshal (HistoryBranch.Ancestors (InternalAppendHistoryNodesRequest.BranchInfo request))
  = Ok ancestors ->
  AppendHistoryNodes (H := memDB dupEntry) jsonMarshal dupEntry now request db = (Ok tt, db') ->
  db' = {| history_node := history_node db ++ [ appendNodeRow request ];
           history_tree := history_tree db ++ [ appendTreeRow now request ancestors ] |}.
Proof.
  intros Hnew Hser. unfold AppendHistoryNodes. rewrite Hnew.
  destruct (_ <? _); [discriminate|].
  rewrite copy_ancestors. unfold serializeAncestors. cbn [app]. rewrite Hser.
  unfold txExecute, appendNewBranchTx, bind, lift, ret, fail.
  cbn [InsertIntoHistoryNode InsertIntoHistoryTree memDB].
  unfold memInsertIntoHistoryNode.
  destruct (existsb _ (history_node db)); [discriminate|].
  unfold memInsertIntoHistoryTree. cbn [history_tree history_node affected
    SqlResult.RowsAffected].
  change (Z.of_nat 1 =? 1) with true. cbn [negb history_tree history_node].
  destruct (existsb _ (history_tree db)); [discriminate|].
  cbn [affected SqlResult.RowsAffected]. change (Z.of_nat 1 =? 1) with true.
  cbn [negb]. now intros [= <-].
Qed.

(** X22. A branch born by an append is listed. With the new-branch flag and
    a codec that reads the branch's chain back, after a successful
    AppendHistoryNodes the listing of the tree holds one more branch, the
    request's branch with its chain, and the forks in progress are
    unchanged: the branch is committed at once. *)
Theorem mem_new_branch_listed (now : Z) (request : InternalAppendHistoryNodesRequest.t)
    (db db' : MemDB) (ancestors : bytes) (before : GetHistoryTreeResponse.t) :
  let branchInfo := InternalAppendHistoryNodesRequest.BranchInfo request in
  InternalAppendHistoryNodesRequest.IsNewBranch request = true ->
  jsonMarshal (HistoryBranch.Ancestors branchInfo) = Ok ancestors ->
  jsonUnmarshal ancestors = Ok (HistoryBranch.Ancestors branchInfo) ->
  AppendHistoryNodes (H := memDB dupEntry) jsonMarshal dupEntry now request db = (Ok tt, db') ->
  GetHistoryTree (H := memDB dupEntry) jsonUnmarshal
    (listing (HistoryBranch.TreeID branchInfo)) db = Ok before ->
  GetHistoryTree (H := memDB dupEntry) jsonUnmarshal
    (listing (HistoryBranch.TreeID branchInfo)) db'
  = Ok {| GetHistoryTreeResponse.Branches :=
            GetHistoryTreeResponse.Branches before ++ [ branchInfo ];
          GetHistoryTreeResponse.ForkingInProgressBranches :=
            GetHistoryTreeResponse.ForkingInProgressBranches before |}.
Proof.
  intros branchInfo Hnew Hser Hread Hok Hbefore.
  rewrite (mem_append_new_success now request db db' ancestors Hnew Hser Hok).
  set (treeID := HistoryBranch.TreeID branchInfo) in *.
  destruct (mem_get_tree treeID db before Hbefore) as [Hdec ->].
  set (rows := List.filter (treeRowMatches (wholeTree treeID)) (history_tree db)) in *.
  assert (Hrows : List.filter (treeRowMatches (wholeTree treeID))
                    (history_tree db ++ [ appendTreeRow now request ancestors ])
                  = rows ++ [ appendTreeRow now request ancestors ]).
  { rewrite List.filter_app. fold rows. f_equal. cbn [List.filter].
    unfold treeRowMatches, wholeTree, appendTreeRow, MustParseUUID. simpl.
    fold branchInfo. fold treeID. now rewrite String.eqb_refl. }
  rewrite mem_get_tree_of_rows; cbn [history_tree]; rewrite Hrows.
  - rewrite map_app, List.filter_app, map_app. cbn [map List.filter].
    unfold decodedChain, treeRowBranch, appendTreeRow, UUIDString, MustParseUUID.
    cbn [HistoryTreeRow.InProgress HistoryTreeRow.Ancestors HistoryTreeRow.BranchID app].
    fold branchInfo. rewrite Hread, !app_nil_r. unfold treeID.
    destruct branchInfo. reflexivity.
  - apply Forall_app. split; [exact Hdec|]. constructor; [|constructor].
    exists (HistoryBranch.Ancestors branchInfo). exact Hread.
Qed.

(** X23. A deleted branch leaves the listing. After a successful
    DeleteHistoryBranch the listing of the tree, which showed no fork in
    progress, holds the branches it held before except the deleted one, in
    the same order, and still no fork in progress. *)
Theorem mem_delete_unlists_branch (request : InternalDeleteHistoryBranchRequest.t)
    (db db' : MemDB) :
  let branch := InternalDeleteHistoryBranchRequest.BranchInfo request in
  let treeID := HistoryBranch.TreeID branch in
  DeleteHistoryBranch (H := memDB dupEntry) jsonUnmarshal request db = (Ok tt, db') ->
  exists before,
    GetHistoryTree (H := memDB dupEntry) jsonUnmarshal (listing treeID) db = Ok before
    /\ GetHistoryTreeResponse.ForkingInProgressBranches before = []
    /\ GetHistoryTree (H := memDB dupEntry) jsonUnmarshal (listing treeID) db'
       = Ok {| GetHistoryTreeResponse.Branches :=
                 otherBranches (HistoryBranch.BranchID branch)
                   (GetHistoryTreeResponse.Branches before);
               GetHistoryTreeResponse.ForkingInProgressBranches := [] |}.
Proof.
  intros branch treeID Hok.
  destruct (mem_delete_success dupEntry jsonUnmarshal request db db' Hok)
    as (before & Hbefore & Hnofork & ->).
  fold branch in Hbefore. fold treeID in Hbefore. fold branch. fold treeID.
  exists before. split; [exact Hbefore|]. split; [exact Hnofork|].
  destruct (mem_get_tree treeID db before Hbefore) as [Hdec ->].
  cbn [GetHistoryTreeResponse.Branches GetHistoryTreeResponse.ForkingInProgressBranches]
    in *.
  set (rows := List.filter (treeRowMatches (wholeTree treeID)) (history_tree db)) in *.
  set (other := fun row : HistoryTreeRow.t =>
                  negb (String.eqb (HistoryTreeRow.BranchID row)
                          (HistoryBranch.BranchID branch))).
  assert (Hrows : List.filter (treeRowMatches (wholeTree treeID))
                    (List.filter
                       (fun row => negb (treeRowMatches
                                           (oneBranch treeID (HistoryBranch.BranchID branch))
                                           row))
                       (history_tree db))
                  = List.filter other rows).
  { unfold rows. rewrite !filter_twice. apply List.filter_ext. intros row.
    unfold treeRowMatches, wholeTree, oneBranch, other, MustParseUUID. simpl.
    destruct (String.eqb (HistoryTreeRow.TreeID row) treeID),
             (String.eqb (HistoryTreeRow.BranchID row) (HistoryBranch.BranchID branch));
      reflexivity. }
  rewrite mem_get_tree_of_rows; cbn [history_tree]; rewrite Hrows.
  - f_equal. f_equal.
    + unfold otherBranches.
      rewrite <- (map_filter_comm
                    (fun row => treeRowBranch treeID row (decodedChain jsonUnmarshal row))
                    (fun b => negb (String.eqb (HistoryBranch.BranchID b)
                                      (HistoryBranch.BranchID branch)))).
      reflexivity.
    + rewrite filter_twice.
      rewrite (List.filter_ext _ (fun row => HistoryTreeRow.InProgress row && other row))
        by (intros row; apply andb_comm).
      rewrite <- filter_twice.
      apply map_eq_nil in Hnofork. rewrite Hnofork. reflexivity.
  - apply List.Forall_forall. intros row Hin. apply List.filter_In in Hin as [Hin _].
    rewrite List.Forall_forall in Hdec. now apply Hdec.
Qed.

(** X24. Completing a branch the store does not know fails and changes
    nothing. When no tree row is stored for the branch, CompleteForkBranch
    reports that no row of the tree table was affected, with success set or
    unset, and returns the store as it was, the nodes stored under the
    branch id included. *)
Theorem mem_complete_unknown_branch (request : InternalCompleteForkBranchRequest.t)
    (db : MemDB) :
  unknownBranch (InternalCompleteForkBranchRequest.BranchInfo request) db ->
  CompleteForkBranch (H := memDB dupEntry) request db
  = (Fail (RowsAffectedError "tree" 0), db).
Proof.
  intros Hunknown.
  set (branch := InternalCompleteForkBranchRequest.BranchInfo request) in *.
  assert (Hnone : forall row, In row (history_tree db) ->
            treeRowMatches
              (oneBranch (HistoryBranch.TreeID branch) (HistoryBranch.BranchID branch)) row
            = false).
  { intros row Hin. specialize (Hunknown row Hin).
    unfold treeRowMatches, oneBranch. simpl.
    destruct (String.eqb_spec (HistoryTreeRow.TreeID row) (HistoryBranch.TreeID branch)),
             (String.eqb_spec (HistoryTreeRow.BranchID row) (HistoryBranch.BranchID branch));
      simpl; tauto. }
  unfold CompleteForkBranch. fold branch. unfold MustParseUUID.
  destruct (InternalCompleteForkBranchRequest.Success request).
  - unfold bind, lift, ret, fail.
    cbn [UpdateHistoryTree memDB memUpdateHistoryTree].
    set (key := {| HistoryTreeRow.TreeID := HistoryBranch.TreeID branch;
                   HistoryTreeRow.BranchID := HistoryBranch.BranchID branch;
                   HistoryTreeRow.InProgress := false; HistoryTreeRow.CreatedTs := 0;
                   HistoryTreeRow.Ancestors := []; HistoryTreeRow.Info := "" |}).
    assert (Hold : forall row, In row (history_tree db) -> sameTreeKey key row = false).
    { intros row Hin. rewrite sameTreeKey_matches. exact (Hnone row Hin). }
    rewrite (filter_none (sameTreeKey key) (history_tree db) Hold).
    cbn [length affected SqlResult.RowsAffected Z.of_nat Z.eqb negb].
    f_equal. destruct db as [nodes tree]. cbn [history_node history_tree] in *. f_equal.
    rewrite <- (List.map_id tree) at 2.
    apply List.map_ext_in. intros row Hin. now rewrite (Hold row Hin).
  - unfold txExecute, bind, lift, ret, fail.
    cbn [DeleteFromHistoryNode DeleteFromHistoryTree memDB memDeleteFromHistoryNode
         memDeleteFromHistoryTree history_tree history_node].
    change {| HistoryTreeFilter.TreeID := HistoryBranch.TreeID branch;
              HistoryTreeFilter.BranchID := Some (HistoryBranch.BranchID branch) |}
      with (oneBranch (HistoryBranch.TreeID branch) (HistoryBranch.BranchID branch)).
    rewrite (filter_none _ (history_tree db) Hnone). reflexivity.
Qed.

(** X25. Forking to a branch id that is taken fails with the store's
    error. When a tree row is already stored under the new branch id,
    ForkHistoryBranch returns the duplicate-key error of the insert as it
    is, without translating it, and the store is left as it was. *)
Theorem mem_fork_taken_branch_id (now : Z) (request : InternalForkHistoryBranchRequest.t)
    (db : MemDB) (ancestors : bytes) (taken : HistoryTreeRow.t) :
  jsonMarshal (forkNewAncestors request) = Ok ancestors ->
  In taken (history_tree db) ->
  HistoryTreeRow.TreeID taken
  = HistoryBranch.TreeID (InternalForkHistoryBranchRequest.ForkBranchInfo request) ->
  HistoryTreeRow.BranchID taken = InternalForkHistoryBranchRequest.NewBranchID request ->
  ForkHistoryBranch (H := memDB dupEntry) jsonMarshal now request db
  = (Fail (MySQLError dupEntry "Duplicate entry"), db).
Proof.
  intros Hser Hin Ht Hb. unfold ForkHistoryBranch, serializeAncestors. rewrite Hser.
  unfold bind, lift, ret. cbn [InsertIntoHistoryTree memDB]. unfold memInsertIntoHistoryTree.
  replace (existsb _ (history_tree db)) with true; [reflexivity|].
  symmetry. apply existsb_exists. exists taken. split; [exact Hin|].
  unfold sameTreeKey, MustParseUUID. cbn [HistoryTreeRow.TreeID HistoryTreeRow.BranchID].
  rewrite Ht, Hb. now rewrite !String.eqb_refl.
Qed.

End MemListingFacts.

(** S5 and its completion: B3 is listed after B1, in progress until the
    fork is completed. *)
Lemma mem_fork_listing_witness :
  freshBranch (forkReq branchB1 2 B3) dbS2
  /\ memGetTree (listing T1) dbS2
     = Ok {| GetHistoryTreeResponse.Branches := [ branchB1 ];
             GetHistoryTreeResponse.ForkingInProgressBranches := [] |}
  /\ exists resp forked committed,
       memFork 0 (forkReq branchB1 2 B3) dbS2 = (Ok resp, forked)
       /\ memGetTree (listing T1) forked
          = Ok {| GetHistoryTreeResponse.Branches :=
                    [ branchB1; InternalForkHistoryBranchResponse.NewBranchInfo resp ];
                  GetHistoryTreeResponse.ForkingInProgressBranches :=
                    [ forkingEntry 0 (forkReq branchB1 2 B3) ] |}
       /\ memCompleteFork
            {| InternalCompleteForkBranchRequest.BranchInfo :=
                 InternalForkHistoryBranchResponse.NewBranchInfo resp;
               InternalCompleteForkBranchRequest.Success := true |} forked
          = (Ok tt, committed)
       /\ memGetTree (listing T1) committed
          = Ok {| GetHistoryTreeResponse.Branches :=
                    [ branchB1; InternalForkHistoryBranchResponse.NewBranchInfo resp ];
                  GetHistoryTreeResponse.ForkingInProgressBranches := [] |}.
Proof.
  split; [exact B3_is_fresh_in_S2|].
  assert (Hbefore : memGetTree (listing T1) dbS2
                    = Ok {| GetHistoryTreeResponse.Branches := [ branchB1 ];
                            GetHistoryTreeResponse.ForkingInProgressBranches := [] |})
    by evaluate.
  split; [exact Hbefore|].
  assert (Hread : binUnmarshal (concat (map encodeRange (HistoryBranch.Ancestors branchB2)))
                  = Ok (forkNewAncestors (forkReq branchB1 2 B3))) by evaluate.
  exact (mem_fork_listing 1062 binMarshal binUnmarshal 0 (forkReq branchB1 2 B3) dbS2
           (concat (map encodeRange (HistoryBranch.Ancestors branchB2))) _
           eq_refl Hread B3_is_fresh_in_S2 Hbefore).
Defined.

(** S1, first step: once B1 is born the tree lists it, committed. *)
Lemma mem_new_branch_listed_witness :
  memAppend 0 (appendReq true branchB1 1 100 "e1") dbEmpty = (Ok tt, dbBorn)
  /\ memGetTree (listing T1) dbBorn
     = Ok {| GetHistoryTreeResponse.Branches := [ branchB1 ];
             GetHistoryTreeResponse.ForkingInProgressBranches := [] |}.
Proof.
  assert (Hok : memAppend 0 (appendReq true branchB1 1 100 "e1") dbEmpty = (Ok tt, dbBorn))
    by evaluate.
  split; [exact Hok|].
  exact (mem_new_branch_listed 1062 binMarshal binUnmarshal 0
           (appendReq true branchB1 1 100 "e1") dbEmpty dbBorn []
           {| GetHistoryTreeResponse.Branches := [];
              GetHistoryTreeResponse.ForkingInProgressBranches := [] |}
           eq_refl eq_refl eq_refl Hok eq_refl).
Defined.

(** S4: once B2 is deleted the tree lists B1 alone. *)
Lemma mem_delete_unlists_branch_witness :
  memDelete (deleteReq branchB2) dbS3 = (Ok tt, dbS4)
  /\ memGetTree (listing T1) dbS3
     = Ok {| GetHistoryTreeResponse.Branches := [ branchB1; branchB2 ];
             GetHistoryTreeResponse.ForkingInProgressBranches := [] |}
  /\ memGetTree (listing T1) dbS4
     = Ok {| GetHistoryTreeResponse.Branches := [ branchB1 ];
             GetHistoryTreeResponse.ForkingInProgressBranches := [] |}.
Proof.
  assert (Hok : memDelete (deleteReq branchB2) dbS3 = (Ok tt, dbS4)) by evaluate.
  split; [exact Hok|].
  assert (E : memGetTree (listing T1) dbS3
              = Ok {| GetHistoryTreeResponse.Branches := [ branchB1; branchB2 ];
                      GetHistoryTreeResponse.ForkingInProgressBranches := [] |})
    by evaluate.
  split; [exact E|].
  destruct (mem_delete_unlists_branch 1062 binUnmarshal (deleteReq branchB2) dbS3 dbS4 Hok)
    as (before & Hbefore & _ & Hafter).
  unfold memGetTree in *.
  change (HistoryBranch.TreeID
            (InternalDeleteHistoryBranchRequest.BranchInfo (deleteReq branchB2)))
    with T1 in Hbefore, Hafter.
  rewrite E in Hbefore. injection Hbefore as <-.
  rewrite Hafter. reflexivity.
Defined.

(** In S2 no row is stored for B3: completing it fails either way and S2
    stays as it is. *)
Lemma mem_complete_unknown_branch_witness :
  unknownBranch (forkedBranch (forkReq branchB1 2 B3)) dbS2
  /\ memCompleteFork (completeReq (forkedBranch (forkReq branchB1 2 B3)) true) dbS2
     = (Fail (RowsAffectedError "tree" 0), dbS2)
  /\ memCompleteFork (completeReq (forkedBranch (forkReq branchB1 2 B3)) false) dbS2
     = (Fail (RowsAffectedError "tree" 0), dbS2).
Proof.
  assert (Hunknown : unknownBranch (forkedBranch (forkReq branchB1 2 B3)) dbS2)
    by exact (proj1 B3_is_fresh_in_S2).
  split; [exact Hunknown|]. split.
  - exact (mem_complete_unknown_branch 1062
             (completeReq (forkedBranch (forkReq branchB1 2 B3)) true) dbS2 Hunknown).
  - exact (mem_complete_unknown_branch 1062
             (completeReq (forkedBranch (forkReq branchB1 2 B3)) false) dbS2 Hunknown).
Defined.

(** In S5 the id B3 is taken: forking B1 to B3 once more fails with the
    duplicate-key error 1062 and S5 stays as it is. *)
Lemma mem_fork_taken_branch_id_witness :
  (exists taken, In taken (history_tree dbS5)
                 /\ HistoryTreeRow.TreeID taken = T1 /\ HistoryTreeRow.BranchID taken = B3)
  /\ memFork 9 (forkReq branchB1 2 B3) dbS5
     = (Fail (MySQLError 1062 "Duplicate entry"), dbS5).
Proof.
  assert (E : exists r1 taken, history_tree dbS5 = [ r1; taken ]
                               /\ HistoryTreeRow.TreeID taken = T1
                               /\ HistoryTreeRow.BranchID taken = B3)
    by (eexists; eexists; split; [evaluate | split; reflexivity]).
  destruct E as (r1 & taken & E & Ht & Hb).
  assert (Hin : In taken (history_tree dbS5)) by (rewrite E; right; now left).
  split; [exists taken; auto|].
  exact (mem_fork_taken_branch_id 1062 binMarshal 9 (forkReq branchB1 2 B3) dbS5 _ taken
           eq_refl Hin Ht Hb).
Defined.
